(** * python_package_cleaner: a shallow embedding and its properties

    The repository holds two scripts that shell out to [pip] and
    [pipdeptree], compute which installed packages nobody depends on, and
    drive a text menu to uninstall them:

    - [main.py]: the minimal variant (module [Main] below);
    - [python_package_cleaner.py]: the location-aware variant, which also
      classifies packages as system / required / application (module
      [Cleaner] below).

    Layout of this file:
    - [Py]: the Python string methods and the insertion-ordered [dict] the
      scripts rely on;
    - the data read from the tools (JSON objects, the dependency tree) and
      the classification as functions on values;
    - [Heap]: the classification loops at the level of Python objects in a
      store, where [set.add] and [d[k] = v] are in-place updates;
    - [IO]: a state-and-exception monad over the console and the
      subprocess log, in which the interactive parts are written;
    - [Menu]: the menu code the two scripts have in common;
    - [Main] and [Cleaner]: the two scripts;
    - the vocabulary of the statements, then the properties.

    Modelling choices.  A string is a sequence of code points below 256.
    The objects of the JSON documents have string fields, as pip and
    pipdeptree write them.  A child process always starts and ends; what it
    answers is a parameter ([IO.world]).  The console is a list of lines to
    be typed; reading past the last one raises [EOFError] as in Python. *)

From Stdlib Require Import ZArith Ascii.
From stdpp Require Import base option list gmap strings sets fin_maps.


(** ** Python strings and dicts *)

Module Py.

(** A [string] is read as a sequence of code points below 256.  On that
    range [str.isspace] holds for TAB..CR, FS..US, SPACE, NEL and NBSP. *)
Definition isspace (c : ascii) : bool :=
  let n := nat_of_ascii c in
  ((9 <=? n) && (n <=? 13)) || ((28 <=? n) && (n <=? 32))
  || (n =? 133) || (n =? 160).

(** [str.lower] on one code point: A..Z and the Latin-1 capitals
    (U+00C0..U+00DE without the multiplication sign U+00D7) move up by 32. *)
Definition lower_char (c : ascii) : ascii :=
  let n := nat_of_ascii c in
  if ((65 <=? n) && (n <=? 90))
     || ((192 <=? n) && (n <=? 222) && negb (n =? 215))
  then ascii_of_nat (n + 32) else c.

Fixpoint lower (s : string) : string :=
  match s with
  | EmptyString => EmptyString
  | String c s' => String (lower_char c) (lower s')
  end.

Fixpoint lstrip (s : string) : string :=
  match s with
  | EmptyString => EmptyString
  | String c s' => if isspace c then lstrip s' else s
  end.

Fixpoint rstrip (s : string) : string :=
  match s with
  | EmptyString => EmptyString
  | String c s' =>
      match rstrip s' with
      | EmptyString => if isspace c then EmptyString else String c EmptyString
      | r => String c r
      end
  end.

(** [s.strip()] *)
Definition strip (s : string) : string := rstrip (lstrip s).
Global Arguments strip : simpl never.
Global Arguments lower : simpl never.

(** [s.split(sep)] for a one-character separator: never returns the empty
    list: splitting the empty string gives one empty word. *)
Fixpoint split (sep : ascii) (s : string) : list string :=
  match s with
  | EmptyString => [EmptyString]
  | String c s' =>
      if Ascii.eqb c sep then EmptyString :: split sep s'
      else match split sep s' with
           | [] => [String c EmptyString]
           | w :: ws => String c w :: ws
           end
  end.

(** [s.startswith(p)] *)
Definition startswith (s p : string) : bool := String.prefix p s.

(** [c * n] for a one-character string [c]. *)
Fixpoint repeat_char (c : ascii) (n : nat) : string :=
  match n with
  | O => EmptyString
  | S n' => String c (repeat_char c n')
  end.

(** The format spec [{s:<w}]: pad on the right with spaces up to width [w]. *)
Definition ljust (w : nat) (s : string) : string :=
  s +:+ repeat_char " "%char (w - String.length s).

(** *** Insertion-ordered dictionaries

    A Python [dict] iterates in insertion order, and [d[k] = v] on a key
    already present replaces the value where the key stands.  Keys are
    strings throughout the scripts. *)
Definition dict (V : Type) : Type := list (string * V).

Definition keys {V} (d : dict V) : list string := d.*1.

Fixpoint get {V} (d : dict V) (k : string) : option V :=
  match d with
  | [] => None
  | (k', v) :: d' => if decide (k = k') then Some v else get d' k
  end.

(** [d[k] = v] *)
Fixpoint set {V} (k : string) (v : V) (d : dict V) : dict V :=
  match d with
  | [] => [(k, v)]
  | (k', v') :: d' =>
      if decide (k = k') then (k', v) :: d' else (k', v') :: set k v d'
  end.

(** [{key(x): val(x) for x in xs}], filling [d] in the order of [xs];
    [item x = None] stands for a key or value expression that raises. *)
Fixpoint comprehension {A V} (item : A → option (string * V))
    (xs : list A) (d : dict V) : option (dict V) :=
  match xs with
  | [] => Some d
  | x :: xs' => kv ← item x; comprehension item xs' (set kv.1 kv.2 d)
  end.

(** A list stands for a dict when no key occurs twice. *)
Definition wf {V} (d : dict V) : Prop := NoDup (keys d).

End Py.

(** ** Data read from the external tools *)

(** One object of [pip list --format=json]: a JSON object whose fields are
    strings, after [json.loads]. *)
Abbreviation pkg_obj := (gmap string string).

(** One dependency object of [pipdeptree --json]; the tool always writes its
    "package_name". *)
Record dependency := Dependency { package_name : string }.

(** One entry of [pipdeptree --json]; the "dependencies" key may be absent
    ([pkg.get("dependencies", [])]). *)
Record tree_entry := TreeEntry {
  package : string;
  dependencies : option (list dependency)
}.

(** The values of the mapping built by [get_installed_packages] in
    python_package_cleaner.py, which always sets "version"; "location" may
    be absent for
    [data.get("location", ...)] with the empty string as default. *)
Record pkg_data := PkgData {
  version : string;
  location : option string
}.

(** The values of the mapping built by [classify_packages]. *)
Record pkg_info := PkgInfo {
  info_version : string;
  used_by : string;
  system : bool
}.

Global Instance dependency_eq_dec : EqDecision dependency.
Proof. solve_decision. Defined.
Global Instance tree_entry_eq_dec : EqDecision tree_entry.
Proof. solve_decision. Defined.
Global Instance pkg_data_eq_dec : EqDecision pkg_data.
Proof. solve_decision. Defined.
Global Instance pkg_info_eq_dec : EqDecision pkg_info.
Proof. solve_decision. Defined.

(** The three categories of the specification, and the strings the script
    stores under "used_by" for them. *)
Inductive category := System | RequiredByOther | Application.

Definition category_label (c : category) : string :=
  match c with
  | System => "system (do not remove)"
  | RequiredByOther => "required by another package"
  | Application => "application"
  end.

(** ** The classification, as functions on values *)

(** Lines 56-59 of python_package_cleaner.py and 35-38 of main.py:
[[
    required_packages = set()
    for pkg in tree:
        for dep in pkg.get("dependencies", []):
            required_packages.add(dep["package_name"])
]] *)
Definition required_packages (tree : list tree_entry) : gset string :=
  foldl (λ req pkg,
           foldl (λ req dep, req ∪ {[ package_name dep ]})
                 req (default [] (dependencies pkg)))
        ∅ tree.

Definition system_dirs : list string :=
  ["/Library/"; "/System/"; "/Applications/Xcode.app/"].

Definition skip_packages : gset string :=
  {[ "pip"; "setuptools"; "wheel"; "pipdeptree" ]}.

(** Line 66-67. *)
Definition is_system (pkg : string) (data : pkg_data) : bool :=
  let pkg_path := default EmptyString (location data) in
  existsb (λ sd, Py.startswith pkg_path sd) system_dirs
  || bool_decide (pkg ∈ skip_packages).

(** Line 68. *)
Definition used_by_of (required : gset string) (pkg : string)
    (data : pkg_data) : string :=
  if is_system pkg data then "system (do not remove)"
  else if negb (bool_decide (pkg ∈ required)) then "application"
  else "required by another package".

(** Lines 69-73: the value stored at [classified[pkg]]. *)
Definition info_of (required : gset string) (pkg : string)
    (data : pkg_data) : pkg_info :=
  {| info_version := version data;
     used_by := used_by_of required pkg data;
     system := is_system pkg data |}.

(** Lines 56-74 of [classify_packages], given the parsed tree. *)
Definition classify (tree : list tree_entry)
    (installed_packages : Py.dict pkg_data) : Py.dict pkg_info :=
  let required := required_packages tree in
  foldl (λ classified item,
           Py.set item.1 (info_of required item.1 item.2) classified)
        [] installed_packages.

(** Line 89 of [interactive_uninstall]. *)
Definition orphaned (classified : Py.dict pkg_info) : list string :=
  (filter (λ item, used_by item.2 = "application") classified).*1.

(** Line 40 of main.py, for the name-to-version mapping of that script. *)
Definition orphans_of (tree : list tree_entry)
    (installed_packages : Py.dict string) : list string :=
  filter (λ pkg, pkg ∉ required_packages tree) (Py.keys installed_packages).

(** ** The classification loops on Python objects

    [required_packages.add(...)] and [classified[pkg] = ...] update an
    object in place, and [installed_packages] is the caller's own dict.  This
    module runs the same loops on a store of objects, so that what a call
    leaves behind in the store can be stated. *)

Module Heap.

Abbreviation loc := positive.

Inductive obj :=
| OInstalled (d : Py.dict pkg_data)   (* name -> {version, location} *)
| OVersions (d : Py.dict string)      (* name -> version, main.py *)
| OTree (t : list tree_entry)         (* json.loads of pipdeptree --json *)
| OSet (s : gset string)
| OClassified (d : Py.dict pkg_info)
| ONames (l : list string).

Abbreviation heap := (gmap loc obj).

(** A new object gets an identity no live object has. *)
Definition alloc (o : obj) (h : heap) : loc * heap :=
  let l := fresh (dom h) in (l, <[l := o]> h).

Definition read_tree (l : loc) (h : heap) : option (list tree_entry) :=
  match h !! l with Some (OTree t) => Some t | _ => None end.

Definition read_installed (l : loc) (h : heap)
    : option (Py.dict pkg_data) :=
  match h !! l with Some (OInstalled d) => Some d | _ => None end.

Definition read_versions (l : loc) (h : heap) : option (Py.dict string) :=
  match h !! l with Some (OVersions d) => Some d | _ => None end.

Definition read_set (l : loc) (h : heap) : option (gset string) :=
  match h !! l with Some (OSet s) => Some s | _ => None end.

(** [s.add(x)] on the set object at [l]. *)
Definition set_add (l : loc) (x : string) (h : heap) : option heap :=
  s ← read_set l h; Some (<[l := OSet (s ∪ {[ x ]})]> h).

(** [d[k] = v] on the dict object at [l]. *)
Definition setitem (l : loc) (k : string) (v : pkg_info) (h : heap)
    : option heap :=
  match h !! l with
  | Some (OClassified d) => Some (<[l := OClassified (Py.set k v d)]> h)
  | _ => None
  end.

(** A [for] loop whose body updates the store; [None] is a failed body. *)
Fixpoint for_each {A} (xs : list A) (body : A → heap → option heap)
    (h : heap) : option heap :=
  match xs with
  | [] => Some h
  | x :: xs' => h' ← body x h; for_each xs' body h'
  end.

(** Lines 56-59 of python_package_cleaner.py (35-38 of main.py) on the
    tree object at [lt]; returns the identity of [required_packages]. *)
Definition required_loop (lt : loc) (h : heap) : option (loc * heap) :=
  tree ← read_tree lt h;
  let '(lr, h) := alloc (OSet ∅) h in
  h ← for_each tree (λ pkg,
         for_each (default [] (dependencies pkg))
                  (λ dep, set_add lr (package_name dep))) h;
  Some (lr, h).

(** Lines 56-74 of [classify_packages]: [li] is the argument
    [installed_packages], [lt] the object bound to [tree] on line 55.
    Returns the identity of [classified]. *)
Definition classify_packages (li lt : loc) (h : heap)
    : option (loc * heap) :=
  '(lr, h) ← required_loop lt h;
  let '(lc, h) := alloc (OClassified []) h in
  items ← read_installed li h;
  h ← for_each items (λ item h,
         required ← read_set lr h;
         setitem lc item.1 (info_of required item.1 item.2) h) h;
  Some (lc, h).

(** Lines 35-41 of [find_orphans] in main.py: [li] is
    [installed_packages], [lt] is [tree].  Returns the identity of the
    list [orphans]. *)
Definition find_orphans (li lt : loc) (h : heap) : option (loc * heap) :=
  '(lr, h) ← required_loop lt h;
  installed ← read_versions li h;
  required ← read_set lr h;
  Some (alloc (ONames (filter (λ pkg, pkg ∉ required) (Py.keys installed))) h).

End Heap.

(** ** Console, subprocesses and exceptions *)

Module IO.

(** What the script does that can be seen from outside, in order. *)
Inductive event :=
| Print (line : string)          (* print(line) *)
| Prompt (text : string)         (* input(text) writes the prompt *)
| Run (argv : list string).      (* subprocess.run(argv, ...) *)

Inductive exn :=
| CalledProcessError | JSONDecodeError | KeyError | EOFError | SystemExit.

Global Instance event_eq_dec : EqDecision event.
Proof. solve_decision. Defined.
Global Instance exn_eq_dec : EqDecision exn.
Proof. solve_decision. Defined.

(** [subprocess.CompletedProcess] *)
Record completed := Completed { returncode : Z; stdout : string }.

(** Everything outside the script: the interpreter path, how a child
    process answers given what happened so far, and [json.loads] at the
    two shapes the scripts expect ([None]: the text does not parse). *)
Record world := World {
  sys_executable : string;
  subprocess : list event → list string → completed;
  json_packages : string → option (list pkg_obj);
  json_tree : string → option (list tree_entry)
}.

(** The lines still to be typed, and the log of events so far. *)
Record state := State { stdin : list string; log : list event }.

Inductive outcome (A : Type) :=
| Ok (a : A)
| Raise (e : exn)
| OutOfFuel.
Global Arguments Ok {A} a.
Global Arguments Raise {A} e.
Global Arguments OutOfFuel {A}.

Definition io (A : Type) : Type := state → outcome A * state.

Global Instance io_ret : MRet io := λ A a st, (Ok a, st).
Global Instance io_bind : MBind io := λ A B k m st,
  match m st with
  | (Ok a, st') => k a st'
  | (Raise e, st') => (Raise e, st')
  | (OutOfFuel, st') => (OutOfFuel, st')
  end.

Definition raise {A} (e : exn) : io A := λ st, (Raise e, st).
Definition out_of_fuel {A} : io A := λ st, (OutOfFuel, st).

Definition emit (e : event) : io () :=
  λ st, (Ok (), {| stdin := stdin st; log := log st ++ [e] |}).

Definition print (line : string) : io () := emit (Print line).

(** [input(text)]: the prompt is written, then a line is read; at end of
    input Python raises [EOFError]. *)
Definition input (text : string) : io string :=
  λ st,
    let log' := log st ++ [Prompt text] in
    match stdin st with
    | [] => (Raise EOFError, {| stdin := []; log := log' |})
    | line :: rest => (Ok line, {| stdin := rest; log := log' |})
    end.

(** [subprocess.run(argv, check=check)].  The child process is taken to
    start and to end: the call returns its [CompletedProcess], or with
    [check=True] and a status other than 0 raises [CalledProcessError]. *)
Definition subprocess_run (w : world) (argv : list string) (check : bool)
    : io completed :=
  λ st,
    let result := subprocess w (log st) argv in
    let st' := {| stdin := stdin st; log := log st ++ [Run argv] |} in
    if check && negb (returncode result =? 0)%Z
    then (Raise CalledProcessError, st')
    else (Ok result, st').

(** [try: m except e: handler] *)
Definition try_except {A} (m : io A) (e : exn) (handler : io A) : io A :=
  λ st, match m st with
        | (Raise e', st') => if decide (e' = e) then handler st'
                             else (Raise e', st')
        | r => r
        end.

(** [d[k]] inside an expression. *)
Definition getitem {V} (d : Py.dict V) (k : string) : io V :=
  match Py.get d k with Some v => mret v | None => raise KeyError end.

(** A value that a failed key lookup ([None]) turns into [KeyError]. *)
Definition or_key_error {A} (o : option A) : io A :=
  match o with Some a => mret a | None => raise KeyError end.

Definition or_decode_error {A} (o : option A) : io A :=
  match o with Some a => mret a | None => raise JSONDecodeError end.

(** [for x in xs: body(x)] *)
Fixpoint for_each {A} (xs : list A) (body : A → io ()) : io () :=
  match xs with
  | [] => mret ()
  | x :: xs' => body x;; for_each xs' body
  end.

Definition nl : string := String (ascii_of_nat 10) EmptyString.

(** An answer counts as yes when [answer.strip().lower() == "y"]. *)
Definition is_yes (answer : string) : bool :=
  bool_decide (Py.lower (Py.strip answer) = "y").
Global Arguments is_yes : simpl never.

End IO.

(** ** The menu loop shared by the two scripts

    Lines 81-98 of main.py and 116-133 of python_package_cleaner.py are the
    same loop up to the name of the orphan list and the dict the version is
    read from; [confirm] is the confirm-then-uninstall step of the script at
    hand. *)

Module Menu.
Import IO.

Definition selected_of (orphans : list string) (pkg_input : string)
    : list string :=
  Py.strip <$> filter (λ p, Py.strip p ∈ orphans) (Py.split ","%char pkg_input).

Definition enter_prompt : string :=
  "Enter package name(s) to uninstall (comma separated), or 'q' to quit: ".

Definition no_valid : string := "No valid packages selected. Try again.".

Definition more_prompt : string :=
  nl +:+ "Do you want to uninstall more packages? (y/n): ".

(** The body of the loop once the line is read; [again] is the next
    round, reached by [continue] and by the end of the body, and
    [mret ()] stands for [break]. *)
Definition round (again : io ()) (orphans : list string)
    (confirm : string → io ()) (line : string) : io () :=
  let pkg_input := Py.strip line in
  if bool_decide (Py.lower pkg_input = "q") then mret ()
  else
    let selected := selected_of orphans pkg_input in
    match selected with
    | [] => print no_valid;; again
    | _ =>
        for_each selected confirm;;
        more ← input more_prompt;
        if negb (is_yes more) then mret () else again
    end.

(** [while True: ...]; [fuel] bounds the number of rounds. *)
Fixpoint selective_loop (fuel : nat) (orphans : list string)
    (confirm : string → io ()) : io () :=
  match fuel with
  | O => out_of_fuel
  | S fuel' =>
      line ← input enter_prompt;
      round (selective_loop fuel' orphans confirm) orphans confirm line
  end.
Global Arguments selective_loop : simpl never.

(** Every round reads a line or ends the loop, so one round more than
    there are lines left is enough. *)
Definition selective (orphans : list string) (confirm : string → io ())
    : io () :=
  λ st, selective_loop (S (length (stdin st))) orphans confirm st.

Definition ask_any : string :=
  nl +:+ "Do you want to uninstall any of these packages? (y/n): ".

Definition confirm_prompt (pkg version : string) : string :=
  "Do you want to uninstall " +:+ pkg +:+ " (" +:+ version +:+ ")? (y/n): ".

Definition bullet (pkg version : string) : string :=
  " - " +:+ pkg +:+ " (" +:+ version +:+ ")".

(** The three lines printed before the mode is read. *)
Definition print_options : io () :=
  print (nl +:+ "Choose an option:");;
  print "1. Uninstall all orphaned packages";;
  print "2. Uninstall specific package(s)".

Definition finished : string :=
  nl +:+ "Finished uninstalling selected orphaned packages.".

(** Lines 73-101 of main.py, 108-135 of python_package_cleaner.py, after
    [option = input("Enter 1 or 2: ").strip()]. *)
Definition dispatch (option : string) (orphans : list string)
    (confirm : string → io ()) : io () :=
  if bool_decide (option = "1") then
    for_each orphans confirm;; print finished
  else if bool_decide (option = "2") then
    selective orphans confirm
  else print "Invalid option. Exiting.".

End Menu.

(** ** main.py *)

Module Main.
Import IO Menu.

(** Line 19: [{pkg["name"]: pkg["version"] for pkg in packages}] *)
Definition versions_of_json (packages : list pkg_obj)
    : option (Py.dict string) :=
  Py.comprehension
    (λ pkg : pkg_obj,
       name ← pkg !! "name"; version ← pkg !! "version";
       Some (name, version))
    packages [].

Section Script.
Variable w : world.

Definition get_installed_packages : io (Py.dict string) :=
  result ← subprocess_run w
             ["python3"; "-m"; "pip"; "list"; "--format=json"] true;
  packages ← or_decode_error (json_packages w (stdout result));
  or_key_error (versions_of_json packages).

Definition get_dependency_tree : io (list tree_entry) :=
  result ← subprocess_run w
             ["python3"; "-m"; "pipdeptree"; "--json"] true;
  or_decode_error (json_tree w (stdout result)).

Definition find_orphans : io (list string * Py.dict string) :=
  installed_packages ← get_installed_packages;
  tree ← get_dependency_tree;
  mret (orphans_of tree installed_packages, installed_packages).

Definition uninstall_argv (pkg_name : string) : list string :=
  ["python3"; "-m"; "pip"; "uninstall"; pkg_name; "-y"].

Definition uninstall_package (pkg_name : string) : io () :=
  print (nl +:+ "Uninstalling " +:+ pkg_name +:+ "...");;
  subprocess_run w (uninstall_argv pkg_name) false;;
  mret ().

(** Lines 75-77 and 92-94. *)
Definition confirm_uninstall (installed_packages : Py.dict string)
    (pkg : string) : io () :=
  version ← getitem installed_packages pkg;
  confirm ← input (confirm_prompt pkg version);
  if is_yes confirm then uninstall_package pkg else mret ().

(** Lines 56-101 of the script body. *)
Definition menu (orphans : list string)
    (installed_packages : Py.dict string) : io () :=
  match orphans with
  | [] => print (nl +:+ "No orphaned packages found.")
  | _ =>
      print (nl +:+ "Orphaned packages (not required by any other package):");;
      for_each orphans (λ pkg,
        version ← getitem installed_packages pkg;
        print (bullet pkg version));;
      choice ← input ask_any;
      if negb (is_yes choice) then
        print "No packages were uninstalled.";; raise SystemExit
      else
        print_options;;
        option ← input "Enter 1 or 2: ";
        dispatch (Py.strip option) orphans
                 (confirm_uninstall installed_packages)
  end.

(** Lines 48-101. *)
Definition main : io () :=
  print "Scanning installed packages...";;
  '(orphans, installed_packages) ← find_orphans;
  print (nl +:+ "Installed packages:");;
  for_each installed_packages (λ item, print (bullet item.1 item.2));;
  menu orphans installed_packages.

End Script.
End Main.

(** ** python_package_cleaner.py *)

Module Cleaner.
Import IO Menu.

(** Lines 36-42: the dict comprehension of [get_installed_packages]. *)
Definition installed_of_json (packages : list pkg_obj)
    : option (Py.dict pkg_data) :=
  Py.comprehension
    (λ pkg : pkg_obj,
       name ← pkg !! "name"; version ← pkg !! "version";
       Some (name, {| version := version;
                      location := Some (default EmptyString (pkg !! "Location")) |}))
    packages [].

Section Script.
Variable w : world.

Definition probe_argv : list string :=
  [sys_executable w; "-m"; "pipdeptree"; "--version"].
Definition install_argv : list string :=
  [sys_executable w; "-m"; "pip"; "install"; "pipdeptree"].
Definition list_argv : list string :=
  [sys_executable w; "-m"; "pip"; "list"; "--format=json"; "--verbose"].
Definition tree_argv : list string :=
  [sys_executable w; "-m"; "pipdeptree"; "--json"].
Definition uninstall_argv (pkg_name : string) : list string :=
  [sys_executable w; "-m"; "pip"; "uninstall"; pkg_name; "-y"].

Definition ensure_pipdeptree : io () :=
  try_except
    (subprocess_run w probe_argv true;; mret ())
    CalledProcessError
    (print "pipdeptree not found. Installing...";;
     subprocess_run w install_argv true;;
     print "pipdeptree installed successfully.").

Definition get_installed_packages : io (Py.dict pkg_data) :=
  result ← subprocess_run w list_argv true;
  packages ← or_decode_error (json_packages w (stdout result));
  or_key_error (installed_of_json packages).

Definition get_dependency_tree : io (list tree_entry) :=
  result ← subprocess_run w tree_argv true;
  or_decode_error (json_tree w (stdout result)).

Definition classify_packages (installed_packages : Py.dict pkg_data)
    : io (Py.dict pkg_info) :=
  tree ← get_dependency_tree;
  mret (classify tree installed_packages).

Definition display_packages (classified : Py.dict pkg_info) : io () :=
  print (Py.ljust 20 "Package" +:+ " " +:+ Py.ljust 10 "Version"
         +:+ " " +:+ "Used By");;
  print (Py.repeat_char "-"%char 50);;
  for_each classified (λ item,
    print (Py.ljust 20 item.1 +:+ " "
           +:+ Py.ljust 10 (info_version item.2) +:+ " "
           +:+ used_by item.2)).

Definition uninstall_package (pkg_name : string) : io () :=
  print (nl +:+ "Uninstalling " +:+ pkg_name +:+ "...");;
  subprocess_run w (uninstall_argv pkg_name) false;;
  mret ().

(** Lines 110-112 and 127-129. *)
Definition confirm_uninstall (classified : Py.dict pkg_info)
    (pkg : string) : io () :=
  info ← getitem classified pkg;
  confirm ← input (confirm_prompt pkg (info_version info));
  if is_yes confirm then uninstall_package pkg else mret ().

Definition interactive_uninstall (classified : Py.dict pkg_info)
    : io () :=
  let orphaned := orphaned classified in
  match orphaned with
  | [] => print (nl +:+ "No orphaned packages safe to uninstall.")
  | _ =>
      print (nl +:+ "Orphaned packages safe to uninstall:");;
      for_each orphaned (λ pkg,
        info ← getitem classified pkg;
        print (bullet pkg (info_version info)));;
      choice ← input ask_any;
      if negb (is_yes choice) then mret ()
      else
        print_options;;
        option ← input "Enter 1 or 2: ";
        dispatch (Py.strip option) orphaned (confirm_uninstall classified)
  end.

(** Lines 137-143. *)
Definition main : io () :=
  ensure_pipdeptree;;
  print "Scanning installed packages...";;
  installed_packages ← get_installed_packages;
  classified ← classify_packages installed_packages;
  display_packages classified;;
  interactive_uninstall classified.

End Script.
End Cleaner.

(** ** Vocabulary of the statements *)

(** The names in the dependency list of one entry. *)
Definition dep_names (pkg : tree_entry) : list string :=
  package_name <$> default [] (dependencies pkg).

(** Two trees that differ only in the order of the dependency lists, entry
    by entry. *)
Definition same_deps_up_to_order (T T' : list tree_entry) : Prop :=
  Forall2 (λ e e', default [] (dependencies e) ≡ₚ default [] (dependencies e'))
          T T'.

(** The condition under which the script sets [is_system]. *)
Definition protected (pkg : string) (data : pkg_data) : Prop :=
  (∃ sd rest, sd ∈ system_dirs
              ∧ default EmptyString (location data) = sd +:+ rest)
  ∨ pkg = "pip" ∨ pkg = "setuptools" ∨ pkg = "wheel" ∨ pkg = "pipdeptree".

(** The argument vectors of the child processes in a list of events. *)
Definition runs (evs : list IO.event) : list (list string) :=
  omap (λ e, match e with IO.Run argv => Some argv | _ => None end) evs.

(** An event that, if it is the uninstall command [argv_of name] for some
    [name], has that name in [allowed]. *)
Definition only_uninstalls (argv_of : string → list string)
    (allowed : list string) (e : IO.event) : Prop :=
  ∀ name, e = IO.Run (argv_of name) → name ∈ allowed.

(** What a run of [m] from [st] may do: add events that satisfy [P] to the
    log and nothing else, read lines without putting any back, and neither
    raise [KeyError] nor stop for lack of fuel. *)
Definition sound_at {A} (P : IO.event → Prop) (m : IO.io A)
    (st : IO.state) : Prop :=
  (m st).1 ≠ IO.Raise IO.KeyError
  ∧ (m st).1 ≠ IO.OutOfFuel
  ∧ length (IO.stdin (m st).2) ≤ length (IO.stdin st)
  ∧ ∃ evs, IO.log (m st).2 = IO.log st ++ evs ∧ Forall P evs.

(** The events of one confirm-then-uninstall step: the question, and after a
    yes the notice and the uninstall command [argv_of pkg]. *)
Definition confirm_events (argv_of : string → list string)
    (pkg version answer : string) : list IO.event :=
  IO.Prompt (Menu.confirm_prompt pkg version)
  :: if IO.is_yes answer
     then [IO.Print (IO.nl +:+ "Uninstalling " +:+ pkg +:+ "...");
           IO.Run (argv_of pkg)]
     else [].

(** What the selective mode does with the names it is given, for a list of
    orphans, a confirm step and the uninstall command of the script:
    - a line none of whose names is an orphan selects nothing;
    - on an empty selection the loop prints the message and goes on with the
      lines that remain, asking for names again;
    - two lines that select the same orphans behave alike, so the other names
      on them leave no trace;
    - whatever is typed, an uninstall command names an orphan. *)
Definition selective_mode_filters (orphans : list string)
    (confirm : string → IO.io ()) (argv_of : string → list string) : Prop :=
  (∀ line,
     (∀ p, p ∈ Py.split ","%char (Py.strip line) → Py.strip p ∉ orphans) →
     Menu.selected_of orphans (Py.strip line) = [])
  ∧ (∀ line rest tr,
       Py.lower (Py.strip line) ≠ "q" →
       Menu.selected_of orphans (Py.strip line) = [] →
       Menu.selective orphans confirm (IO.State (line :: rest) tr)
       = Menu.selective orphans confirm
           (IO.State rest (tr ++ [IO.Prompt Menu.enter_prompt;
                                  IO.Print Menu.no_valid]))
       ∧ ∃ evs,
           IO.log (Menu.selective orphans confirm
                     (IO.State (line :: rest) tr)).2
           = tr ++ [IO.Prompt Menu.enter_prompt; IO.Print Menu.no_valid;
                    IO.Prompt Menu.enter_prompt] ++ evs)
  ∧ (∀ line1 line2 rest tr,
       Py.lower (Py.strip line1) ≠ "q" →
       Py.lower (Py.strip line2) ≠ "q" →
       Menu.selected_of orphans (Py.strip line1)
       = Menu.selected_of orphans (Py.strip line2) →
       Menu.selective orphans confirm (IO.State (line1 :: rest) tr)
       = Menu.selective orphans confirm (IO.State (line2 :: rest) tr))
  ∧ (∀ st, sound_at (only_uninstalls argv_of orphans)
                    (Menu.selective orphans confirm) st).

(** A run of [m] from [st] that ends with a value or with an exception in
    [E] (and not for lack of fuel), reads lines without putting any back,
    and adds to the log a list of events that satisfies [G]. *)
Definition behaves {A} (E : IO.exn → Prop) (G : list IO.event → Prop)
    (m : IO.io A) (st : IO.state) : Prop :=
  match (m st).1 with
  | IO.Ok _ => True
  | IO.Raise e => E e
  | IO.OutOfFuel => False
  end
  ∧ length (IO.stdin (m st).2) ≤ length (IO.stdin st)
  ∧ ∃ evs, IO.log (m st).2 = IO.log st ++ evs ∧ G evs.

(** An event that, if it starts a child process, starts the uninstall
    command [argv_of name] of some [name] in [allowed]. *)
Definition runs_only_uninstalls (argv_of : string → list string)
    (allowed : list string) (e : IO.event) : Prop :=
  ∀ argv, e = IO.Run argv → ∃ name, name ∈ allowed ∧ argv = argv_of name.

(** A list of events in which every uninstall command [argv_of name] comes
    right after the question about [name] and the notice for [name]. *)
Definition asked_first (argv_of : string → list string)
    (evs : list IO.event) : Prop :=
  ∀ pre post name,
    evs = pre ++ IO.Run (argv_of name) :: post →
    ∃ pre' version,
      pre = pre' ++ [IO.Prompt (Menu.confirm_prompt name version);
                     IO.Print (IO.nl +:+ "Uninstalling " +:+ name +:+ "...")].

(** The packages of [orphans] whose answer, taken in order from [answers],
    is a yes. *)
Definition confirmed (orphans answers : list string) : list string :=
  (filter (λ pa, IO.is_yes pa.2 = true) (zip orphans answers)).*1.

(** The events of the confirm steps for [orphans] answered by [answers], one
    after the other. *)
Definition bulk_events (argv_of : string → list string)
    (version_of : string → string) (orphans answers : list string)
    : list IO.event :=
  concat (zip_with (λ pkg answer,
                      confirm_events argv_of pkg (version_of pkg) answer)
                   orphans answers).

(** The version shown for [pkg] by python_package_cleaner.py and by
    main.py (the empty string stands in where there is no entry). *)
Definition cleaner_version (classified : Py.dict pkg_info) (pkg : string)
    : string :=
  from_option info_version EmptyString (Py.get classified pkg).

Definition main_version (installed_packages : Py.dict string)
    (pkg : string) : string :=
  default EmptyString (Py.get installed_packages pkg).

(** What the menus write before the mode is chosen: the heading, one line
    per orphan with its version, and the first question; then the three
    lines of options and the question for the mode. *)
Definition cleaner_intro (classified : Py.dict pkg_info) : list IO.event :=
  IO.Print (IO.nl +:+ "Orphaned packages safe to uninstall:")
  :: ((λ pkg, IO.Print (Menu.bullet pkg (cleaner_version classified pkg)))
      <$> orphaned classified)
  ++ [IO.Prompt Menu.ask_any].

Definition main_intro (orphans : list string)
    (installed_packages : Py.dict string) : list IO.event :=
  IO.Print (IO.nl
            +:+ "Orphaned packages (not required by any other package):")
  :: ((λ pkg, IO.Print (Menu.bullet pkg (main_version installed_packages pkg)))
      <$> orphans)
  ++ [IO.Prompt Menu.ask_any].

Global Arguments cleaner_intro : simpl never.
Global Arguments main_intro : simpl never.

Definition options_events : list IO.event :=
  [IO.Print (IO.nl +:+ "Choose an option:");
   IO.Print "1. Uninstall all orphaned packages";
   IO.Print "2. Uninstall specific package(s)";
   IO.Prompt "Enter 1 or 2: "].


(** One row of the table printed by [display_packages], and the part of it
    that stands before the "used by" label. *)
Definition table_left (pkg : string) (info : pkg_info) : string :=
  Py.ljust 20 pkg +:+ " " +:+ Py.ljust 10 (info_version info) +:+ " ".

Definition table_row (pkg : string) (info : pkg_info) : string :=
  Py.ljust 20 pkg +:+ " " +:+ Py.ljust 10 (info_version info) +:+ " "
  +:+ used_by info.

(** ** Proof steps that recur *)

(** Closes a goal from the hypothesis that an event is a member of a list
    written out in which it does not occur. *)
Ltac no_such_event H :=
  repeat (apply elem_of_cons in H as [H|H]; [by inversion H|]);
  by apply elem_of_nil in H.

(** * Properties *)

(** ** Strings *)

Section py_strings.

Lemma startswith_spec (s p : string) :
  Py.startswith s p = true ↔ ∃ rest, s = p +:+ rest.
Proof.
  unfold Py.startswith. revert s.
  induction p as [|a p IH]; intros s.
  - split; [intros _; by exists s | by destruct s].
  - destruct s as [|b s]; simpl.
    + split; [done | intros [rest Hr]; discriminate].
    + destruct (ascii_dec a b) as [->|Hab].
      * rewrite IH. split; intros [rest Hr]; exists rest.
        -- by rewrite Hr.
        -- by injection Hr.
      * split; [done | intros [rest Hr]; injection Hr; congruence].
Qed.

Lemma category_label_inj : Inj (=) (=) category_label.
Proof. intros [] [] H; (done || discriminate H). Qed.

End py_strings.

(** ** Dictionaries *)

Section py_dict.
Context {V : Type}.
Implicit Types (d : Py.dict V) (k : string) (v : V).

Lemma keys_set_fresh k v d :
  k ∉ Py.keys d → Py.set k v d = d ++ [(k, v)].
Proof.
  induction d as [|[k' v'] d IH]; simpl; [done|].
  intros Hk. apply not_elem_of_cons in Hk as [Hne Hk].
  rewrite decide_False by done. by rewrite IH.
Qed.

Lemma elem_of_keys_set k k' v d :
  k' ∈ Py.keys (Py.set k v d) ↔ k' = k ∨ k' ∈ Py.keys d.
Proof.
  induction d as [|[k0 v0] d IH]; simpl.
  - rewrite list_elem_of_singleton. set_solver.
  - case_decide as Hk; simpl.
    + subst. set_solver.
    + rewrite !elem_of_cons, IH. naive_solver.
Qed.

Lemma wf_set k v d : Py.wf d → Py.wf (Py.set k v d).
Proof.
  unfold Py.wf. induction d as [|[k0 v0] d IH]; simpl.
  - intros _. apply NoDup_singleton.
  - rewrite NoDup_cons. intros [Hk0 Hd].
    case_decide as Hk; simpl.
    + by apply NoDup_cons.
    + apply NoDup_cons. split; [|by apply IH].
      change (k0 ∉ Py.keys (Py.set k v d)).
      rewrite elem_of_keys_set. naive_solver.
Qed.

Lemma get_set k k' v d :
  Py.get (Py.set k v d) k' = if decide (k' = k) then Some v else Py.get d k'.
Proof.
  induction d as [|[k0 v0] d IH]; simpl.
  - repeat case_decide; simplify_eq; done.
  - repeat (case_decide; simpl; simplify_eq); try done.
Qed.

Lemma get_is_Some k d : is_Some (Py.get d k) ↔ k ∈ Py.keys d.
Proof.
  induction d as [|[k0 v0] d IH]; simpl.
  - rewrite elem_of_nil. split; [by intros [? ?] | done].
  - case_decide; subst; rewrite elem_of_cons; [naive_solver|].
    rewrite IH. naive_solver.
Qed.

Lemma get_elem_of k v d : Py.get d k = Some v → (k, v) ∈ d.
Proof.
  induction d as [|[k0 v0] d IH]; simpl; [done|].
  case_decide; intros; simplify_eq; [left | right; auto].
Qed.

Lemma elem_of_get k v d : Py.wf d → (k, v) ∈ d → Py.get d k = Some v.
Proof.
  unfold Py.wf. induction d as [|[k0 v0] d IH]; simpl.
  - by intros _ ?%elem_of_nil.
  - rewrite NoDup_cons. intros [Hk0 Hd] [Heq|Hin]%elem_of_cons.
    + simplify_eq. by rewrite decide_True.
    + case_decide as Hk; [|by apply IH].
      subst. destruct Hk0. apply list_elem_of_fmap. by exists (k0, v).
Qed.

End py_dict.

(** A loop [for x in xs: d[key(x)] = val(x)] over distinct keys that are
    not yet in [d] appends one entry per item, in order. *)
Lemma fill_fresh {A V} (key : A → string) (val : A → V) (xs : list A)
    (d : Py.dict V) :
  NoDup (Py.keys d ++ (key <$> xs)) →
  foldl (λ acc x, Py.set (key x) (val x) acc) d xs
  = d ++ ((λ x, (key x, val x)) <$> xs).
Proof.
  revert d. induction xs as [|x xs IH]; intros d Hnd; simpl.
  - by rewrite app_nil_r.
  - simpl in Hnd. apply NoDup_app in Hnd as (Hd & Hdisj & Hit).
    apply NoDup_cons in Hit as [Hk Hit].
    rewrite keys_set_fresh by (intros Hin; eapply Hdisj; [done | left]).
    rewrite IH.
    + by rewrite <-app_assoc.
    + unfold Py.keys. rewrite fmap_app. simpl. rewrite <-app_assoc. simpl.
      apply NoDup_app. split_and!; [done | | by apply NoDup_cons].
      intros k' Hk'. by apply Hdisj.
Qed.

(** A comprehension none of whose items raises is the loop that fills the
    dict. *)
Lemma comprehension_Some {A V} (item : A → option (string * V))
    (key : A → string) (val : A → V) (xs : list A) (d : Py.dict V) :
  (∀ x, x ∈ xs → item x = Some (key x, val x)) →
  Py.comprehension item xs d
  = Some (foldl (λ acc x, Py.set (key x) (val x) acc) d xs).
Proof.
  revert d. induction xs as [|x xs IH]; intros d Hxs; simpl; [done|].
  rewrite Hxs by left. simpl. apply IH. intros y Hy. apply Hxs. by right.
Qed.

(** The same loop from any start: keys stay distinct, the key set grows by
    the keys of the items, and every value is either old or some [f k x]. *)
Lemma fill_invariant {A V} (f : string → A → V) (P : string → V → Prop)
    (items : list (string * A)) (d : Py.dict V) :
  let out := foldl (λ acc item, Py.set item.1 (f item.1 item.2) acc) d items in
  Py.wf d →
  (∀ k v, Py.get d k = Some v → P k v) →
  (∀ k x, (k, x) ∈ items → P k (f k x)) →
  Py.wf out
  ∧ (∀ k, k ∈ Py.keys out ↔ k ∈ Py.keys d ∨ k ∈ items.*1)
  ∧ (∀ k v, Py.get out k = Some v → P k v).
Proof.
  revert d. induction items as [|[k x] items IH]; intros d; simpl.
  - intros Hwf HP _. split_and!; [done | | done].
    intros k. rewrite elem_of_nil. naive_solver.
  - intros Hwf HP Hf.
    destruct (IH (Py.set k (f k x) d)) as (Hwf' & Hkeys & HP').
    + by apply wf_set.
    + intros k' v. rewrite get_set. case_decide; [|by apply HP].
      intros; simplify_eq. apply Hf. left.
    + intros k' x' Hin. apply Hf. by right.
    + split_and!; [done | | done].
      intros k'. rewrite Hkeys, elem_of_keys_set, elem_of_cons. naive_solver.
Qed.

(** ** The required set *)

Lemma add_deps (req : gset string) (deps : list dependency) :
  foldl (λ req dep, req ∪ {[ package_name dep ]}) req deps
  = req ∪ list_to_set (package_name <$> deps).
Proof.
  revert req. induction deps as [|dep deps IH]; intros req; simpl.
  - set_solver.
  - rewrite IH. set_solver.
Qed.

Lemma add_entries (req : gset string) (tree : list tree_entry) :
  foldl (λ req pkg,
           foldl (λ req dep, req ∪ {[ package_name dep ]})
                 req (default [] (dependencies pkg))) req tree
  = req ∪ list_to_set (tree ≫= dep_names).
Proof.
  revert req. induction tree as [|pkg tree IH]; intros req; simpl.
  - set_solver.
  - rewrite IH, add_deps. unfold dep_names at 2.
    rewrite list_to_set_app_L. set_solver.
Qed.

Lemma required_packages_flat (tree : list tree_entry) :
  required_packages tree = list_to_set (tree ≫= dep_names).
Proof. unfold required_packages. rewrite add_entries. set_solver. Qed.

Lemma elem_of_required_packages (tree : list tree_entry) (name : string) :
  name ∈ required_packages tree
  ↔ ∃ pkg dep, pkg ∈ tree ∧ dep ∈ default [] (dependencies pkg)
               ∧ package_name dep = name.
Proof.
  rewrite required_packages_flat, elem_of_list_to_set, list_elem_of_bind.
  unfold dep_names. setoid_rewrite list_elem_of_fmap. naive_solver.
Qed.

(** C1.  The set computed by the two nested loops is exactly the set of
    [package_name] values found in the dependency lists of the tree: a name
    is a member if and only if some entry lists a dependency of that name;
    listing the set gives no name twice; and the set is the same after the
    entries are reordered and after the dependency list of any entry is
    reordered. *)
Theorem required_packages_exact (T : list tree_entry) :
  (∀ name, name ∈ required_packages T
           ↔ ∃ pkg dep, pkg ∈ T ∧ dep ∈ default [] (dependencies pkg)
                        ∧ package_name dep = name)
  ∧ NoDup (elements (required_packages T))
  ∧ (∀ T', T ≡ₚ T' → required_packages T' = required_packages T)
  ∧ (∀ T', same_deps_up_to_order T T' →
           required_packages T' = required_packages T).
Proof.
  split_and!.
  - apply elem_of_required_packages.
  - apply NoDup_elements.
  - intros T' HT. apply set_eq. intros name.
    rewrite !elem_of_required_packages.
    by setoid_rewrite HT.
  - intros T' HT. apply set_eq. intros name.
    rewrite !elem_of_required_packages. split.
    + intros (pkg' & dep & Hpkg & Hdep & Hname).
      apply list_elem_of_lookup in Hpkg as [i Hi].
      destruct (Forall2_lookup_r _ _ _ _ _ HT Hi) as (pkg & Hpkg & Hperm).
      exists pkg, dep. split_and!; [| |done].
      * by eapply list_elem_of_lookup_2.
      * by rewrite Hperm.
    + intros (pkg & dep & Hpkg & Hdep & Hname).
      apply list_elem_of_lookup in Hpkg as [i Hi].
      destruct (Forall2_lookup_l _ _ _ _ _ HT Hi) as (pkg' & Hpkg' & Hperm).
      exists pkg', dep. split_and!; [| |done].
      * by eapply list_elem_of_lookup_2.
      * by rewrite <-Hperm.
Qed.

(** An instance: a tree of two entries, swapped and with the
    dependency list of one entry reversed. *)
Lemma required_packages_exact_witness :
  let T := [TreeEntry "flask" (Some [Dependency "jinja2"; Dependency "click"]);
            TreeEntry "jinja2" (Some [Dependency "markupsafe"])] in
  let T1 := [TreeEntry "jinja2" (Some [Dependency "markupsafe"]);
             TreeEntry "flask" (Some [Dependency "jinja2"; Dependency "click"])] in
  let T2 := [TreeEntry "flask" (Some [Dependency "click"; Dependency "jinja2"]);
             TreeEntry "jinja2" (Some [Dependency "markupsafe"])] in
  required_packages T1 = required_packages T
  ∧ required_packages T2 = required_packages T.
Proof.
  intros T T1 T2.
  pose proof (required_packages_exact T) as (_ & _ & Hperm & Hdeps).
  split.
  - apply Hperm. apply perm_swap.
  - apply Hdeps. repeat constructor.
Defined.

(** ** The classification *)

Lemma classify_wf (tree : list tree_entry) (I : Py.dict pkg_data) :
  Py.wf I →
  classify tree I
  = (λ item, (item.1, info_of (required_packages tree) item.1 item.2)) <$> I.
Proof.
  intros HI. unfold classify.
  by rewrite (fill_fresh fst (λ item, info_of _ item.1 item.2)).
Qed.

Lemma classify_keys_wf (tree : list tree_entry) (I : Py.dict pkg_data) :
  Py.wf I → Py.keys (classify tree I) = Py.keys I.
Proof.
  intros HI. rewrite classify_wf by done. unfold Py.keys.
  rewrite <-list_fmap_compose. by apply list_fmap_ext.
Qed.

Lemma classify_get (tree : list tree_entry) (I : Py.dict pkg_data)
    (pkg : string) (data : pkg_data) :
  Py.wf I → (pkg, data) ∈ I →
  Py.get (classify tree I) pkg
  = Some (info_of (required_packages tree) pkg data).
Proof.
  intros HI Hin. apply elem_of_get.
  - unfold Py.wf. by rewrite classify_keys_wf.
  - rewrite classify_wf by done. apply list_elem_of_fmap.
    by exists (pkg, data).
Qed.

Lemma is_system_spec (pkg : string) (data : pkg_data) :
  is_system pkg data = true ↔ protected pkg data.
Proof.
  unfold is_system, protected.
  rewrite orb_true_iff, existsb_exists, bool_decide_eq_true.
  setoid_rewrite startswith_spec. setoid_rewrite <-list_elem_of_In.
  unfold skip_packages. rewrite !elem_of_union, !elem_of_singleton.
  naive_solver.
Qed.

Lemma used_by_of_cases (required : gset string) (pkg : string)
    (data : pkg_data) :
  (used_by_of required pkg data = category_label System
   ↔ protected pkg data)
  ∧ (used_by_of required pkg data = category_label RequiredByOther
     ↔ ¬ protected pkg data ∧ pkg ∈ required)
  ∧ (used_by_of required pkg data = category_label Application
     ↔ ¬ protected pkg data ∧ pkg ∉ required).
Proof.
  rewrite <-is_system_spec. unfold used_by_of.
  destruct (is_system pkg data); simpl.
  - split_and!; split; (done || naive_solver).
  - case_bool_decide; simpl; split_and!; split;
      (done || naive_solver || (intros; discriminate)).
Qed.

(** C2.  For an installed mapping [I] and any tree, the entry the script
    stores for a package [pkg] of [I] follows the first matching rule in the
    order System, RequiredByOther, Application: it is labelled System exactly
    when the location starts with one of [system_dirs] or the name is one of
    pip, setuptools, wheel, pipdeptree; otherwise RequiredByOther exactly
    when the name is in the required set; otherwise Application.  So a
    protected package that is also required is System, and a package neither
    protected nor required is Application. *)
Theorem classify_first_match (tree : list tree_entry)
    (I : Py.dict pkg_data) (pkg : string) (data : pkg_data) :
  Py.wf I → (pkg, data) ∈ I →
  ∃ info,
    Py.get (classify tree I) pkg = Some info
    ∧ info_version info = version data
    ∧ (system info = true ↔ protected pkg data)
    ∧ (used_by info = category_label System ↔ protected pkg data)
    ∧ (used_by info = category_label RequiredByOther
       ↔ ¬ protected pkg data ∧ pkg ∈ required_packages tree)
    ∧ (used_by info = category_label Application
       ↔ ¬ protected pkg data ∧ pkg ∉ required_packages tree).
Proof.
  intros HI Hin. exists (info_of (required_packages tree) pkg data).
  split; [by apply classify_get|]. split; [done|].
  split; [apply is_system_spec|]. apply used_by_of_cases.
Qed.

(** An instance: a mapping where pip is installed outside the system directories
    and flask depends on it: pip is still labelled System. *)
Lemma classify_first_match_witness :
  let I := [("flask", PkgData "3.0" (Some "/home/u/venv/site-packages"));
            ("pip", PkgData "23.0" (Some "/home/u/venv/site-packages"))] in
  let T := [TreeEntry "flask" (Some [Dependency "pip"])] in
  "pip" ∈ required_packages T
  ∧ ∃ info, Py.get (classify T I) "pip" = Some info
            ∧ used_by info = category_label System.
Proof.
  intros I T. split; [by vm_compute|].
  destruct (classify_first_match T I "pip"
              (PkgData "23.0" (Some "/home/u/venv/site-packages")))
    as (info & Hget & _ & _ & Hsys & _).
  - unfold Py.wf. simpl. repeat constructor; set_solver.
  - right. left.
  - exists info. split; [done|]. apply Hsys. right. by left.
Defined.

Lemma exactly_once (l : list string) (x : string) :
  NoDup l → x ∈ l → length (filter (λ y, y = x) l) = 1.
Proof.
  induction l as [|y l IH]; [by intros _ ?%elem_of_nil|].
  rewrite NoDup_cons. intros [Hy Hl] Hx. rewrite filter_cons.
  case_decide as Hyx.
  - subst y. simpl. f_equal. apply length_zero_iff_nil.
    apply elem_of_nil_inv. intros z. rewrite list_elem_of_filter.
    by intros [-> Hz].
  - apply IH; [done|]. apply elem_of_cons in Hx as [->|]; done.
Qed.

(** C3.  Whatever the installed mapping [I] and the tree, the keys of the
    classification are the keys of [I], each exactly once; each of them is
    mapped to an entry whose label is that of exactly one of the three
    categories; and the keys come out in the order of [I]. *)
Theorem classify_total_exclusive (tree : list tree_entry)
    (I : Py.dict pkg_data) :
  (∀ pkg, pkg ∈ Py.keys (classify tree I) ↔ pkg ∈ Py.keys I)
  ∧ (∀ pkg, pkg ∈ Py.keys I →
       length (filter (λ k, k = pkg) (Py.keys (classify tree I))) = 1
       ∧ ∃ info, Py.get (classify tree I) pkg = Some info
                 ∧ ∃ c : category,
                     used_by info = category_label c
                     ∧ ∀ c', used_by info = category_label c' → c' = c)
  ∧ (Py.wf I → Py.keys (classify tree I) = Py.keys I).
Proof.
  pose proof (fill_invariant
    (info_of (required_packages tree))
    (λ _ info, ∃ c : category, used_by info = category_label c)
    I []) as Hinv.
  simpl in Hinv. destruct Hinv as (Hwf & Hkeys & Hcat).
  { apply NoDup_nil_2. }
  { done. }
  { intros k x _. unfold info_of, used_by_of. simpl.
    destruct (is_system k x); [by exists System|].
    case_bool_decide; [by exists RequiredByOther | by exists Application]. }
  assert (∀ pkg, pkg ∈ Py.keys (classify tree I) ↔ pkg ∈ Py.keys I) as Hdom.
  { intros pkg. unfold classify. rewrite Hkeys. set_solver. }
  split_and!; [done | | apply classify_keys_wf].
  intros pkg Hpkg. apply Hdom in Hpkg. split.
  - by apply exactly_once.
  - apply get_is_Some in Hpkg as [info Hinfo]. exists info. split; [done|].
    destruct (Hcat _ _ Hinfo) as [c Hc]. exists c. split; [done|].
    intros c' Hc'. apply category_label_inj. congruence.
Qed.

(** An instance: a mapping of three packages. *)
Lemma classify_total_exclusive_witness :
  let I := [("A", PkgData "1.0" (Some "/home/u/site-packages"));
            ("B", PkgData "2.0" (Some "/home/u/site-packages"));
            ("pip", PkgData "23" (Some "/Library/Python/3.9"))] in
  let T := [TreeEntry "A" (Some [Dependency "B"])] in
  Py.keys (classify T I) = ["A"; "B"; "pip"]
  ∧ length (filter (λ k, k = "B") (Py.keys (classify T I))) = 1.
Proof.
  intros I T.
  pose proof (classify_total_exclusive T I) as (_ & Honce & Hkeys).
  split.
  - apply Hkeys. unfold Py.wf. simpl. repeat constructor; set_solver.
  - apply Honce. simpl. set_solver.
Defined.

(** Scenario 1 of the specification. *)
Example scenario_one_dependency :
  let I := [("A", PkgData "1.0" (Some "/home/u/site-packages"));
            ("B", PkgData "2.0" (Some "/home/u/site-packages"));
            ("pip", PkgData "23" (Some "/Library/Python/3.9"))] in
  let T := [TreeEntry "A" (Some [Dependency "B"])] in
  required_packages T = {[ "B" ]}
  ∧ used_by <$> (classify T I).*2
    = ["application"; "required by another package"; "system (do not remove)"]
  ∧ orphaned (classify T I) = ["A"].
Proof. by vm_compute. Qed.

(** Scenario 2 of the specification: with an empty tree nothing is required,
    and every package that is not protected is an application. *)
Example scenario_empty_tree (pkg : string) (data : pkg_data) :
  required_packages [] = ∅
  ∧ (¬ protected pkg data → used_by_of (required_packages []) pkg data
                            = category_label Application).
Proof.
  split; [done|]. intros Hnp.
  apply used_by_of_cases. split; [done | set_solver].
Qed.

(** ** Reading the list of installed packages *)

(** What lines 36-42 compute from the parsed objects when every object has
    a name and a version and no name comes twice: one entry per object, in
    order, whose location is the field spelled "Location" (capital L), or
    the empty string without such a field. *)
Lemma installed_of_json_entries (packages : list pkg_obj) :
  Forall (λ pkg : pkg_obj,
            is_Some (pkg !! "name") ∧ is_Some (pkg !! "version")) packages →
  NoDup ((λ pkg : pkg_obj, default EmptyString (pkg !! "name")) <$> packages) →
  Cleaner.installed_of_json packages
  = Some ((λ pkg : pkg_obj,
             (default EmptyString (pkg !! "name"),
              {| version := default EmptyString (pkg !! "version");
                 location :=
                   Some (default EmptyString (pkg !! "Location")) |}))
          <$> packages).
Proof.
  intros Hall Hnd. unfold Cleaner.installed_of_json.
  erewrite comprehension_Some.
  - by rewrite fill_fresh.
  - intros pkg Hpkg. rewrite Forall_forall in Hall.
    destruct (Hall _ Hpkg) as [[n Hn] [v Hv]]. by rewrite Hn, Hv.
Qed.

(** C4, at the output of [pip list --format=json --verbose] for one package
    installed under /Library/: pip writes the path under the key "location",
    the script reads the key "Location", so the entry gets the empty string
    as location, and the package is then labelled application although its
    path starts with a system directory. *)
Theorem get_installed_packages_drops_location :
  let packages : list pkg_obj :=
    [ {[ "name" := "requests"; "version" := "2.31.0";
         "location" := "/Library/Python/3.9/site-packages";
         "installer" := "pip" ]} ] in
  Cleaner.installed_of_json packages
  = Some [("requests", PkgData "2.31.0" (Some EmptyString))]
  ∧ (used_by <$> (I ← Cleaner.installed_of_json packages;
                  Py.get (classify [] I) "requests"))
    = Some "application".
Proof. by vm_compute. Qed.

(** ** The loops on the store *)

Section heap_loops.
Import Heap.
Implicit Types (h : heap) (l lr lc li lt : loc).

Lemma fresh_ne h l : is_Some (h !! l) → l ≠ fresh (dom h).
Proof.
  intros Hl ->. apply elem_of_dom in Hl. by apply is_fresh in Hl.
Qed.

Lemma set_add_Some lr (s : gset string) (x : string) h :
  h !! lr = Some (OSet s) →
  set_add lr x h = Some (<[lr := OSet (s ∪ {[ x ]})]> h).
Proof. intros Hs. unfold set_add, read_set. by rewrite Hs. Qed.

Lemma setitem_Some lc (d : Py.dict pkg_info) (k : string) (v : pkg_info) h :
  h !! lc = Some (OClassified d) →
  setitem lc k v h = Some (<[lc := OClassified (Py.set k v d)]> h).
Proof. intros Hd. unfold setitem. by rewrite Hd. Qed.

Lemma read_set_Some lr (s : gset string) h :
  h !! lr = Some (OSet s) → read_set lr h = Some s.
Proof. intros Hs. unfold read_set. by rewrite Hs. Qed.

Lemma add_deps_heap lr (s : gset string) (deps : list dependency) h :
  h !! lr = Some (OSet s) →
  for_each deps (λ dep, set_add lr (package_name dep)) h
  = Some (<[lr := OSet (foldl (λ req dep, req ∪ {[ package_name dep ]})
                              s deps)]> h).
Proof.
  revert s h. induction deps as [|dep deps IH]; intros s h Hs; simpl.
  - by rewrite insert_id.
  - rewrite (set_add_Some lr s) by done. simpl.
    erewrite IH by apply lookup_insert_eq.
    by rewrite insert_insert_eq.
Qed.

Lemma add_entries_heap lr (s : gset string) (tree : list tree_entry) h :
  h !! lr = Some (OSet s) →
  for_each tree (λ pkg,
    for_each (default [] (dependencies pkg))
             (λ dep, set_add lr (package_name dep))) h
  = Some (<[lr := OSet (foldl (λ req pkg,
               foldl (λ req dep, req ∪ {[ package_name dep ]})
                     req (default [] (dependencies pkg))) s tree)]> h).
Proof.
  revert s h. induction tree as [|pkg tree IH]; intros s h Hs; simpl.
  - by rewrite insert_id.
  - erewrite add_deps_heap by done. simpl.
    erewrite IH by apply lookup_insert_eq.
    by rewrite insert_insert_eq.
Qed.

Lemma required_loop_spec lt (T : list tree_entry) h :
  h !! lt = Some (OTree T) →
  required_loop lt h
  = Some (fresh (dom h), <[fresh (dom h) := OSet (required_packages T)]> h).
Proof.
  intros HT. unfold required_loop, read_tree, alloc. rewrite HT. simpl.
  erewrite add_entries_heap by apply lookup_insert_eq. simpl.
  by rewrite insert_insert_eq.
Qed.

Lemma fill_heap lr lc (req : gset string) (items : Py.dict pkg_data)
    (d : Py.dict pkg_info) h :
  lr ≠ lc → h !! lr = Some (OSet req) → h !! lc = Some (OClassified d) →
  for_each items (λ item h,
    required ← read_set lr h;
    setitem lc item.1 (info_of required item.1 item.2) h) h
  = Some (<[lc := OClassified
              (foldl (λ c item, Py.set item.1 (info_of req item.1 item.2) c)
                     d items)]> h).
Proof.
  intros Hne. revert d h.
  induction items as [|item items IH]; intros d h Hr Hc; simpl.
  - by rewrite insert_id.
  - rewrite (read_set_Some lr req) by done. simpl.
    rewrite (setitem_Some lc d) by done. simpl.
    erewrite IH.
    + by rewrite insert_insert_eq.
    + by rewrite lookup_insert_ne.
    + apply lookup_insert_eq.
Qed.

(** One call of [classify_packages] allocates the set and the result dict
    and touches nothing else. *)
Lemma classify_packages_spec li lt (I : Py.dict pkg_data)
    (T : list tree_entry) h :
  h !! li = Some (OInstalled I) → h !! lt = Some (OTree T) →
  let lr := fresh (dom h) in
  let h1 := <[lr := OSet (required_packages T)]> h in
  let lc := fresh (dom h1) in
  Heap.classify_packages li lt h
  = Some (lc, <[lc := OClassified (classify T I)]> h1).
Proof.
  intros HI HT lr h1 lc. unfold Heap.classify_packages.
  rewrite (required_loop_spec lt T) by done. simpl.
  fold lr. fold h1. fold lc.
  assert (h1 !! li = Some (OInstalled I)) as HI1.
  { unfold h1. rewrite lookup_insert_ne; [done|].
    intros <-. by eapply (fresh_ne h lr). }
  assert (li ≠ lc) as Hlc by (apply fresh_ne; by rewrite HI1).
  assert (lr ≠ lc) as Hrc.
  { apply fresh_ne. unfold h1. by rewrite lookup_insert_eq. }
  unfold read_installed. rewrite lookup_insert_ne, HI1 by done. simpl.
  erewrite (fill_heap lr lc (required_packages T)); [| done | |].
  - simpl. by rewrite insert_insert_eq.
  - rewrite lookup_insert_ne by done. apply lookup_insert_eq.
  - apply lookup_insert_eq.
Qed.

Lemma find_orphans_spec li lt (V : Py.dict string)
    (T : list tree_entry) h :
  h !! li = Some (OVersions V) → h !! lt = Some (OTree T) →
  let lr := fresh (dom h) in
  let h1 := <[lr := OSet (required_packages T)]> h in
  let lo := fresh (dom h1) in
  Heap.find_orphans li lt h
  = Some (lo, <[lo := ONames (orphans_of T V)]> h1).
Proof.
  intros HV HT lr h1 lo. unfold Heap.find_orphans.
  rewrite (required_loop_spec lt T) by done. simpl.
  fold lr. fold h1.
  assert (h1 !! li = Some (OVersions V)) as HV1.
  { unfold h1. rewrite lookup_insert_ne; [done|].
    intros <-. by eapply (fresh_ne h lr). }
  assert (h1 !! lr = Some (OSet (required_packages T))) as Hr
    by apply lookup_insert_eq.
  unfold read_versions. rewrite HV1. simpl.
  by rewrite (read_set_Some lr (required_packages T)).
Qed.

(** Objects alive before two allocations are not touched by them. *)
Lemma frame2 h l l1 l2 (o1 o2 : obj) :
  is_Some (h !! l) →
  l1 = fresh (dom h) → l2 = fresh (dom (<[l1 := o1]> h)) →
  <[l2 := o2]> (<[l1 := o1]> h) !! l = h !! l.
Proof.
  intros Hl -> ->.
  assert (l ≠ fresh (dom h)) as H1 by by apply fresh_ne.
  rewrite lookup_insert_ne.
  - by rewrite lookup_insert_ne.
  - intros <-. eapply (fresh_ne (<[fresh (dom h) := o1]> h) _); [|done].
    by rewrite lookup_insert_ne.
Qed.

End heap_loops.

Section two_runs.
Import Heap.

(** A call that allocates one auxiliary object and one result object and
    touches nothing else can be repeated: the second call sees the same
    inputs, returns an equal result in a new object, and leaves the first
    result and all earlier objects as they were. *)
Lemma run_twice (run : heap → option (loc * heap)) (pre : heap → Prop)
    (aux out : obj) (h : heap) :
  (∀ h, pre h →
     run h = Some (fresh (dom (<[fresh (dom h) := aux]> h)),
                   <[fresh (dom (<[fresh (dom h) := aux]> h)) := out]>
                     (<[fresh (dom h) := aux]> h))) →
  (∀ h h', pre h → (∀ l, is_Some (h !! l) → h' !! l = h !! l) → pre h') →
  pre h →
  ∃ r1 h1 r2 h2,
    run h = Some (r1, h1) ∧ run h1 = Some (r2, h2)
    ∧ h1 !! r1 = Some out ∧ h2 !! r2 = Some out ∧ h2 !! r1 = Some out
    ∧ r1 ≠ r2
    ∧ ∀ l, is_Some (h !! l) → h1 !! l = h !! l ∧ h2 !! l = h !! l.
Proof.
  intros Hrun Hframe Hpre.
  set (a1 := fresh (dom h)). set (g1 := <[a1 := aux]> h).
  set (r1 := fresh (dom g1)). set (h1 := <[r1 := out]> g1).
  assert (∀ l, is_Some (h !! l) → h1 !! l = h !! l) as Hfr1.
  { intros l Hl. by apply frame2. }
  assert (pre h1) as Hpre1 by (by eapply Hframe).
  set (a2 := fresh (dom h1)). set (g2 := <[a2 := aux]> h1).
  set (r2 := fresh (dom g2)). set (h2 := <[r2 := out]> g2).
  assert (∀ l, is_Some (h1 !! l) → h2 !! l = h1 !! l) as Hfr2.
  { intros l Hl. by apply frame2. }
  assert (h1 !! r1 = Some out) as Hr1 by apply lookup_insert_eq.
  exists r1, h1, r2, h2. split_and!.
  - by apply Hrun.
  - by apply Hrun.
  - done.
  - apply lookup_insert_eq.
  - rewrite Hfr2; by rewrite Hr1.
  - intros Heq.
    assert (is_Some (g2 !! r1)) as Hg2.
    { unfold g2. rewrite lookup_insert_ne; [by rewrite Hr1|].
      intros Ha. eapply (fresh_ne h1 r1); [by rewrite Hr1 | by symmetry]. }
    by eapply (fresh_ne g2 r1).
  - intros l Hl. split; [by apply Hfr1|].
    rewrite Hfr2; rewrite Hfr1; done.
Qed.

End two_runs.

(** C5.  With the installed mapping and the tree as objects in the store,
    calling the classification twice gives two result objects holding the
    same mapping, namely [classify T I]; the second call does not change the
    first result; and after either call every object that existed before,
    among them the installed mapping and the tree, holds what it held.  The
    same is true of the orphan list computed by main.py. *)
Theorem classification_repeatable (h : Heap.heap) (li lv lt : Heap.loc)
    (I : Py.dict pkg_data) (V : Py.dict string) (T : list tree_entry) :
  h !! li = Some (Heap.OInstalled I) →
  h !! lv = Some (Heap.OVersions V) →
  h !! lt = Some (Heap.OTree T) →
  (∃ c1 h1 c2 h2,
     Heap.classify_packages li lt h = Some (c1, h1)
     ∧ Heap.classify_packages li lt h1 = Some (c2, h2)
     ∧ h1 !! c1 = Some (Heap.OClassified (classify T I))
     ∧ h2 !! c2 = Some (Heap.OClassified (classify T I))
     ∧ h2 !! c1 = Some (Heap.OClassified (classify T I))
     ∧ c1 ≠ c2
     ∧ ∀ l, is_Some (h !! l) → h1 !! l = h !! l ∧ h2 !! l = h !! l)
  ∧ (∃ o1 h1 o2 h2,
       Heap.find_orphans lv lt h = Some (o1, h1)
       ∧ Heap.find_orphans lv lt h1 = Some (o2, h2)
       ∧ h1 !! o1 = Some (Heap.ONames (orphans_of T V))
       ∧ h2 !! o2 = Some (Heap.ONames (orphans_of T V))
       ∧ h2 !! o1 = Some (Heap.ONames (orphans_of T V))
       ∧ o1 ≠ o2
       ∧ ∀ l, is_Some (h !! l) → h1 !! l = h !! l ∧ h2 !! l = h !! l).
Proof.
  intros HI HV HT. split.
  - apply (run_twice (Heap.classify_packages li lt)
             (λ h, h !! li = Some (Heap.OInstalled I)
                   ∧ h !! lt = Some (Heap.OTree T))
             (Heap.OSet (required_packages T))).
    + intros h0 [HI0 HT0]. by apply classify_packages_spec.
    + intros h0 h' [HI0 HT0] Hfr. split.
      * rewrite Hfr; by rewrite HI0.
      * rewrite Hfr; by rewrite HT0.
    + done.
  - apply (run_twice (Heap.find_orphans lv lt)
             (λ h, h !! lv = Some (Heap.OVersions V)
                   ∧ h !! lt = Some (Heap.OTree T))
             (Heap.OSet (required_packages T))).
    + intros h0 [HV0 HT0]. by apply find_orphans_spec.
    + intros h0 h' [HV0 HT0] Hfr. split.
      * rewrite Hfr; by rewrite HV0.
      * rewrite Hfr; by rewrite HT0.
    + done.
Qed.

(** An instance: a store of three objects. *)
Lemma classification_repeatable_witness :
  let I := [("A", PkgData "1.0" (Some "/home/u/site-packages"));
            ("B", PkgData "2.0" (Some "/home/u/site-packages"))] in
  let V := [("A", "1.0"); ("B", "2.0")] in
  let T := [TreeEntry "A" (Some [Dependency "B"])] in
  let h : Heap.heap :=
    {[ 1%positive := Heap.OInstalled I; 2%positive := Heap.OVersions V;
       3%positive := Heap.OTree T ]} in
  ∃ c1 h1 c2 h2,
    Heap.classify_packages 1 3 h = Some (c1, h1)
    ∧ Heap.classify_packages 1 3 h1 = Some (c2, h2)
    ∧ h2 !! c1 = h2 !! c2
    ∧ h2 !! 1%positive = Some (Heap.OInstalled I)
    ∧ h2 !! 3%positive = Some (Heap.OTree T).
Proof.
  intros I V T h.
  destruct (classification_repeatable h 1 2 3 I V T) as [Hc _];
    [reflexivity..|].
  destruct Hc as (c1 & h1 & c2 & h2 & H1 & H2 & _ & Hc2 & Hc1 & _ & Hfr).
  exists c1, h1, c2, h2. split_and!; [done | done | congruence | |].
  - by destruct (Hfr 1%positive) as [_ ->].
  - by destruct (Hfr 3%positive) as [_ ->].
Defined.

(** ** Running the scripts *)

Section io_steps.
Import IO.
Context {A B : Type}.
Implicit Types (m : io A) (k : A → io B) (st : state).

Lemma bind_Ok m k st a st' :
  m st = (Ok a, st') → (m ≫= k) st = k a st'.
Proof. intros H. unfold mbind, io_bind. by rewrite H. Qed.

Lemma bind_Raise m k st e st' :
  m st = (Raise e, st') → (m ≫= k) st = (Raise e, st').
Proof. intros H. unfold mbind, io_bind. by rewrite H. Qed.

Lemma bind_OutOfFuel m k st st' :
  m st = (OutOfFuel, st') → (m ≫= k) st = (OutOfFuel, st').
Proof. intros H. unfold mbind, io_bind. by rewrite H. Qed.

Lemma bind_ext m1 m2 (k1 k2 : A → io B) st :
  m1 st = m2 st → (∀ a st', k1 a st' = k2 a st') →
  (m1 ≫= k1) st = (m2 ≫= k2) st.
Proof.
  intros Hm Hk. unfold mbind, io_bind. rewrite Hm.
  destruct (m2 st) as [[a|e|] st']; [apply Hk | done | done].
Qed.

End io_steps.

Section io_basic.
Import IO.

Lemma print_run (line : string) (st : state) :
  print line st = (Ok (), State (stdin st) (log st ++ [Print line])).
Proof. done. Qed.

Lemma input_line (text line : string) (rest : list string)
    (tr : list event) :
  input text (State (line :: rest) tr)
  = (Ok line, State rest (tr ++ [Prompt text])).
Proof. done. Qed.

Lemma input_eof (text : string) (tr : list event) :
  input text (State [] tr) = (Raise EOFError, State [] (tr ++ [Prompt text])).
Proof. done. Qed.

Lemma run_checked (w : world) (argv : list string) (st : state) :
  subprocess_run w argv true st
  = (if (returncode (subprocess w (log st) argv) =? 0)%Z
     then Ok (subprocess w (log st) argv) else Raise CalledProcessError,
     State (stdin st) (log st ++ [Run argv])).
Proof.
  unfold subprocess_run. simpl.
  by destruct (returncode (subprocess w (log st) argv) =? 0)%Z.
Qed.

Lemma run_checked_ok (w : world) (argv : list string) (st : state) :
  returncode (subprocess w (log st) argv) = 0%Z →
  subprocess_run w argv true st
  = (Ok (subprocess w (log st) argv),
     State (stdin st) (log st ++ [Run argv])).
Proof. intros H. rewrite run_checked. by rewrite H. Qed.

Lemma run_checked_fail (w : world) (argv : list string) (st : state) :
  returncode (subprocess w (log st) argv) ≠ 0%Z →
  subprocess_run w argv true st
  = (Raise CalledProcessError, State (stdin st) (log st ++ [Run argv])).
Proof.
  intros H. rewrite run_checked. apply Z.eqb_neq in H. by rewrite H.
Qed.

Lemma run_unchecked (w : world) (argv : list string) (st : state) :
  subprocess_run w argv false st
  = (Ok (subprocess w (log st) argv),
     State (stdin st) (log st ++ [Run argv])).
Proof. done. Qed.

Lemma for_each_ext {A} (xs : list A) (b1 b2 : A → io ()) (st : state) :
  (∀ x st', b1 x st' = b2 x st') → for_each xs b1 st = for_each xs b2 st.
Proof.
  intros Hb. revert st. induction xs as [|x xs IH]; intros st; simpl.
  - done.
  - apply bind_ext; [apply Hb | intros _ st'; apply IH].
Qed.

End io_basic.

(** C8.  [ensure_pipdeptree] runs the version probe; when the probe exits
    with status 0 that is all it does, and no install is attempted.  When
    the probe fails it prints a notice and runs the install.  When the
    install fails as well, [CalledProcessError] leaves [ensure_pipdeptree]
    and the whole script, whose log then holds the probe, the notice and the
    install and nothing else: no package listing, no dependency tree query,
    no classification. *)
Theorem ensure_pipdeptree_propagates (w : IO.world) (st : IO.state) :
  let probe := IO.subprocess w (IO.log st) (Cleaner.probe_argv w) in
  let notice := IO.Print "pipdeptree not found. Installing..." in
  let log1 := IO.log st ++ [IO.Run (Cleaner.probe_argv w)] in
  let install := IO.subprocess w (log1 ++ [notice]) (Cleaner.install_argv w) in
  let log2 := (log1 ++ [notice]) ++ [IO.Run (Cleaner.install_argv w)] in
  (IO.returncode probe = 0%Z →
     Cleaner.ensure_pipdeptree w st = (IO.Ok (), IO.State (IO.stdin st) log1))
  ∧ (IO.returncode probe ≠ 0%Z → IO.returncode install = 0%Z →
       Cleaner.ensure_pipdeptree w st
       = (IO.Ok (),
          IO.State (IO.stdin st)
            (log2 ++ [IO.Print "pipdeptree installed successfully."])))
  ∧ (IO.returncode probe ≠ 0%Z → IO.returncode install ≠ 0%Z →
       Cleaner.ensure_pipdeptree w st
       = (IO.Raise IO.CalledProcessError, IO.State (IO.stdin st) log2)
       ∧ Cleaner.main w st
         = (IO.Raise IO.CalledProcessError, IO.State (IO.stdin st) log2)).
Proof.
  intros probe notice log1 install log2.
  assert (IO.returncode probe ≠ 0%Z →
          (IO.subprocess_run w (Cleaner.probe_argv w) true ≫= λ _, mret ()) st
          = (IO.Raise IO.CalledProcessError, IO.State (IO.stdin st) log1))
    as Hprobe.
  { intros Hp. by erewrite bind_Raise by by apply run_checked_fail. }
  split_and!.
  - intros Hp. unfold Cleaner.ensure_pipdeptree, IO.try_except.
    by erewrite bind_Ok by by apply run_checked_ok.
  - intros Hp Hi. unfold Cleaner.ensure_pipdeptree, IO.try_except.
    rewrite (Hprobe Hp). rewrite decide_True by done.
    erewrite bind_Ok by apply print_run.
    by erewrite bind_Ok by by apply run_checked_ok.
  - intros Hp Hi.
    assert (Cleaner.ensure_pipdeptree w st
            = (IO.Raise IO.CalledProcessError, IO.State (IO.stdin st) log2))
      as Hens.
    { unfold Cleaner.ensure_pipdeptree, IO.try_except.
      rewrite (Hprobe Hp). rewrite decide_True by done.
      erewrite bind_Ok by apply print_run.
      by erewrite bind_Raise by by apply run_checked_fail. }
    split; [done|]. unfold Cleaner.main. by erewrite bind_Raise.
Qed.

(** An instance: a world where every child process exits with status 1. *)
Lemma ensure_pipdeptree_propagates_witness :
  let w := IO.World "/usr/bin/python3" (λ _ _, IO.Completed 1 EmptyString)
                    (λ _, None) (λ _, None) in
  Cleaner.main w (IO.State ["y"; "1"] [])
  = (IO.Raise IO.CalledProcessError,
     IO.State ["y"; "1"]
       [IO.Run ["/usr/bin/python3"; "-m"; "pipdeptree"; "--version"];
        IO.Print "pipdeptree not found. Installing...";
        IO.Run ["/usr/bin/python3"; "-m"; "pip"; "install"; "pipdeptree"]]).
Proof.
  intros w.
  pose proof (ensure_pipdeptree_propagates w (IO.State ["y"; "1"] []))
    as (_ & _ & Hfail).
  destruct Hfail as [_ Hmain]; [by vm_compute | by vm_compute |].
  exact Hmain.
Defined.

(** The same call in the script: it queries the tree, and when the tool
    answers with [T] it returns [classify T I], having added the query to
    the log and nothing else. *)
Lemma classify_packages_run (w : IO.world) (I : Py.dict pkg_data)
    (T : list tree_entry) (st : IO.state) :
  let answer := IO.subprocess w (IO.log st) (Cleaner.tree_argv w) in
  IO.returncode answer = 0%Z →
  IO.json_tree w (IO.stdout answer) = Some T →
  Cleaner.classify_packages w I st
  = (IO.Ok (classify T I),
     IO.State (IO.stdin st) (IO.log st ++ [IO.Run (Cleaner.tree_argv w)])).
Proof.
  intros answer Hrc HT.
  unfold Cleaner.classify_packages, Cleaner.get_dependency_tree.
  erewrite bind_Ok; [done|].
  erewrite bind_Ok by by apply run_checked_ok.
  fold answer. by rewrite HT.
Qed.

(** ** What a run may add to the log *)

Section soundness.
Import IO.
Variable P : event → Prop.

Lemma sound_ret {A} (a : A) (st : state) : sound_at P (mret a) st.
Proof.
  unfold sound_at. simpl. split_and!; [done | done | done |].
  exists []. by rewrite app_nil_r.
Qed.

Lemma sound_raise {A} (e : exn) (st : state) :
  e ≠ KeyError → sound_at P (raise (A := A) e) st.
Proof.
  intros He. unfold sound_at. simpl. split_and!; [congruence | done | done |].
  exists []. by rewrite app_nil_r.
Qed.

Lemma sound_bind {A B} (m : io A) (k : A → io B) (st : state) :
  sound_at P m st →
  (∀ a st', m st = (Ok a, st') →
     length (stdin st') ≤ length (stdin st) → sound_at P (k a) st') →
  sound_at P (m ≫= k) st.
Proof.
  unfold sound_at, mbind, io_bind.
  destruct (m st) as [[a|e|] st'] eqn:Hm; simpl;
    intros (Hk & Hf & Hlen & evs & Hlog & Hevs) Hcont.
  - destruct (Hcont a st' eq_refl Hlen)
      as (Hk' & Hf' & Hlen' & evs' & Hlog' & Hevs').
    split_and!; [done | done | lia |].
    exists (evs ++ evs'). split.
    + by rewrite Hlog', Hlog, app_assoc.
    + by apply Forall_app.
  - split_and!; [intros [= ->]; by apply Hk | done | done | by exists evs].
  - by destruct Hf.
Qed.

Lemma sound_emit (e : event) (st : state) : P e → sound_at P (emit e) st.
Proof.
  intros He. unfold sound_at. simpl. split_and!; [done | done | done |].
  exists [e]. split; [done | by apply Forall_singleton].
Qed.

Lemma sound_print (line : string) (st : state) :
  P (Print line) → sound_at P (print line) st.
Proof. apply sound_emit. Qed.

Lemma sound_input (text : string) (st : state) :
  P (Prompt text) → sound_at P (input text) st.
Proof.
  intros He. unfold sound_at, input.
  destruct (stdin st) as [|line rest]; simpl;
    (split_and!; [done | done | lia |]);
    (exists [Prompt text]; split; [done | by apply Forall_singleton]).
Qed.

Lemma sound_run (w : world) (argv : list string) (check : bool)
    (st : state) :
  P (Run argv) → sound_at P (subprocess_run w argv check) st.
Proof.
  intros He. unfold sound_at, subprocess_run.
  destruct (check && _); simpl;
    (split_and!; [done | done | done |]);
    (exists [Run argv]; split; [done | by apply Forall_singleton]).
Qed.

Lemma sound_getitem {V} (d : Py.dict V) (k : string) (st : state) :
  k ∈ Py.keys d → sound_at P (getitem d k) st.
Proof.
  intros [v Hv]%get_is_Some. unfold getitem. rewrite Hv. apply sound_ret.
Qed.

Lemma sound_for_each {A} (xs : list A) (body : A → io ()) (st : state) :
  (∀ x st', x ∈ xs → sound_at P (body x) st') →
  sound_at P (for_each xs body) st.
Proof.
  revert st. induction xs as [|x xs IH]; intros st Hbody; simpl.
  - apply sound_ret.
  - apply sound_bind; [apply Hbody; left|].
    intros _ st' _ _. apply IH. intros y st'' Hy. apply Hbody. by right.
Qed.

Lemma input_Ok_inv (text line : string) (st st' : state) :
  input text st = (Ok line, st') → stdin st = line :: stdin st'.
Proof.
  unfold input. destruct (stdin st) as [|l rest]; [done|].
  by intros [= -> <-].
Qed.

Lemma elem_of_selected_of (orphans : list string) (pkg_input x : string) :
  x ∈ Menu.selected_of orphans pkg_input → x ∈ orphans.
Proof.
  unfold Menu.selected_of. rewrite list_elem_of_fmap.
  intros (p & -> & Hp). by apply list_elem_of_filter in Hp as [Hp _].
Qed.

Lemma selective_loop_S (fuel : nat) (orphans : list string)
    (confirm : string → io ()) :
  Menu.selective_loop (S fuel) orphans confirm
  = (input Menu.enter_prompt
     ≫= Menu.round (Menu.selective_loop fuel orphans confirm)
                   orphans confirm).
Proof. done. Qed.

(** One round, given a confirm step that is sound on orphans and a next
    round that is sound wherever no more lines are left than now. *)
Lemma sound_round (again : io ()) (orphans : list string)
    (confirm : string → io ()) (line : string) (st : state) :
  (∀ e, (∀ argv, e ≠ Run argv) → P e) →
  (∀ x st', x ∈ orphans → sound_at P (confirm x) st') →
  (∀ st', length (stdin st') ≤ length (stdin st) → sound_at P again st') →
  sound_at P (Menu.round again orphans confirm line) st.
Proof.
  intros Hpure Hconfirm Hagain. unfold Menu.round.
  case_bool_decide; [apply sound_ret|].
  destruct (Menu.selected_of orphans (Py.strip line)) as [|x xs] eqn:Hsel.
  - apply sound_bind; [by apply sound_print, Hpure|].
    intros _ st2 _ Hlen. by apply Hagain.
  - apply sound_bind.
    { apply sound_for_each. intros y st' Hy. apply Hconfirm.
      apply (elem_of_selected_of _ (Py.strip line)). by rewrite Hsel. }
    intros _ st2 _ Hlen2.
    apply sound_bind; [by apply sound_input, Hpure|].
    intros more st3 Hmore%input_Ok_inv _.
    destruct (negb (is_yes more)); [apply sound_ret|].
    apply Hagain. rewrite Hmore in Hlen2. simpl in Hlen2. lia.
Qed.

(** The selective loop, given fuel beyond the number of lines left. *)
Lemma sound_selective_loop (orphans : list string)
    (confirm : string → io ()) (fuel : nat) (st : state) :
  (∀ e, (∀ argv, e ≠ Run argv) → P e) →
  (∀ x st', x ∈ orphans → sound_at P (confirm x) st') →
  length (stdin st) < fuel →
  sound_at P (Menu.selective_loop fuel orphans confirm) st.
Proof.
  intros Hpure Hconfirm. revert st.
  induction fuel as [|fuel IH]; intros st Hfuel; [lia|].
  rewrite selective_loop_S.
  apply sound_bind; [by apply sound_input, Hpure|].
  intros line st1 Hin%input_Ok_inv _.
  rewrite Hin in Hfuel. simpl in Hfuel.
  apply sound_round; [done | done |].
  intros st' Hlen. apply IH. lia.
Qed.

(** The loop starts by asking for names, whatever follows. *)
Lemma selective_prompts_first (orphans : list string)
    (confirm : string → io ()) (st : state) :
  (∀ e, (∀ argv, e ≠ Run argv) → P e) →
  (∀ x st', x ∈ orphans → sound_at P (confirm x) st') →
  ∃ evs, log (Menu.selective orphans confirm st).2
         = log st ++ Prompt Menu.enter_prompt :: evs.
Proof.
  intros Hpure Hconfirm. unfold Menu.selective.
  rewrite selective_loop_S. unfold mbind, io_bind, input.
  destruct st as [[|line rest] tr]; simpl; [by exists []|].
  edestruct (sound_round
               (Menu.selective_loop (S (length rest)) orphans confirm)
               orphans confirm line
               (State rest (tr ++ [Prompt Menu.enter_prompt])))
    as (_ & _ & _ & evs & Hlog & _); [done | done | |].
  - intros st' Hlen. apply sound_selective_loop; [done | done |].
    simpl in Hlen. lia.
  - exists evs. rewrite Hlog. simpl. by rewrite <-app_assoc.
Qed.

Lemma sound_selective (orphans : list string) (confirm : string → io ())
    (st : state) :
  (∀ e, (∀ argv, e ≠ Run argv) → P e) →
  (∀ x st', x ∈ orphans → sound_at P (confirm x) st') →
  sound_at P (Menu.selective orphans confirm) st.
Proof.
  intros Hpure Hconfirm. unfold Menu.selective.
  pose proof (sound_selective_loop orphans confirm
                (S (length (stdin st))) st Hpure Hconfirm) as H.
  apply H. lia.
Qed.

Lemma sound_dispatch (option : string) (orphans : list string)
    (confirm : string → io ()) (st : state) :
  (∀ e, (∀ argv, e ≠ Run argv) → P e) →
  (∀ x st', x ∈ orphans → sound_at P (confirm x) st') →
  sound_at P (Menu.dispatch option orphans confirm) st.
Proof.
  intros Hpure Hconfirm. unfold Menu.dispatch.
  case_bool_decide.
  - apply sound_bind; [by apply sound_for_each|].
    intros. by apply sound_print, Hpure.
  - case_bool_decide; [by apply sound_selective|].
    by apply sound_print, Hpure.
Qed.

Lemma sound_print_options (st : state) :
  (∀ e, (∀ argv, e ≠ Run argv) → P e) →
  sound_at P Menu.print_options st.
Proof.
  intros Hpure. unfold Menu.print_options.
  apply sound_bind; [by apply sound_print, Hpure|]. intros.
  apply sound_bind; [by apply sound_print, Hpure|]. intros.
  by apply sound_print, Hpure.
Qed.

End soundness.

(** ** The orphan lists *)

Lemma elem_of_orphaned (classified : Py.dict pkg_info) (name : string) :
  name ∈ orphaned classified
  ↔ ∃ info, (name, info) ∈ classified ∧ used_by info = "application".
Proof.
  unfold orphaned. rewrite list_elem_of_fmap. split.
  - intros ([k info] & -> & Hin). apply list_elem_of_filter in Hin as [Hu Hin].
    by exists info.
  - intros (info & Hin & Hu). exists (name, info). split; [done|].
    by apply list_elem_of_filter.
Qed.

Lemma orphaned_keys (classified : Py.dict pkg_info) (name : string) :
  name ∈ orphaned classified → name ∈ Py.keys classified.
Proof.
  intros (info & Hin & _)%elem_of_orphaned.
  apply list_elem_of_fmap. by exists (name, info).
Qed.

Lemma elem_of_orphans_of (T : list tree_entry) (V : Py.dict string)
    (name : string) :
  name ∈ orphans_of T V ↔ name ∈ Py.keys V ∧ name ∉ required_packages T.
Proof. unfold orphans_of. rewrite list_elem_of_filter. naive_solver. Qed.

(** An orphan of a classification built by the script is a key of the
    installed mapping, carries the application label, is not flagged as
    system and is not in the required set. *)
Lemma orphaned_classify (T : list tree_entry) (I : Py.dict pkg_data)
    (name : string) :
  name ∈ orphaned (classify T I) →
  name ∈ Py.keys I
  ∧ ∃ info, Py.get (classify T I) name = Some info
            ∧ used_by info = category_label Application
            ∧ system info = false
            ∧ name ∉ required_packages T.
Proof.
  pose proof (fill_invariant
    (info_of (required_packages T))
    (λ k info, ∃ data, info = info_of (required_packages T) k data)
    I []) as Hinv.
  simpl in Hinv. destruct Hinv as (Hwf & Hkeys & Hval).
  { apply NoDup_nil_2. }
  { done. }
  { intros k x _. by exists x. }
  fold (classify T I) in Hwf, Hkeys, Hval.
  intros (info & Hin & Hu)%elem_of_orphaned.
  pose proof (elem_of_get _ _ _ Hwf Hin) as Hget.
  split.
  - assert (name ∈ Py.keys (classify T I)) as Hk
      by (apply get_is_Some; by rewrite Hget).
    apply Hkeys in Hk as [Hk|Hk]; [by apply elem_of_nil in Hk | done].
  - exists info. split; [done|]. split; [done|].
    destruct (Hval _ _ Hget) as [data ->]. simpl in *.
    destruct (used_by_of_cases (required_packages T) name data)
      as (_ & _ & Happ).
    apply Happ in Hu as [Hnp Hnr]. split; [|done].
    destruct (is_system name data) eqn:Hs; [|done].
    by apply is_system_spec in Hs.
Qed.

(** ** Only orphans are uninstalled *)

Section only_orphans.
Import IO.
Variable w : world.

Lemma only_uninstalls_pure (argv_of : string → list string)
    (allowed : list string) (e : event) :
  (∀ argv, e ≠ Run argv) → only_uninstalls argv_of allowed e.
Proof. intros He name ->. by destruct (He (argv_of name)). Qed.

Lemma cleaner_argv_inj (x y : string) :
  Cleaner.uninstall_argv w x = Cleaner.uninstall_argv w y → x = y.
Proof. by intros [= ->]. Qed.

Lemma main_argv_inj (x y : string) :
  Main.uninstall_argv x = Main.uninstall_argv y → x = y.
Proof. by intros [= ->]. Qed.

Lemma sound_cleaner_uninstall (allowed : list string) (pkg : string)
    (st : state) :
  pkg ∈ allowed →
  sound_at (only_uninstalls (Cleaner.uninstall_argv w) allowed)
           (Cleaner.uninstall_package w pkg) st.
Proof.
  intros Hpkg. unfold Cleaner.uninstall_package.
  apply sound_bind; [by apply sound_print, only_uninstalls_pure|].
  intros. apply sound_bind; [|intros; apply sound_ret].
  apply sound_run. intros name [= Hn]. by subst.
Qed.

Lemma sound_main_uninstall (allowed : list string) (pkg : string)
    (st : state) :
  pkg ∈ allowed →
  sound_at (only_uninstalls Main.uninstall_argv allowed)
           (Main.uninstall_package w pkg) st.
Proof.
  intros Hpkg. unfold Main.uninstall_package.
  apply sound_bind; [by apply sound_print, only_uninstalls_pure|].
  intros. apply sound_bind; [|intros; apply sound_ret].
  apply sound_run. intros name [= Hn]. by subst.
Qed.

Lemma sound_cleaner_confirm (classified : Py.dict pkg_info)
    (allowed : list string) (pkg : string) (st : state) :
  pkg ∈ allowed → pkg ∈ Py.keys classified →
  sound_at (only_uninstalls (Cleaner.uninstall_argv w) allowed)
           (Cleaner.confirm_uninstall w classified pkg) st.
Proof.
  intros Hpkg Hkey. unfold Cleaner.confirm_uninstall.
  apply sound_bind; [by apply sound_getitem|]. intros info st1 _ _.
  apply sound_bind; [by apply sound_input, only_uninstalls_pure|].
  intros confirm st2 _ _.
  destruct (is_yes confirm);
    [by apply sound_cleaner_uninstall | apply sound_ret].
Qed.

Lemma sound_main_confirm (installed_packages : Py.dict string)
    (allowed : list string) (pkg : string) (st : state) :
  pkg ∈ allowed → pkg ∈ Py.keys installed_packages →
  sound_at (only_uninstalls Main.uninstall_argv allowed)
           (Main.confirm_uninstall w installed_packages pkg) st.
Proof.
  intros Hpkg Hkey. unfold Main.confirm_uninstall.
  apply sound_bind; [by apply sound_getitem|]. intros version st1 _ _.
  apply sound_bind; [by apply sound_input, only_uninstalls_pure|].
  intros confirm st2 _ _.
  destruct (is_yes confirm);
    [by apply sound_main_uninstall | apply sound_ret].
Qed.

Lemma sound_interactive_uninstall (classified : Py.dict pkg_info)
    (st : state) :
  sound_at (only_uninstalls (Cleaner.uninstall_argv w) (orphaned classified))
           (Cleaner.interactive_uninstall w classified) st.
Proof.
  unfold Cleaner.interactive_uninstall.
  pose proof (orphaned_keys classified) as Hkeys.
  set (orph := orphaned classified) in *. clearbody orph.
  assert (∀ e, (∀ argv, e ≠ Run argv) →
               only_uninstalls (Cleaner.uninstall_argv w) orph e) as Hpure
    by (intros e; apply only_uninstalls_pure).
  destruct orph as [|x xs]; [by apply sound_print, Hpure|].
  apply sound_bind; [by apply sound_print, Hpure|]. intros _ st1 _ _.
  apply sound_bind.
  { apply sound_for_each. intros pkg st' Hpkg.
    apply sound_bind; [by apply sound_getitem, Hkeys|].
    intros. by apply sound_print, Hpure. }
  intros _ st2 _ _.
  apply sound_bind; [by apply sound_input, Hpure|]. intros choice st3 _ _.
  destruct (negb (is_yes choice)); [apply sound_ret|].
  apply sound_bind; [by apply sound_print_options|]. intros _ st4 _ _.
  apply sound_bind; [by apply sound_input, Hpure|]. intros option st5 _ _.
  apply sound_dispatch; [done|].
  intros pkg st' Hpkg. apply sound_cleaner_confirm; [done | by apply Hkeys].
Qed.

Lemma sound_menu (T : list tree_entry) (V : Py.dict string) (st : state) :
  sound_at (only_uninstalls Main.uninstall_argv (orphans_of T V))
           (Main.menu w (orphans_of T V) V) st.
Proof.
  unfold Main.menu.
  assert (∀ x, x ∈ orphans_of T V → x ∈ Py.keys V) as Hkeys
    by (by intros x [? _]%elem_of_orphans_of).
  set (orph := orphans_of T V) in *. clearbody orph.
  assert (∀ e, (∀ argv, e ≠ Run argv) →
               only_uninstalls Main.uninstall_argv orph e) as Hpure
    by (intros e; apply only_uninstalls_pure).
  destruct orph as [|x xs]; [by apply sound_print, Hpure|].
  apply sound_bind; [by apply sound_print, Hpure|]. intros _ st1 _ _.
  apply sound_bind.
  { apply sound_for_each. intros pkg st' Hpkg.
    apply sound_bind; [by apply sound_getitem, Hkeys|].
    intros. by apply sound_print, Hpure. }
  intros _ st2 _ _.
  apply sound_bind; [by apply sound_input, Hpure|]. intros choice st3 _ _.
  destruct (negb (is_yes choice)).
  { apply sound_bind; [by apply sound_print, Hpure|]. intros.
    by apply sound_raise. }
  apply sound_bind; [by apply sound_print_options|]. intros _ st4 _ _.
  apply sound_bind; [by apply sound_input, Hpure|]. intros option st5 _ _.
  apply sound_dispatch; [done|].
  intros pkg st' Hpkg. apply sound_main_confirm; [done | by apply Hkeys].
Qed.

End only_orphans.

(** C10, amended.  In python_package_cleaner.py, for the classification of
    any installed mapping against any tree, and in main.py, for the orphan
    list of any installed mapping against any tree: every orphan is a key of
    the mapping the version is read from; a run of the menu, in either mode
    and on any input, never raises [KeyError], always stops, and every
    uninstall command it issues names an orphan.  In
    python_package_cleaner.py an orphan is labelled application, so no
    package labelled system or required by another is passed to
    [uninstall_package], and for a mapping without repeated names no orphan
    is protected by name or location or required.  In main.py, which has no
    system category, an orphan is not required by another package; nothing
    more is said of it (a protected name can be an orphan there). *)
Theorem uninstall_targets_are_orphans (w : IO.world) (T : list tree_entry)
    (I : Py.dict pkg_data) (V : Py.dict string) (st : IO.state) :
  (∀ name, name ∈ orphaned (classify T I) →
     name ∈ Py.keys (classify T I) ∧ name ∈ Py.keys I
     ∧ ∃ info, Py.get (classify T I) name = Some info
               ∧ used_by info = category_label Application
               ∧ system info = false
               ∧ name ∉ required_packages T)
  ∧ (∀ name info, Py.get (classify T I) name = Some info →
       used_by info = category_label System
       ∨ used_by info = category_label RequiredByOther →
       name ∉ orphaned (classify T I))
  ∧ (Py.wf I → ∀ name data, (name, data) ∈ I →
       name ∈ orphaned (classify T I) →
       ¬ protected name data ∧ name ∉ required_packages T)
  ∧ (∀ name, name ∈ orphans_of T V →
       name ∈ Py.keys V ∧ name ∉ required_packages T)
  ∧ sound_at (only_uninstalls (Cleaner.uninstall_argv w)
                              (orphaned (classify T I)))
             (Cleaner.interactive_uninstall w (classify T I)) st
  ∧ sound_at (only_uninstalls Main.uninstall_argv (orphans_of T V))
             (Main.menu w (orphans_of T V) V) st.
Proof.
  split_and!.
  - intros name Hname. split; [by apply orphaned_keys|].
    by apply orphaned_classify.
  - intros name info Hget Hlabel Hname.
    destruct (orphaned_classify T I name Hname)
      as (_ & info' & Hget' & Happ & _).
    rewrite Hget in Hget'. injection Hget' as <-.
    rewrite Happ in Hlabel.
    by destruct Hlabel as [?%category_label_inj|?%category_label_inj].
  - intros Hwf name data Hin Hname.
    destruct (orphaned_classify T I name Hname)
      as (_ & info & Hget & Happ & _ & Hreq).
    split; [|done].
    rewrite (classify_get T I name data Hwf Hin) in Hget.
    injection Hget as <-. simpl in Happ.
    by apply (used_by_of_cases (required_packages T) name data) in Happ
      as [? _].
  - intros name. by rewrite elem_of_orphans_of.
  - apply sound_interactive_uninstall.
  - apply sound_menu.
Qed.

(** An instance: a run of the bulk mode that confirms the one orphan; pip
    is listed too, is protected, and is not an orphan. *)
Lemma uninstall_targets_are_orphans_witness :
  let w := IO.World "/usr/bin/python3" (λ _ _, IO.Completed 0 EmptyString)
                    (λ _, None) (λ _, None) in
  let I := [("flask", PkgData "3.0" (Some EmptyString));
            ("jinja2", PkgData "3.1" (Some EmptyString));
            ("pip", PkgData "23.0" (Some EmptyString))] in
  let T := [TreeEntry "flask" (Some [Dependency "jinja2"])] in
  orphaned (classify T I) = ["flask"]
  ∧ ¬ protected "flask" (PkgData "3.0" (Some EmptyString))
  ∧ sound_at (only_uninstalls (Cleaner.uninstall_argv w) ["flask"])
             (Cleaner.interactive_uninstall w (classify T I))
             (IO.State ["y"; "1"; "y"] []).
Proof.
  intros w I T.
  pose proof (uninstall_targets_are_orphans w T I []
                (IO.State ["y"; "1"; "y"] []))
    as (_ & _ & Hprot & _ & Hrun & _).
  assert (orphaned (classify T I) = ["flask"]) as Horphaned by by vm_compute.
  split_and!; [exact Horphaned | | exact Hrun].
  apply (Hprot ltac:(compute_done) "flask").
  - apply list_elem_of_here.
  - rewrite Horphaned. apply list_elem_of_here.
Defined.

(** C10 as first stated fails in main.py.  With pip and flask listed and
    nothing depending on either, both are orphans of main.py; in the bulk
    mode, with a yes for pip and a no for flask, the script ends normally
    and the one package it passes to [uninstall_package] is pip: a
    protected name, which the classification of python_package_cleaner.py
    labels system whatever its location and whatever the tree. *)
Lemma main_uninstalls_protected_name :
  let w := IO.World "python3" (λ _ _, IO.Completed 0 EmptyString)
             (λ _, Some [ ({[ "name" := "pip"; "version" := "23.0" ]}
                           : pkg_obj);
                          ({[ "name" := "flask"; "version" := "3.0" ]}
                           : pkg_obj) ])
             (λ _, Some [TreeEntry "flask" None]) in
  let st := IO.State ["y"; "1"; "y"; "n"] [] in
  let V := [("pip", "23.0"); ("flask", "3.0")] in
  let T := [TreeEntry "flask" None] in
  orphans_of T V = ["pip"; "flask"]
  ∧ (Main.menu w (orphans_of T V) V st).1 = IO.Ok ()
  ∧ runs (IO.log (Main.menu w (orphans_of T V) V st).2)
    = [Main.uninstall_argv "pip"]
  ∧ (Main.main w st).1 = IO.Ok ()
  ∧ runs (IO.log (Main.main w st).2)
    = [["python3"; "-m"; "pip"; "list"; "--format=json"];
       ["python3"; "-m"; "pipdeptree"; "--json"];
       Main.uninstall_argv "pip"]
  ∧ "pip" ∈ skip_packages
  ∧ (∀ data, protected "pip" data)
  ∧ (∀ required data,
       info_of required "pip" data
       = PkgInfo (version data) (category_label System) true)
  ∧ ¬ (∀ name,
         Main.uninstall_argv name
         ∈ runs (IO.log (Main.menu w (orphans_of T V) V st).2) →
         name ∉ skip_packages).
Proof.
  intros w st V T.
  assert (runs (IO.log (Main.menu w (orphans_of T V) V st).2)
          = [Main.uninstall_argv "pip"]) as Hruns by by vm_compute.
  split_and!; try by vm_compute.
  - intros data. unfold protected. by right; left.
  - intros required data. unfold info_of, used_by_of, is_system.
    replace (bool_decide ("pip" ∈ skip_packages)) with true by by vm_compute.
    by rewrite orb_true_r.
  - intros Hnever. apply (Hnever "pip").
    + rewrite Hruns. apply list_elem_of_singleton. done.
    + by vm_compute.
Qed.

(** ** The selective mode *)

Section selective_mode.
Import IO.

Lemma selected_of_none (orphans : list string) (pkg_input : string) :
  (∀ p, p ∈ Py.split ","%char pkg_input → Py.strip p ∉ orphans) →
  Menu.selected_of orphans pkg_input = [].
Proof.
  intros Hnone. unfold Menu.selected_of.
  assert (filter (λ p, Py.strip p ∈ orphans) (Py.split ","%char pkg_input)
          = []) as ->; [|done].
  apply elem_of_nil_inv. intros p [Hin Hp]%list_elem_of_filter.
  by apply (Hnone p).
Qed.

Lemma selective_line (orphans : list string) (confirm : string → io ())
    (line : string) (rest : list string) (tr : list event) :
  Menu.selective orphans confirm (State (line :: rest) tr)
  = Menu.round (Menu.selective_loop (S (length rest)) orphans confirm)
               orphans confirm line
               (State rest (tr ++ [Prompt Menu.enter_prompt])).
Proof. done. Qed.

Lemma selective_empty_round (orphans : list string)
    (confirm : string → io ()) (line : string) (rest : list string)
    (tr : list event) :
  Py.lower (Py.strip line) ≠ "q" →
  Menu.selected_of orphans (Py.strip line) = [] →
  Menu.selective orphans confirm (State (line :: rest) tr)
  = Menu.selective orphans confirm
      (State rest (tr ++ [Prompt Menu.enter_prompt; Print Menu.no_valid])).
Proof.
  intros Hq Hsel. rewrite selective_line. unfold Menu.round.
  rewrite bool_decide_eq_false_2 by done. rewrite Hsel.
  erewrite bind_Ok by apply print_run. simpl.
  by rewrite <-app_assoc.
Qed.

Lemma selective_same_selection (orphans : list string)
    (confirm : string → io ()) (line1 line2 : string)
    (rest : list string) (tr : list event) :
  Py.lower (Py.strip line1) ≠ "q" →
  Py.lower (Py.strip line2) ≠ "q" →
  Menu.selected_of orphans (Py.strip line1)
  = Menu.selected_of orphans (Py.strip line2) →
  Menu.selective orphans confirm (State (line1 :: rest) tr)
  = Menu.selective orphans confirm (State (line2 :: rest) tr).
Proof.
  intros Hq1 Hq2 Hsel. rewrite !selective_line. unfold Menu.round.
  rewrite !bool_decide_eq_false_2 by done. by rewrite Hsel.
Qed.

Lemma selective_mode_filters_intro (orphans : list string)
    (confirm : string → io ()) (argv_of : string → list string) :
  (∀ x st, x ∈ orphans →
     sound_at (only_uninstalls argv_of orphans) (confirm x) st) →
  selective_mode_filters orphans confirm argv_of.
Proof.
  intros Hconfirm.
  assert (∀ e, (∀ argv, e ≠ Run argv) → only_uninstalls argv_of orphans e)
    as Hpure by (intros e; apply only_uninstalls_pure).
  split_and!.
  - intros line. apply selected_of_none.
  - intros line rest tr Hq Hsel. split.
    + by apply selective_empty_round.
    + rewrite selective_empty_round by done.
      destruct (selective_prompts_first _ orphans confirm
                  (State rest (tr ++ [Prompt Menu.enter_prompt;
                                      Print Menu.no_valid]))
                  Hpure Hconfirm) as [evs Hlog].
      exists evs. rewrite Hlog. simpl. by rewrite <-app_assoc.
  - intros line1 line2 rest tr. apply selective_same_selection.
  - intros st. by apply sound_selective.
Qed.

End selective_mode.

(** C7.  In the selective mode of both scripts: a line whose names are all
    outside the orphan list selects nothing; on an empty selection the loop
    prints "No valid packages selected. Try again." and continues with the
    next line, asking for names again, instead of leaving the loop; the
    names that are dropped are not reported, since two lines selecting the
    same orphans give the same run; and no uninstall command is ever issued
    for a name outside the orphan list. *)
Theorem selective_mode_discards_unknown (w : IO.world)
    (classified : Py.dict pkg_info) (T : list tree_entry)
    (V : Py.dict string) :
  selective_mode_filters (orphaned classified)
                         (Cleaner.confirm_uninstall w classified)
                         (Cleaner.uninstall_argv w)
  ∧ selective_mode_filters (orphans_of T V)
                           (Main.confirm_uninstall w V)
                           Main.uninstall_argv.
Proof.
  split; apply selective_mode_filters_intro.
  - intros x st Hx. apply sound_cleaner_confirm; [done|].
    by apply orphaned_keys.
  - intros x st Hx. apply sound_main_confirm; [done|].
    by apply elem_of_orphans_of in Hx as [? _].
Qed.

(** An instance: a classification whose only orphan is flask, when the line names
    two packages that are not orphans. *)
Lemma selective_mode_discards_unknown_witness :
  let w := IO.World "/usr/bin/python3" (λ _ _, IO.Completed 0 EmptyString)
                    (λ _, None) (λ _, None) in
  let classified :=
    [("flask", PkgInfo "3.0" "application" false);
     ("pip", PkgInfo "23.0" "system (do not remove)" true)] in
  Menu.selective (orphaned classified)
                 (Cleaner.confirm_uninstall w classified)
                 (IO.State ["pip, numpy"; "q"] [])
  = (IO.Ok (),
     IO.State [] [IO.Prompt Menu.enter_prompt; IO.Print Menu.no_valid;
                  IO.Prompt Menu.enter_prompt]).
Proof.
  intros w classified.
  destruct (selective_mode_discards_unknown w classified [] [])
    as [(Hnone & Hempty & _) _].
  destruct (Hempty "pip, numpy" ["q"] []) as [-> _].
  - by vm_compute.
  - apply Hnone. intros p Hp. vm_compute in Hp.
    apply elem_of_cons in Hp as [->|Hp].
    + intros H. vm_compute in H. set_solver.
    + apply list_elem_of_singleton in Hp as ->.
      intros H. vm_compute in H. set_solver.
  - by vm_compute.
Defined.

(** ** The bulk mode *)

Section bulk_mode.
Import IO.
Variable w : world.

Lemma cleaner_uninstall_run (pkg : string) (st : state) :
  Cleaner.uninstall_package w pkg st
  = (Ok (),
     State (stdin st)
       (log st ++ [Print (nl +:+ "Uninstalling " +:+ pkg +:+ "...");
                   Run (Cleaner.uninstall_argv w pkg)])).
Proof.
  unfold Cleaner.uninstall_package.
  erewrite bind_Ok by apply print_run.
  erewrite bind_Ok by apply run_unchecked. simpl.
  by rewrite <-app_assoc.
Qed.

Lemma main_uninstall_run (pkg : string) (st : state) :
  Main.uninstall_package w pkg st
  = (Ok (),
     State (stdin st)
       (log st ++ [Print (nl +:+ "Uninstalling " +:+ pkg +:+ "...");
                   Run (Main.uninstall_argv pkg)])).
Proof.
  unfold Main.uninstall_package.
  erewrite bind_Ok by apply print_run.
  erewrite bind_Ok by apply run_unchecked. simpl.
  by rewrite <-app_assoc.
Qed.

Lemma cleaner_confirm_run (classified : Py.dict pkg_info)
    (pkg answer : string) (info : pkg_info) (rest : list string)
    (tr : list event) :
  Py.get classified pkg = Some info →
  Cleaner.confirm_uninstall w classified pkg (State (answer :: rest) tr)
  = (Ok (),
     State rest
       (tr ++ confirm_events (Cleaner.uninstall_argv w) pkg
                             (info_version info) answer)).
Proof.
  intros Hget. unfold Cleaner.confirm_uninstall, getitem. rewrite Hget.
  erewrite bind_Ok by done.
  erewrite bind_Ok by apply input_line.
  unfold confirm_events. destruct (is_yes answer).
  - rewrite cleaner_uninstall_run. simpl. by rewrite <-app_assoc.
  - done.
Qed.

Lemma main_confirm_run (installed_packages : Py.dict string)
    (pkg answer version : string) (rest : list string) (tr : list event) :
  Py.get installed_packages pkg = Some version →
  Main.confirm_uninstall w installed_packages pkg (State (answer :: rest) tr)
  = (Ok (),
     State rest
       (tr ++ confirm_events Main.uninstall_argv pkg version answer)).
Proof.
  intros Hget. unfold Main.confirm_uninstall, getitem. rewrite Hget.
  erewrite bind_Ok by done.
  erewrite bind_Ok by apply input_line.
  unfold confirm_events. destruct (is_yes answer).
  - rewrite main_uninstall_run. simpl. by rewrite <-app_assoc.
  - done.
Qed.

End bulk_mode.

(** C6.  After a yes to the first question and "1" as mode, with two orphans
    X and Y in that order, an answer for X that is "y" once trimmed and
    lowercased and an answer for Y that is anything else: the run ends
    normally having consumed the four lines, and the only child process it
    started is the uninstall of X.  This holds for the menu of both
    scripts. *)
Theorem bulk_uninstalls_confirmed_only (w : IO.world)
    (classified : Py.dict pkg_info) (V : Py.dict string)
    (X Y c o aX aY : string) (rest : list string) (tr : list IO.event) :
  Py.lower (Py.strip c) = "y" → Py.strip o = "1" →
  Py.lower (Py.strip aX) = "y" → Py.lower (Py.strip aY) ≠ "y" →
  (orphaned classified = [X; Y] →
     ∃ evs,
       Cleaner.interactive_uninstall w classified
         (IO.State (c :: o :: aX :: aY :: rest) tr)
       = (IO.Ok (), IO.State rest (tr ++ evs))
       ∧ runs evs = [Cleaner.uninstall_argv w X])
  ∧ (X ∈ Py.keys V → Y ∈ Py.keys V →
     ∃ evs,
       Main.menu w [X; Y] V (IO.State (c :: o :: aX :: aY :: rest) tr)
       = (IO.Ok (), IO.State rest (tr ++ evs))
       ∧ runs evs = [Main.uninstall_argv X]).
Proof.
  intros Hc Ho HaX HaY.
  assert (IO.is_yes c = true) as Hyc by by apply bool_decide_eq_true_2.
  assert (IO.is_yes aX = true) as HyX by by apply bool_decide_eq_true_2.
  assert (IO.is_yes aY = false) as HyY by by apply bool_decide_eq_false_2.
  split.
  - intros Horph.
    assert (∃ iX, Py.get classified X = Some iX) as [iX HX].
    { apply get_is_Some, orphaned_keys. rewrite Horph. left. }
    assert (∃ iY, Py.get classified Y = Some iY) as [iY HY].
    { apply get_is_Some, orphaned_keys. rewrite Horph. right. left. }
    unfold Cleaner.interactive_uninstall. rewrite Horph.
    unfold Menu.print_options, Menu.dispatch.
    unfold mbind, IO.io_bind. simpl.
    unfold IO.getitem. rewrite HX, HY. simpl.
    rewrite Hyc. simpl. rewrite Ho. simpl.
    unfold mbind, IO.io_bind.
    rewrite (cleaner_confirm_run w classified X aX iX) by done.
    rewrite (cleaner_confirm_run w classified Y aY iY) by done.
    unfold confirm_events. rewrite HyX, HyY.
    unfold IO.print, IO.emit. simpl. rewrite <-!app_assoc. simpl.
    eexists. split; [reflexivity | done].
  - intros HXin HYin.
    apply get_is_Some in HXin as [vX HX].
    apply get_is_Some in HYin as [vY HY].
    unfold Main.menu.
    unfold Menu.print_options, Menu.dispatch.
    unfold mbind, IO.io_bind. simpl.
    unfold IO.getitem. rewrite HX, HY. simpl.
    rewrite Hyc. simpl. rewrite Ho. simpl.
    unfold mbind, IO.io_bind.
    rewrite (main_confirm_run w V X aX vX) by done.
    rewrite (main_confirm_run w V Y aY vY) by done.
    unfold confirm_events. rewrite HyX, HyY.
    unfold IO.print, IO.emit. simpl. rewrite <-!app_assoc. simpl.
    eexists. split; [reflexivity | done].
Qed.

(** An instance: the answers " Y " for flask and "no" for requests. *)
Lemma bulk_uninstalls_confirmed_only_witness :
  let w := IO.World "/usr/bin/python3" (λ _ _, IO.Completed 1 EmptyString)
                    (λ _, None) (λ _, None) in
  let classified :=
    [("flask", PkgInfo "3.0" "application" false);
     ("pip", PkgInfo "23.0" "system (do not remove)" true);
     ("requests", PkgInfo "2.31" "application" false)] in
  ∃ evs,
    Cleaner.interactive_uninstall w classified
      (IO.State ["y"; "1"; " Y "; "no"] [])
    = (IO.Ok (), IO.State [] evs)
    ∧ runs evs = [["/usr/bin/python3"; "-m"; "pip"; "uninstall"; "flask"; "-y"]].
Proof.
  intros w classified.
  destruct (bulk_uninstalls_confirmed_only w classified []
              "flask" "requests" "y" "1" " Y " "no" [] [])
    as [Hbulk _]; [by vm_compute | by vm_compute | by vm_compute | |].
  - intros H. vm_compute in H. discriminate H.
  - destruct Hbulk as (evs & Hrun & Hruns); [by vm_compute|].
    by exists evs.
Defined.

(** ** Two worlds that differ in how uninstalls end *)

Section uninstall_status.
Import IO.
Variables (exe : string)
          (sp1 sp2 : list event → list string → completed)
          (jp : string → option (list pkg_obj))
          (jt : string → option (list tree_entry)).

Let w1 := World exe sp1 jp jt.
Let w2 := World exe sp2 jp jt.

Hypothesis agree : ∀ tr argv,
  (∀ name, argv ≠ Cleaner.uninstall_argv w1 name) →
  (∀ name, argv ≠ Main.uninstall_argv name) →
  sp1 tr argv = sp2 tr argv.

Lemma run_agree (argv : list string) (check : bool) (st : state) :
  (∀ name, argv ≠ Cleaner.uninstall_argv w1 name) →
  (∀ name, argv ≠ Main.uninstall_argv name) →
  subprocess_run w1 argv check st = subprocess_run w2 argv check st.
Proof.
  intros H1 H2. unfold subprocess_run. simpl. by rewrite agree.
Qed.

Lemma round_ext (again1 again2 : io ()) (orphans : list string)
    (confirm1 confirm2 : string → io ()) (line : string) (st : state) :
  (∀ st', again1 st' = again2 st') →
  (∀ x st', confirm1 x st' = confirm2 x st') →
  Menu.round again1 orphans confirm1 line st
  = Menu.round again2 orphans confirm2 line st.
Proof.
  intros Hagain Hconfirm. unfold Menu.round.
  case_bool_decide; [done|].
  destruct (Menu.selected_of orphans (Py.strip line)) as [|x xs].
  - apply bind_ext; [done|]. intros _ st'. apply Hagain.
  - apply bind_ext; [by apply for_each_ext|]. intros _ st'.
    apply bind_ext; [done|]. intros more st''.
    destruct (negb (is_yes more)); [done | apply Hagain].
Qed.

Lemma selective_loop_ext (fuel : nat) (orphans : list string)
    (confirm1 confirm2 : string → io ()) (st : state) :
  (∀ x st', confirm1 x st' = confirm2 x st') →
  Menu.selective_loop fuel orphans confirm1 st
  = Menu.selective_loop fuel orphans confirm2 st.
Proof.
  intros Hconfirm. revert st.
  induction fuel as [|fuel IH]; intros st; [done|].
  rewrite !selective_loop_S. apply bind_ext; [done|].
  intros line st'. by apply round_ext.
Qed.

Lemma dispatch_ext (option : string) (orphans : list string)
    (confirm1 confirm2 : string → io ()) (st : state) :
  (∀ x st', confirm1 x st' = confirm2 x st') →
  Menu.dispatch option orphans confirm1 st
  = Menu.dispatch option orphans confirm2 st.
Proof.
  intros Hconfirm. unfold Menu.dispatch.
  case_bool_decide.
  - apply bind_ext; [by apply for_each_ext | done].
  - case_bool_decide; [|done].
    unfold Menu.selective. by apply selective_loop_ext.
Qed.

Lemma cleaner_confirm_ext (classified : Py.dict pkg_info) (pkg : string)
    (st : state) :
  Cleaner.confirm_uninstall w1 classified pkg st
  = Cleaner.confirm_uninstall w2 classified pkg st.
Proof.
  unfold Cleaner.confirm_uninstall.
  apply bind_ext; [done|]. intros info st1.
  apply bind_ext; [done|]. intros confirm st2.
  destruct (is_yes confirm); [|done].
  by rewrite !cleaner_uninstall_run.
Qed.

Lemma main_confirm_ext (installed_packages : Py.dict string)
    (pkg : string) (st : state) :
  Main.confirm_uninstall w1 installed_packages pkg st
  = Main.confirm_uninstall w2 installed_packages pkg st.
Proof.
  unfold Main.confirm_uninstall.
  apply bind_ext; [done|]. intros version st1.
  apply bind_ext; [done|]. intros confirm st2.
  destruct (is_yes confirm); [|done].
  by rewrite !main_uninstall_run.
Qed.

Lemma interactive_uninstall_ext (classified : Py.dict pkg_info)
    (st : state) :
  Cleaner.interactive_uninstall w1 classified st
  = Cleaner.interactive_uninstall w2 classified st.
Proof.
  unfold Cleaner.interactive_uninstall.
  destruct (orphaned classified) as [|x xs]; [done|].
  apply bind_ext; [done|]. intros _ st1.
  apply bind_ext; [done|]. intros _ st2.
  apply bind_ext; [done|]. intros choice st3.
  destruct (negb (is_yes choice)); [done|].
  apply bind_ext; [done|]. intros _ st4.
  apply bind_ext; [done|]. intros option st5.
  apply dispatch_ext. intros pkg st'. apply cleaner_confirm_ext.
Qed.

Lemma menu_ext (orphans : list string) (installed_packages : Py.dict string)
    (st : state) :
  Main.menu w1 orphans installed_packages st
  = Main.menu w2 orphans installed_packages st.
Proof.
  unfold Main.menu.
  destruct orphans as [|x xs]; [done|].
  apply bind_ext; [done|]. intros _ st1.
  apply bind_ext; [done|]. intros _ st2.
  apply bind_ext; [done|]. intros choice st3.
  destruct (negb (is_yes choice)); [done|].
  apply bind_ext; [done|]. intros _ st4.
  apply bind_ext; [done|]. intros option st5.
  apply dispatch_ext. intros pkg st'. apply main_confirm_ext.
Qed.

Lemma cleaner_main_ext (st : state) : Cleaner.main w1 st = Cleaner.main w2 st.
Proof.
  unfold Cleaner.main. apply bind_ext.
  { unfold Cleaner.ensure_pipdeptree, try_except.
    assert ((subprocess_run w1 (Cleaner.probe_argv w1) true ≫= λ _, mret ()) st
            = (subprocess_run w2 (Cleaner.probe_argv w2) true ≫= λ _, mret ()) st)
      as ->.
    { apply bind_ext; [|done]. by apply run_agree. }
    destruct ((subprocess_run w2 (Cleaner.probe_argv w2) true ≫= _) st)
      as [[a|e|] st']; [done | | done].
    case_decide; [|done].
    apply bind_ext; [done|]. intros _ st1.
    apply bind_ext; [|done]. by apply run_agree. }
  intros _ st1. apply bind_ext; [done|]. intros _ st2.
  apply bind_ext.
  { unfold Cleaner.get_installed_packages.
    apply bind_ext; [by apply run_agree | done]. }
  intros installed_packages st3. apply bind_ext.
  { unfold Cleaner.classify_packages, Cleaner.get_dependency_tree.
    apply bind_ext; [|done].
    apply bind_ext; [by apply run_agree | done]. }
  intros classified st4. apply bind_ext; [done|]. intros _ st5.
  apply interactive_uninstall_ext.
Qed.

Lemma main_main_ext (st : state) : Main.main w1 st = Main.main w2 st.
Proof.
  unfold Main.main. apply bind_ext; [done|]. intros _ st1.
  apply bind_ext.
  { unfold Main.find_orphans. apply bind_ext.
    - unfold Main.get_installed_packages.
      apply bind_ext; [by apply run_agree | done].
    - intros installed_packages st2. apply bind_ext; [|done].
      unfold Main.get_dependency_tree.
      apply bind_ext; [by apply run_agree | done]. }
  intros [orphans installed_packages] st2.
  apply bind_ext; [done|]. intros _ st3.
  apply bind_ext; [done|]. intros _ st4.
  apply menu_ext.
Qed.

End uninstall_status.

(** C9.  [uninstall_package] prints its notice, starts the uninstall and
    returns normally whatever status the child process ends with, in both
    scripts.  And the status cannot be told from the run: two worlds that
    answer alike except to uninstall commands give the same outcome, the same
    remaining input and the same log, for the whole of either script, so a
    failed uninstall stops neither the remaining confirmations nor the
    program. *)
Theorem uninstall_is_fire_and_forget (exe : string)
    (sp1 sp2 : list IO.event → list string → IO.completed)
    (jp : string → option (list pkg_obj))
    (jt : string → option (list tree_entry)) :
  let w1 := IO.World exe sp1 jp jt in
  let w2 := IO.World exe sp2 jp jt in
  (∀ tr argv,
     (∀ name, argv ≠ Cleaner.uninstall_argv w1 name) →
     (∀ name, argv ≠ Main.uninstall_argv name) →
     sp1 tr argv = sp2 tr argv) →
  (∀ pkg st,
     Cleaner.uninstall_package w1 pkg st
     = (IO.Ok (),
        IO.State (IO.stdin st)
          (IO.log st
           ++ [IO.Print (IO.nl +:+ "Uninstalling " +:+ pkg +:+ "...");
               IO.Run [exe; "-m"; "pip"; "uninstall"; pkg; "-y"]])))
  ∧ (∀ pkg st,
       Main.uninstall_package w1 pkg st
       = (IO.Ok (),
          IO.State (IO.stdin st)
            (IO.log st
             ++ [IO.Print (IO.nl +:+ "Uninstalling " +:+ pkg +:+ "...");
                 IO.Run ["python3"; "-m"; "pip"; "uninstall"; pkg; "-y"]])))
  ∧ (∀ st, Cleaner.main w1 st = Cleaner.main w2 st)
  ∧ (∀ st, Main.main w1 st = Main.main w2 st).
Proof.
  intros w1 w2 Hagree. split_and!.
  - intros pkg st. apply cleaner_uninstall_run.
  - intros pkg st. apply main_uninstall_run.
  - intros st. by apply cleaner_main_ext.
  - intros st. by apply main_main_ext.
Qed.

(** An instance: a world where every uninstall exits with status 0 and one where
    every uninstall exits with status 1. *)
Lemma uninstall_is_fire_and_forget_witness :
  let jp := λ _ : string,
    Some [ ({[ "name" := "flask"; "version" := "3.0" ]} : pkg_obj) ] in
  let jt := λ _ : string, Some ([] : list tree_entry) in
  let sp1 := λ (_ : list IO.event) (_ : list string),
    IO.Completed 0 EmptyString in
  let sp2 := λ (_ : list IO.event) (argv : list string),
    match argv with
    | [_; _; _; _; name; _] =>
        if bool_decide
             (argv = ["python3"; "-m"; "pip"; "uninstall"; name; "-y"])
        then IO.Completed 1 EmptyString else IO.Completed 0 EmptyString
    | _ => IO.Completed 0 EmptyString
    end in
  Cleaner.main (IO.World "python3" sp1 jp jt) (IO.State ["y"; "1"; "y"] [])
  = Cleaner.main (IO.World "python3" sp2 jp jt) (IO.State ["y"; "1"; "y"] []).
Proof.
  intros jp jt sp1 sp2.
  destruct (uninstall_is_fire_and_forget "python3" sp1 sp2 jp jt)
    as (_ & _ & Hmain & _); [|apply Hmain].
  intros tr argv H1 H2. unfold sp1, sp2.
  destruct argv as [|a0 [|a1 [|a2 [|a3 [|name [|a5 [|a6 argv]]]]]]];
    try reflexivity.
  case_bool_decide as Hargv; [|reflexivity].
  destruct (H2 name). exact Hargv.
Defined.

(** ** The scripts always stop *)

Section termination.
Import IO.
Variable w : world.

Lemma bind_stops {A B} (m : io A) (k : A → io B) (st : state) :
  (m st).1 ≠ OutOfFuel → (∀ a st', (k a st').1 ≠ OutOfFuel) →
  ((m ≫= k) st).1 ≠ OutOfFuel.
Proof.
  unfold mbind, io_bind. destruct (m st) as [[a|e|] st']; simpl;
    [intros _ Hk; apply Hk | done | done].
Qed.

Lemma bind_stops_Ok {A B} (m : io A) (k : A → io B) (st : state) :
  (m st).1 ≠ OutOfFuel →
  (∀ a st', m st = (Ok a, st') → (k a st').1 ≠ OutOfFuel) →
  ((m ≫= k) st).1 ≠ OutOfFuel.
Proof.
  unfold mbind, io_bind. destruct (m st) as [[a|e|] st']; simpl;
    [intros _ Hk; by apply Hk | done | done].
Qed.

Lemma find_orphans_inv (st st' : state) (orphans : list string)
    (installed_packages : Py.dict string) :
  Main.find_orphans w st = (Ok (orphans, installed_packages), st') →
  ∃ tree, orphans = orphans_of tree installed_packages.
Proof.
  unfold Main.find_orphans, mbind, io_bind.
  destruct (Main.get_installed_packages w st) as [[I|e|] st1]; [|done..].
  destruct (Main.get_dependency_tree w st1) as [[T|e|] st2]; [|done..].
  intros [= <- <- <-]. by exists T.
Qed.

Lemma for_each_stops {A} (xs : list A) (body : A → io ()) (st : state) :
  (∀ x st', (body x st').1 ≠ OutOfFuel) →
  (for_each xs body st).1 ≠ OutOfFuel.
Proof.
  intros Hbody. revert st. induction xs as [|x xs IH]; intros st; simpl.
  - done.
  - apply bind_stops; [apply Hbody | intros _ st'; apply IH].
Qed.

Lemma run_stops (argv : list string) (check : bool) (st : state) :
  (subprocess_run w argv check st).1 ≠ OutOfFuel.
Proof. unfold subprocess_run. by destruct (check && _). Qed.

Lemma input_stops (text : string) (st : state) :
  (input text st).1 ≠ OutOfFuel.
Proof. unfold input. by destruct (stdin st). Qed.

Lemma or_decode_error_stops {A} (o : option A) (st : state) :
  (or_decode_error o st).1 ≠ OutOfFuel.
Proof. by destruct o. Qed.

Lemma or_key_error_stops {A} (o : option A) (st : state) :
  (or_key_error o st).1 ≠ OutOfFuel.
Proof. by destruct o. Qed.

(** On every input and in every world, neither script runs out of fuel:
    the bound on the rounds of the selective loop is never reached. *)
Lemma scripts_stop (st : state) :
  (Cleaner.main w st).1 ≠ OutOfFuel ∧ (Main.main w st).1 ≠ OutOfFuel.
Proof.
  split.
  - unfold Cleaner.main. apply bind_stops.
    { unfold Cleaner.ensure_pipdeptree, try_except.
      destruct ((subprocess_run w (Cleaner.probe_argv w) true ≫= _) st)
        as [[a|e|] st'] eqn:Hprobe; [done | |].
      - case_decide; [|done].
        apply bind_stops; [done|]. intros _ st1.
        apply bind_stops; [apply run_stops | done].
      - pose proof (bind_stops
          (subprocess_run w (Cleaner.probe_argv w) true)
          (λ _, mret ()) st) as H.
        rewrite Hprobe in H. destruct H; [apply run_stops | done | done]. }
    intros _ st1. apply bind_stops; [done|]. intros _ st2.
    apply bind_stops.
    { unfold Cleaner.get_installed_packages.
      apply bind_stops; [apply run_stops|]. intros result st3.
      apply bind_stops; [apply or_decode_error_stops|]. intros.
      apply or_key_error_stops. }
    intros installed_packages st3. apply bind_stops.
    { unfold Cleaner.classify_packages, Cleaner.get_dependency_tree.
      apply bind_stops; [|done].
      apply bind_stops; [apply run_stops|]. intros.
      apply or_decode_error_stops. }
    intros classified st4. apply bind_stops.
    { unfold Cleaner.display_packages.
      apply bind_stops; [done|]. intros.
      apply bind_stops; [done|]. intros. by apply for_each_stops. }
    intros _ st5.
    by destruct (sound_interactive_uninstall w classified st5) as (_ & ? & _).
  - unfold Main.main. apply bind_stops; [done|]. intros _ st1.
    apply bind_stops_Ok.
    { unfold Main.find_orphans. apply bind_stops.
      - unfold Main.get_installed_packages.
        apply bind_stops; [apply run_stops|]. intros result st3.
        apply bind_stops; [apply or_decode_error_stops|]. intros.
        apply or_key_error_stops.
      - intros installed_packages st2. apply bind_stops; [|done].
        unfold Main.get_dependency_tree.
        apply bind_stops; [apply run_stops|]. intros.
        apply or_decode_error_stops. }
    intros [orphans installed_packages] st2 [tree ->]%find_orphans_inv.
    apply bind_stops; [done|]. intros _ st3.
    apply bind_stops; [by apply for_each_stops|]. intros _ st4.
    by destruct (sound_menu w tree installed_packages st4) as (_ & ? & _).
Qed.

End termination.

(** * Further properties of the two scripts *)

(** ** How the required set and the orphan lists compose *)

(** Putting two trees together unites their required sets; an entry
    without a "dependencies" key requires nothing; and the orphans of main.py
    for the joint tree are the orphans for the first tree that the second
    tree does not require either, in the same order. *)
Theorem required_packages_app (T1 T2 : list tree_entry) :
  required_packages (T1 ++ T2) = required_packages T1 ∪ required_packages T2
  ∧ (∀ name, required_packages (TreeEntry name None :: T1)
             = required_packages T1)
  ∧ (∀ V : Py.dict string,
       orphans_of (T1 ++ T2) V
       = filter (λ pkg, pkg ∉ required_packages T2) (orphans_of T1 V)).
Proof.
  assert (required_packages (T1 ++ T2)
          = required_packages T1 ∪ required_packages T2) as Happ.
  { rewrite !required_packages_flat, bind_app, list_to_set_app_L. done. }
  split_and!; [done | |].
  - intros name. rewrite !required_packages_flat. done.
  - intros V. unfold orphans_of. rewrite Happ, list_filter_filter.
    apply list_filter_iff. intros pkg. set_solver.
Qed.

(** ** The orphan list of python_package_cleaner.py *)

Lemma orphaned_fmap (required : gset string) (I : Py.dict pkg_data) :
  orphaned ((λ item, (item.1, info_of required item.1 item.2)) <$> I)
  = (filter (λ item, is_system item.1 item.2 = false ∧ item.1 ∉ required)
            I).*1.
Proof.
  unfold orphaned. induction I as [|[k data] I IH]; [done|].
  rewrite fmap_cons. simpl.
  rewrite (filter_cons (λ item : string * pkg_info,
                          used_by item.2 = "application")).
  rewrite (filter_cons (λ item : string * pkg_data,
                          is_system item.1 item.2 = false
                          ∧ item.1 ∉ required)).
  simpl. unfold used_by_of.
  destruct (is_system k data) eqn:Hsys; simpl.
  - apply IH.
  - case_bool_decide as Hreq; simpl.
    + rewrite decide_False by (by intros [_ ?]). apply IH.
    + rewrite decide_True by done. simpl. f_equal. apply IH.
Qed.

(** For an installed mapping without repeated names, the orphans offered by
    python_package_cleaner.py are the packages that are neither system nor
    required, in the order of the mapping; none of pip, setuptools, wheel
    and pipdeptree is among them; and they form a sublist of the orphans
    main.py computes for the same names and tree. *)
Theorem orphaned_classify_filter (T : list tree_entry)
    (I : Py.dict pkg_data) (V : Py.dict string) :
  Py.wf I → Py.keys V = Py.keys I →
  orphaned (classify T I)
  = (filter (λ item, is_system item.1 item.2 = false
                     ∧ item.1 ∉ required_packages T) I).*1
  ∧ (∀ name, name ∈ skip_packages → name ∉ orphaned (classify T I))
  ∧ orphaned (classify T I) `sublist_of` orphans_of T V.
Proof.
  intros HI HV. rewrite classify_wf by done. rewrite orphaned_fmap.
  split_and!; [done | |].
  - intros name Hskip ([k data] & -> & Hin)%list_elem_of_fmap.
    apply list_elem_of_filter in Hin as [[Hsys _] _]. simpl in *.
    unfold is_system in Hsys. apply orb_false_iff in Hsys as [_ Hsys].
    by apply bool_decide_eq_false in Hsys.
  - unfold orphans_of. rewrite HV. unfold Py.keys. clear HI HV.
    induction I as [|[k data] I IH]; [done|].
    rewrite fmap_cons. simpl.
    rewrite (filter_cons (λ pkg : string, pkg ∉ required_packages T)).
    rewrite (filter_cons (λ item : string * pkg_data,
                            is_system item.1 item.2 = false
                            ∧ item.1 ∉ required_packages T)).
    simpl. destruct (decide (k ∉ required_packages T)) as [Hk|Hk].
    + case_decide; simpl; [by apply sublist_skip | by apply sublist_cons].
    + rewrite decide_False by (by intros [_ ?]). done.
Qed.

(** An instance: pip is nobody's dependency, so main.py lists it as an
    orphan, and python_package_cleaner.py does not. *)
Lemma orphaned_classify_filter_witness :
  let I := [("flask", PkgData "3.0" (Some EmptyString));
            ("jinja2", PkgData "3.1" (Some EmptyString));
            ("pip", PkgData "23.0" (Some EmptyString))] in
  let V := [("flask", "3.0"); ("jinja2", "3.1"); ("pip", "23.0")] in
  let T := [TreeEntry "flask" (Some [Dependency "jinja2"])] in
  orphans_of T V = ["flask"; "pip"]
  ∧ orphaned (classify T I) = ["flask"]
  ∧ "pip" ∉ orphaned (classify T I).
Proof.
  intros I V T.
  destruct (orphaned_classify_filter T I V) as (Heq & Hskip & _).
  - unfold Py.wf. simpl. repeat constructor; set_solver.
  - reflexivity.
  - split; [by vm_compute|]. split; [by vm_compute|].
    apply Hskip. unfold skip_packages. set_solver.
Defined.

(** ** The mapping of installed packages *)

Section comprehension.
Context {A V : Type} (item : A → option (string * V)).
Implicit Types (xs : list A) (d : Py.dict V).

Lemma comprehension_None xs d :
  Py.comprehension item xs d = None ↔ ∃ x, x ∈ xs ∧ item x = None.
Proof.
  revert d. induction xs as [|x xs IH]; intros d; simpl.
  - split; [done | by intros (x & ?%elem_of_nil & _)].
  - destruct (item x) as [kv|] eqn:Hx; simpl.
    + rewrite IH. split.
      * intros (y & Hy & Hnone). exists y. split; [by right | done].
      * intros (y & [->|Hy]%elem_of_cons & Hnone); [congruence|].
        by exists y.
    + split; [|done]. intros _. exists x. split; [left | done].
Qed.

Lemma comprehension_wf xs d d' :
  Py.comprehension item xs d = Some d' → Py.wf d → Py.wf d'.
Proof.
  revert d. induction xs as [|x xs IH]; intros d; simpl.
  - by intros [= ->].
  - destruct (item x) as [kv|]; simpl; [|done].
    intros Hd' Hd. eapply IH; [done|]. by apply wf_set.
Qed.

Lemma comprehension_keys xs d d' (k : string) :
  Py.comprehension item xs d = Some d' →
  k ∈ Py.keys d'
  ↔ k ∈ Py.keys d ∨ ∃ x v, x ∈ xs ∧ item x = Some (k, v).
Proof.
  revert d. induction xs as [|x xs IH]; intros d; simpl.
  - intros [= ->]. split; [by left|].
    by intros [?|(x & v & ?%elem_of_nil & _)].
  - destruct (item x) as [[k0 v0]|] eqn:Hx; simpl; [|done].
    intros Hd'. rewrite (IH _ Hd'), elem_of_keys_set. split.
    + intros [[->|Hk]|(y & v & Hy & Hitem)].
      * right. exists x, v0. split; [left | done].
      * by left.
      * right. exists y, v. split; [by right | done].
    + intros [Hk|(y & v & [->|Hy]%elem_of_cons & Hitem)].
      * left. by right.
      * left. left. congruence.
      * right. by exists y, v.
Qed.

Lemma comprehension_get_other xs d d' (k : string) :
  Py.comprehension item xs d = Some d' →
  (∀ x v, x ∈ xs → item x ≠ Some (k, v)) →
  Py.get d' k = Py.get d k.
Proof.
  revert d. induction xs as [|x xs IH]; intros d; simpl.
  - by intros [= ->].
  - destruct (item x) as [[k0 v0]|] eqn:Hx; simpl; [|done].
    intros Hd' Hother. rewrite (IH _ Hd').
    + rewrite get_set. case_decide as Hk; [|done].
      subst. destruct (Hother x v0); [left | done].
    + intros y v Hy. apply Hother. by right.
Qed.

Lemma comprehension_get_last xs1 x xs2 d d' (k : string) (v : V) :
  Py.comprehension item (xs1 ++ x :: xs2) d = Some d' →
  item x = Some (k, v) →
  (∀ y v', y ∈ xs2 → item y ≠ Some (k, v')) →
  Py.get d' k = Some v.
Proof.
  revert d. induction xs1 as [|x1 xs1 IH]; intros d; simpl.
  - intros Hd' Hx Hlater. rewrite Hx in Hd'. simpl in Hd'.
    rewrite (comprehension_get_other _ _ _ _ Hd' Hlater), get_set.
    by rewrite decide_True.
  - destruct (item x1) as [kv|]; simpl; [|done]. apply IH.
Qed.

End comprehension.

Lemma versions_item_None (pkg : pkg_obj) :
  (name ← pkg !! "name"; version ← pkg !! "version"; Some (name, version))
  = None
  ↔ pkg !! "name" = None ∨ pkg !! "version" = None.
Proof.
  destruct (pkg !! "name"), (pkg !! "version"); simpl; naive_solver.
Qed.

Lemma installed_item_None (pkg : pkg_obj) :
  (name ← pkg !! "name"; version ← pkg !! "version";
   Some (name, {| version := version;
                  location := Some (default EmptyString (pkg !! "Location")) |}))
  = None
  ↔ pkg !! "name" = None ∨ pkg !! "version" = None.
Proof.
  destruct (pkg !! "name"), (pkg !! "version"); simpl; naive_solver.
Qed.

(** The dict comprehension of [get_installed_packages], in both scripts,
    raises [KeyError] exactly when some object lacks "name" or "version".
    Otherwise no name is a key twice, the keys are the names of the objects,
    and a name listed more than once keeps what the last object with that
    name says: its version, and in python_package_cleaner.py its "Location"
    field or the empty string. *)
Theorem installed_mapping_last_wins (packages : list pkg_obj) :
  (Main.versions_of_json packages = None
   ↔ ∃ pkg : pkg_obj, pkg ∈ packages
       ∧ (pkg !! "name" = None ∨ pkg !! "version" = None))
  ∧ (Cleaner.installed_of_json packages = None
     ↔ ∃ pkg : pkg_obj, pkg ∈ packages
         ∧ (pkg !! "name" = None ∨ pkg !! "version" = None))
  ∧ (∀ V, Main.versions_of_json packages = Some V →
       Py.wf V
       ∧ (∀ n, n ∈ Py.keys V
               ↔ ∃ pkg : pkg_obj, pkg ∈ packages ∧ pkg !! "name" = Some n)
       ∧ ∀ (before after : list pkg_obj) (pkg : pkg_obj) n v,
           packages = before ++ pkg :: after →
           pkg !! "name" = Some n → pkg !! "version" = Some v →
           (∀ later : pkg_obj, later ∈ after → later !! "name" ≠ Some n) →
           Py.get V n = Some v)
  ∧ (∀ I, Cleaner.installed_of_json packages = Some I →
       Py.wf I
       ∧ (∀ n, n ∈ Py.keys I
               ↔ ∃ pkg : pkg_obj, pkg ∈ packages ∧ pkg !! "name" = Some n)
       ∧ ∀ (before after : list pkg_obj) (pkg : pkg_obj) n v,
           packages = before ++ pkg :: after →
           pkg !! "name" = Some n → pkg !! "version" = Some v →
           (∀ later : pkg_obj, later ∈ after → later !! "name" ≠ Some n) →
           Py.get I n
           = Some (PkgData v (Some (default EmptyString (pkg !! "Location"))))).
Proof.
  split_and!.
  - unfold Main.versions_of_json. rewrite comprehension_None.
    by setoid_rewrite versions_item_None.
  - unfold Cleaner.installed_of_json. rewrite comprehension_None.
    by setoid_rewrite installed_item_None.
  - unfold Main.versions_of_json. intros V HV.
    assert (∀ pkg : pkg_obj, pkg ∈ packages →
              is_Some (pkg !! "name") ∧ is_Some (pkg !! "version")) as Hall.
    { intros pkg Hpkg.
      destruct (pkg !! "name") eqn:Hn, (pkg !! "version") eqn:Hv; [done|..];
        (assert (Py.comprehension
                   (λ pkg : pkg_obj,
                      name ← pkg !! "name"; version ← pkg !! "version";
                      Some (name, version)) packages [] = None) as Hnone;
         [apply comprehension_None; exists pkg; split; [done|];
          by rewrite Hn, ?Hv | congruence]). }
    split_and!.
    + eapply comprehension_wf; [done | apply NoDup_nil_2].
    + intros n. rewrite (comprehension_keys _ _ _ _ _ HV). split.
      * intros [?%elem_of_nil|(pkg & v & Hpkg & Hitem)]; [done|].
        exists pkg. split; [done|].
        destruct (pkg !! "name"), (pkg !! "version"); by simplify_eq/=.
      * intros (pkg & Hpkg & Hn). right.
        destruct (Hall pkg Hpkg) as [_ [v Hv]].
        exists pkg, v. split; [done|]. by rewrite Hn, Hv.
    + intros before after pkg n v -> Hn Hv Hlater.
      eapply comprehension_get_last; [done | simpl; by rewrite Hn, Hv |].
      intros later v' Hin Hitem. apply (Hlater later Hin).
      destruct (later !! "name"), (later !! "version"); by simplify_eq/=.
  - unfold Cleaner.installed_of_json. intros I HI.
    assert (∀ pkg : pkg_obj, pkg ∈ packages →
              is_Some (pkg !! "name") ∧ is_Some (pkg !! "version")) as Hall.
    { intros pkg Hpkg.
      destruct (pkg !! "name") eqn:Hn, (pkg !! "version") eqn:Hv; [done|..];
        (assert (Cleaner.installed_of_json packages = None) as Hnone;
         [unfold Cleaner.installed_of_json; apply comprehension_None;
          exists pkg; split; [done|]; by rewrite Hn, ?Hv
         | unfold Cleaner.installed_of_json in Hnone; congruence]). }
    split_and!.
    + eapply comprehension_wf; [done | apply NoDup_nil_2].
    + intros n. rewrite (comprehension_keys _ _ _ _ _ HI). split.
      * intros [?%elem_of_nil|(pkg & v & Hpkg & Hitem)]; [done|].
        exists pkg. split; [done|].
        destruct (pkg !! "name"), (pkg !! "version"); by simplify_eq/=.
      * intros (pkg & Hpkg & Hn). right.
        destruct (Hall pkg Hpkg) as [_ [v Hv]].
        eexists pkg, _. split; [done|]. by rewrite Hn, Hv.
    + intros before after pkg n v -> Hn Hv Hlater.
      eapply comprehension_get_last; [done | simpl; by rewrite Hn, Hv |].
      intros later v' Hin Hitem. apply (Hlater later Hin).
      destruct (later !! "name"), (later !! "version"); by simplify_eq/=.
Qed.

(** An instance: a listing that names one package twice. *)
Lemma installed_mapping_last_wins_witness :
  let first : pkg_obj := {[ "name" := "flask"; "version" := "2.0" ]} in
  let other : pkg_obj := {[ "name" := "click"; "version" := "8.1" ]} in
  let last : pkg_obj := {[ "name" := "flask"; "version" := "3.0" ]} in
  Main.versions_of_json [first; other; last]
  = Some [("flask", "3.0"); ("click", "8.1")]
  ∧ Py.get [("flask", "3.0"); ("click", "8.1")] "flask" = Some "3.0".
Proof.
  intros first other last.
  assert (Main.versions_of_json [first; other; last]
          = Some [("flask", "3.0"); ("click", "8.1")]) as Hrun
    by by vm_compute.
  split; [done|].
  destruct (installed_mapping_last_wins [first; other; last])
    as (_ & _ & Hmain & _).
  destruct (Hmain _ Hrun) as (_ & _ & Hlast).
  apply (Hlast [first; other] [] last "flask" "3.0");
    [done | by vm_compute | by vm_compute |].
  by intros later ?%elem_of_nil.
Defined.

(** ** Runs with a bound on how they may end *)

Section behaviour.
Import IO.
Variables (E : exn → Prop) (G : list event → Prop).
Hypothesis G_nil : G [].
Hypothesis G_app : ∀ evs1 evs2, G evs1 → G evs2 → G (evs1 ++ evs2).

Lemma behaves_ret {A} (a : A) (st : state) : behaves E G (mret a) st.
Proof.
  unfold behaves. simpl. split_and!; [done | done |].
  exists []. by rewrite app_nil_r.
Qed.

Lemma behaves_raise {A} (e : exn) (st : state) :
  E e → behaves E G (raise (A := A) e) st.
Proof.
  intros He. unfold behaves. simpl. split_and!; [done | done |].
  exists []. by rewrite app_nil_r.
Qed.

Lemma behaves_bind {A B} (m : io A) (k : A → io B) (st : state) :
  behaves E G m st →
  (∀ a st', m st = (Ok a, st') →
     length (stdin st') ≤ length (stdin st) → behaves E G (k a) st') →
  behaves E G (m ≫= k) st.
Proof.
  unfold behaves, mbind, io_bind.
  destruct (m st) as [[a|e|] st'] eqn:Hm; simpl;
    intros (Hend & Hlen & evs & Hlog & Hevs) Hcont.
  - destruct (Hcont a st' eq_refl Hlen) as (Hend' & Hlen' & evs' & Hlog' & Hevs').
    split_and!; [done | lia |].
    exists (evs ++ evs'). split; [|by apply G_app].
    by rewrite Hlog', Hlog, app_assoc.
  - split_and!; [done | done | by exists evs].
  - done.
Qed.

Lemma behaves_print (line : string) (st : state) :
  G [Print line] → behaves E G (print line) st.
Proof.
  intros He. unfold behaves. simpl. split_and!; [done | done |].
  by exists [Print line].
Qed.

Lemma behaves_input (text : string) (st : state) :
  G [Prompt text] → E EOFError → behaves E G (input text) st.
Proof.
  intros He Heof. unfold behaves, input.
  destruct (stdin st) as [|line rest]; simpl;
    (split_and!; [done | lia | by exists [Prompt text]]).
Qed.

Lemma behaves_run (w : world) (argv : list string) (check : bool)
    (st : state) :
  G [Run argv] → (check = true → E CalledProcessError) →
  behaves E G (subprocess_run w argv check) st.
Proof.
  intros He Hcheck. unfold behaves, subprocess_run.
  destruct check; simpl.
  - destruct (negb _); simpl;
      (split_and!; [by auto | done | by exists [Run argv]]).
  - split_and!; [done | done | by exists [Run argv]].
Qed.

Lemma behaves_getitem {V} (d : Py.dict V) (k : string) (st : state) :
  k ∈ Py.keys d → behaves E G (getitem d k) st.
Proof.
  intros [v Hv]%get_is_Some. unfold getitem. rewrite Hv. apply behaves_ret.
Qed.

Lemma behaves_or_decode_error {A} (o : option A) (st : state) :
  E JSONDecodeError → behaves E G (or_decode_error o) st.
Proof.
  intros He. destruct o; [apply behaves_ret | by apply behaves_raise].
Qed.

Lemma behaves_or_key_error {A} (o : option A) (st : state) :
  E KeyError → behaves E G (or_key_error o) st.
Proof.
  intros He. destruct o; [apply behaves_ret | by apply behaves_raise].
Qed.

Lemma behaves_for_each {A} (xs : list A) (body : A → io ()) (st : state) :
  (∀ x st', x ∈ xs → behaves E G (body x) st') →
  behaves E G (for_each xs body) st.
Proof.
  revert st. induction xs as [|x xs IH]; intros st Hbody; simpl.
  - apply behaves_ret.
  - apply behaves_bind; [apply Hbody; left|].
    intros _ st' _ _. apply IH. intros y st'' Hy. apply Hbody. by right.
Qed.

(** From here on: events that start no process are always allowed, and the
    end of the input is an allowed way to fail. *)
Hypothesis G_pure : ∀ e, (∀ argv, e ≠ Run argv) → G [e].
Hypothesis E_eof : E EOFError.

Lemma behaves_round (again : io ()) (orphans : list string)
    (confirm : string → io ()) (line : string) (st : state) :
  (∀ x st', x ∈ orphans → behaves E G (confirm x) st') →
  (∀ st', length (stdin st') ≤ length (stdin st) → behaves E G again st') →
  behaves E G (Menu.round again orphans confirm line) st.
Proof.
  intros Hconfirm Hagain. unfold Menu.round.
  case_bool_decide; [apply behaves_ret|].
  destruct (Menu.selected_of orphans (Py.strip line)) as [|x xs] eqn:Hsel.
  - apply behaves_bind; [by apply behaves_print, G_pure|].
    intros _ st2 _ Hlen. by apply Hagain.
  - apply behaves_bind.
    { apply behaves_for_each. intros y st' Hy. apply Hconfirm.
      apply (elem_of_selected_of _ (Py.strip line)). by rewrite Hsel. }
    intros _ st2 _ Hlen2.
    apply behaves_bind; [by apply behaves_input; [apply G_pure|]|].
    intros more st3 Hmore%input_Ok_inv _.
    destruct (negb (is_yes more)); [apply behaves_ret|].
    apply Hagain. rewrite Hmore in Hlen2. simpl in Hlen2. lia.
Qed.

Lemma behaves_selective_loop (orphans : list string)
    (confirm : string → io ()) (fuel : nat) (st : state) :
  (∀ x st', x ∈ orphans → behaves E G (confirm x) st') →
  length (stdin st) < fuel →
  behaves E G (Menu.selective_loop fuel orphans confirm) st.
Proof.
  intros Hconfirm. revert st.
  induction fuel as [|fuel IH]; intros st Hfuel; [lia|].
  rewrite selective_loop_S.
  apply behaves_bind; [by apply behaves_input; [apply G_pure|]|].
  intros line st1 Hin%input_Ok_inv _.
  rewrite Hin in Hfuel. simpl in Hfuel.
  apply behaves_round; [done|].
  intros st' Hlen. apply IH. lia.
Qed.

Lemma behaves_dispatch (option : string) (orphans : list string)
    (confirm : string → io ()) (st : state) :
  (∀ x st', x ∈ orphans → behaves E G (confirm x) st') →
  behaves E G (Menu.dispatch option orphans confirm) st.
Proof.
  intros Hconfirm. unfold Menu.dispatch.
  case_bool_decide.
  - apply behaves_bind; [by apply behaves_for_each|].
    intros. by apply behaves_print, G_pure.
  - case_bool_decide; [|by apply behaves_print, G_pure].
    unfold Menu.selective. apply behaves_selective_loop; [done | lia].
Qed.

Lemma behaves_print_options (st : state) :
  behaves E G Menu.print_options st.
Proof.
  unfold Menu.print_options.
  apply behaves_bind; [by apply behaves_print, G_pure|]. intros.
  apply behaves_bind; [by apply behaves_print, G_pure|]. intros.
  by apply behaves_print, G_pure.
Qed.

(** The confirm step of python_package_cleaner.py, from the events it can
    add: the question alone, or the question, the notice and the command. *)
Lemma behaves_cleaner_confirm (w : world) (classified : Py.dict pkg_info)
    (pkg : string) (st : state) :
  pkg ∈ Py.keys classified →
  (∀ version,
     G [Prompt (Menu.confirm_prompt pkg version);
        Print (nl +:+ "Uninstalling " +:+ pkg +:+ "...");
        Run (Cleaner.uninstall_argv w pkg)]) →
  behaves E G (Cleaner.confirm_uninstall w classified pkg) st.
Proof.
  intros [info Hinfo]%get_is_Some Hyes.
  destruct st as [[|answer rest] tr].
  - assert (Cleaner.confirm_uninstall w classified pkg (State [] tr)
            = (Raise EOFError,
               State [] (tr ++ [Prompt (Menu.confirm_prompt pkg
                                          (info_version info))]))) as Hrun.
    { unfold Cleaner.confirm_uninstall, getitem. rewrite Hinfo.
      erewrite bind_Ok by done. by erewrite bind_Raise by apply input_eof. }
    unfold behaves. rewrite Hrun. simpl. split_and!; [done | done |].
    eexists. split; [done|]. by apply G_pure.
  - unfold behaves. rewrite (cleaner_confirm_run w _ _ _ info) by done.
    simpl. split_and!; [done | lia |]. eexists. split; [done|].
    unfold confirm_events. destruct (is_yes answer); [apply Hyes|].
    by apply G_pure.
Qed.

Lemma behaves_main_confirm (w : world) (installed_packages : Py.dict string)
    (pkg : string) (st : state) :
  pkg ∈ Py.keys installed_packages →
  (∀ version,
     G [Prompt (Menu.confirm_prompt pkg version);
        Print (nl +:+ "Uninstalling " +:+ pkg +:+ "...");
        Run (Main.uninstall_argv pkg)]) →
  behaves E G (Main.confirm_uninstall w installed_packages pkg) st.
Proof.
  intros [version Hversion]%get_is_Some Hyes.
  destruct st as [[|answer rest] tr].
  - assert (Main.confirm_uninstall w installed_packages pkg (State [] tr)
            = (Raise EOFError,
               State [] (tr ++ [Prompt (Menu.confirm_prompt pkg version)])))
      as Hrun.
    { unfold Main.confirm_uninstall, getitem. rewrite Hversion.
      erewrite bind_Ok by done. by erewrite bind_Raise by apply input_eof. }
    unfold behaves. rewrite Hrun. simpl. split_and!; [done | done |].
    eexists. split; [done|]. by apply G_pure.
  - unfold behaves. rewrite (main_confirm_run w _ _ _ version) by done.
    simpl. split_and!; [done | lia |]. eexists. split; [done|].
    unfold confirm_events. destruct (is_yes answer); [apply Hyes|].
    by apply G_pure.
Qed.

Lemma behaves_interactive_uninstall (w : world)
    (classified : Py.dict pkg_info) (st : state) :
  (∀ pkg version, pkg ∈ orphaned classified →
     G [Prompt (Menu.confirm_prompt pkg version);
        Print (nl +:+ "Uninstalling " +:+ pkg +:+ "...");
        Run (Cleaner.uninstall_argv w pkg)]) →
  behaves E G (Cleaner.interactive_uninstall w classified) st.
Proof.
  unfold Cleaner.interactive_uninstall.
  pose proof (orphaned_keys classified) as Hkeys.
  set (orph := orphaned classified) in *. clearbody orph. intros Hyes.
  destruct orph as [|x xs]; [by apply behaves_print, G_pure|].
  apply behaves_bind; [by apply behaves_print, G_pure|]. intros _ st1 _ _.
  apply behaves_bind.
  { apply behaves_for_each. intros pkg st' Hpkg.
    apply behaves_bind; [by apply behaves_getitem, Hkeys|].
    intros. by apply behaves_print, G_pure. }
  intros _ st2 _ _.
  apply behaves_bind; [by apply behaves_input; [apply G_pure|]|].
  intros choice st3 _ _.
  destruct (negb (is_yes choice)); [apply behaves_ret|].
  apply behaves_bind; [by apply behaves_print_options|]. intros _ st4 _ _.
  apply behaves_bind; [by apply behaves_input; [apply G_pure|]|].
  intros option st5 _ _.
  apply behaves_dispatch.
  intros pkg st' Hpkg. apply behaves_cleaner_confirm; [by apply Hkeys|].
  intros version. by apply Hyes.
Qed.

Lemma behaves_menu (w : world) (orphans : list string)
    (installed_packages : Py.dict string) (st : state) :
  E SystemExit →
  (∀ pkg, pkg ∈ orphans → pkg ∈ Py.keys installed_packages) →
  (∀ pkg version, pkg ∈ orphans →
     G [Prompt (Menu.confirm_prompt pkg version);
        Print (nl +:+ "Uninstalling " +:+ pkg +:+ "...");
        Run (Main.uninstall_argv pkg)]) →
  behaves E G (Main.menu w orphans installed_packages) st.
Proof.
  unfold Main.menu. intros Hexit Hkeys Hyes.
  destruct orphans as [|x xs]; [by apply behaves_print, G_pure|].
  apply behaves_bind; [by apply behaves_print, G_pure|]. intros _ st1 _ _.
  apply behaves_bind.
  { apply behaves_for_each. intros pkg st' Hpkg.
    apply behaves_bind; [by apply behaves_getitem, Hkeys|].
    intros. by apply behaves_print, G_pure. }
  intros _ st2 _ _.
  apply behaves_bind; [by apply behaves_input; [apply G_pure|]|].
  intros choice st3 _ _.
  destruct (negb (is_yes choice)).
  { apply behaves_bind; [by apply behaves_print, G_pure|]. intros.
    by apply behaves_raise. }
  apply behaves_bind; [by apply behaves_print_options|]. intros _ st4 _ _.
  apply behaves_bind; [by apply behaves_input; [apply G_pure|]|].
  intros option st5 _ _.
  apply behaves_dispatch.
  intros pkg st' Hpkg. apply behaves_main_confirm; [by apply Hkeys|].
  intros version. by apply Hyes.
Qed.

(** *** The whole scripts *)

Lemma cleaner_get_installed_inv (w : world) (st st' : state)
    (I : Py.dict pkg_data) :
  Cleaner.get_installed_packages w st = (Ok I, st') →
  ∃ packages,
    json_packages w (stdout (subprocess w (log st) (Cleaner.list_argv w)))
    = Some packages
    ∧ Cleaner.installed_of_json packages = Some I.
Proof.
  unfold Cleaner.get_installed_packages, mbind, io_bind.
  rewrite run_checked.
  destruct (returncode _ =? 0)%Z; [|done].
  destruct (json_packages w _) as [packages|]; [|done]. simpl.
  destruct (Cleaner.installed_of_json packages) as [I'|] eqn:HI; [|done].
  simpl. intros [= <- <-]. by exists packages.
Qed.

Lemma main_get_installed_inv (w : world) (st st' : state)
    (V : Py.dict string) :
  Main.get_installed_packages w st = (Ok V, st') →
  ∃ packages,
    json_packages w
      (stdout (subprocess w (log st)
                 ["python3"; "-m"; "pip"; "list"; "--format=json"]))
    = Some packages
    ∧ Main.versions_of_json packages = Some V.
Proof.
  unfold Main.get_installed_packages, mbind, io_bind.
  rewrite run_checked.
  destruct (returncode _ =? 0)%Z; [|done].
  destruct (json_packages w _) as [packages|]; [|done]. simpl.
  destruct (Main.versions_of_json packages) as [V'|] eqn:HV; [|done].
  simpl. intros [= <- <-]. by exists packages.
Qed.

Lemma cleaner_tree_inv (w : world) (st st' : state) (T : list tree_entry) :
  Cleaner.get_dependency_tree w st = (Ok T, st') →
  json_tree w (stdout (subprocess w (log st) (Cleaner.tree_argv w))) = Some T.
Proof.
  unfold Cleaner.get_dependency_tree, mbind, io_bind.
  rewrite run_checked.
  destruct (returncode _ =? 0)%Z; [|done].
  destruct (json_tree w _) as [T'|]; [|done]. simpl. by intros [= <- <-].
Qed.

Lemma main_tree_inv (w : world) (st st' : state) (T : list tree_entry) :
  Main.get_dependency_tree w st = (Ok T, st') →
  json_tree w
    (stdout (subprocess w (log st) ["python3"; "-m"; "pipdeptree"; "--json"]))
  = Some T.
Proof.
  unfold Main.get_dependency_tree, mbind, io_bind.
  rewrite run_checked.
  destruct (returncode _ =? 0)%Z; [|done].
  destruct (json_tree w _) as [T'|]; [|done]. simpl. by intros [= <- <-].
Qed.

Lemma classify_packages_inv (w : world) (st st' : state)
    (I : Py.dict pkg_data) (classified : Py.dict pkg_info) :
  Cleaner.classify_packages w I st = (Ok classified, st') →
  ∃ T,
    json_tree w (stdout (subprocess w (log st) (Cleaner.tree_argv w))) = Some T
    ∧ classified = classify T I.
Proof.
  unfold Cleaner.classify_packages, mbind at 1, io_bind.
  destruct (Cleaner.get_dependency_tree w st) as [[T|e|] st1] eqn:HT;
    [|done..].
  intros [= <- <-]. exists T. split; [|done]. by eapply cleaner_tree_inv.
Qed.

Hypothesis E_all : ∀ e, E e.

Lemma behaves_ensure_pipdeptree (w : world) (st : state) :
  G [Run (Cleaner.probe_argv w)] → G [Run (Cleaner.install_argv w)] →
  behaves E G (Cleaner.ensure_pipdeptree w) st.
Proof.
  intros Hprobe Hinstall.
  assert (behaves E G
            (subprocess_run w (Cleaner.probe_argv w) true ≫= λ _, mret ()) st)
    as Hfirst.
  { apply behaves_bind; [by apply behaves_run|]. intros. apply behaves_ret. }
  unfold Cleaner.ensure_pipdeptree, try_except.
  unfold behaves in *.
  destruct ((subprocess_run w (Cleaner.probe_argv w) true ≫= _) st)
    as [[a|e|] st1]; [done | | done].
  case_decide; [|done].
  destruct Hfirst as (_ & Hlen & evs & Hlog & Hevs). simpl in *.
  assert (behaves E G
            (print "pipdeptree not found. Installing...";;
             subprocess_run w (Cleaner.install_argv w) true;;
             print "pipdeptree installed successfully.") st1)
    as (Hend & Hlen' & evs' & Hlog' & Hevs').
  { apply behaves_bind; [by apply behaves_print, G_pure|]. intros.
    apply behaves_bind; [by apply behaves_run|]. intros.
    by apply behaves_print, G_pure. }
  split_and!; [done | lia |].
  exists (evs ++ evs'). split; [|by apply G_app].
  by rewrite Hlog', Hlog, app_assoc.
Qed.

(** python_package_cleaner.py from start to end, when the four tool
    commands are allowed events and so is the uninstall, after its question
    and notice, of an orphan of a classification the tools' answers led
    to. *)
Lemma behaves_cleaner_main (w : world) (st : state) :
  G [Run (Cleaner.probe_argv w)] → G [Run (Cleaner.install_argv w)] →
  G [Run (Cleaner.list_argv w)] → G [Run (Cleaner.tree_argv w)] →
  (∀ tr1 tr2 packages I T pkg version,
     json_packages w (stdout (subprocess w tr1 (Cleaner.list_argv w)))
     = Some packages →
     Cleaner.installed_of_json packages = Some I →
     json_tree w (stdout (subprocess w tr2 (Cleaner.tree_argv w))) = Some T →
     pkg ∈ orphaned (classify T I) →
     G [Prompt (Menu.confirm_prompt pkg version);
        Print (nl +:+ "Uninstalling " +:+ pkg +:+ "...");
        Run (Cleaner.uninstall_argv w pkg)]) →
  behaves E G (Cleaner.main w) st.
Proof.
  intros Hprobe Hinstall Hlist Htree Hyes. unfold Cleaner.main.
  apply behaves_bind; [by apply behaves_ensure_pipdeptree|]. intros _ st1 _ _.
  apply behaves_bind; [by apply behaves_print, G_pure|]. intros _ st2 _ _.
  apply behaves_bind.
  { unfold Cleaner.get_installed_packages.
    apply behaves_bind; [by apply behaves_run|]. intros.
    apply behaves_bind; [by apply behaves_or_decode_error|]. intros.
    by apply behaves_or_key_error. }
  intros I st3 (packages & Hpackages & HI)%cleaner_get_installed_inv _.
  apply behaves_bind.
  { unfold Cleaner.classify_packages.
    apply behaves_bind; [|intros; apply behaves_ret].
    unfold Cleaner.get_dependency_tree.
    apply behaves_bind; [by apply behaves_run|]. intros.
    by apply behaves_or_decode_error. }
  intros classified st4 (T & HT & ->)%classify_packages_inv _.
  apply behaves_bind.
  { unfold Cleaner.display_packages.
    apply behaves_bind; [by apply behaves_print, G_pure|]. intros.
    apply behaves_bind; [by apply behaves_print, G_pure|]. intros.
    apply behaves_for_each. intros. by apply behaves_print, G_pure. }
  intros _ st5 _ _.
  apply behaves_interactive_uninstall.
  intros pkg version Hpkg. by eapply Hyes.
Qed.

(** main.py from start to end, likewise. *)
Lemma behaves_main_main (w : world) (st : state) :
  G [Run ["python3"; "-m"; "pip"; "list"; "--format=json"]] →
  G [Run ["python3"; "-m"; "pipdeptree"; "--json"]] →
  (∀ tr1 tr2 packages V T pkg version,
     json_packages w
       (stdout (subprocess w tr1
                  ["python3"; "-m"; "pip"; "list"; "--format=json"]))
     = Some packages →
     Main.versions_of_json packages = Some V →
     json_tree w
       (stdout (subprocess w tr2 ["python3"; "-m"; "pipdeptree"; "--json"]))
     = Some T →
     pkg ∈ orphans_of T V →
     G [Prompt (Menu.confirm_prompt pkg version);
        Print (nl +:+ "Uninstalling " +:+ pkg +:+ "...");
        Run (Main.uninstall_argv pkg)]) →
  behaves E G (Main.main w) st.
Proof.
  intros Hlist Htree Hyes. unfold Main.main.
  apply behaves_bind; [by apply behaves_print, G_pure|]. intros _ st1 _ _.
  apply behaves_bind.
  { unfold Main.find_orphans.
    apply behaves_bind.
    { unfold Main.get_installed_packages.
      apply behaves_bind; [by apply behaves_run|]. intros.
      apply behaves_bind; [by apply behaves_or_decode_error|]. intros.
      by apply behaves_or_key_error. }
    intros. apply behaves_bind; [|intros; apply behaves_ret].
    unfold Main.get_dependency_tree.
    apply behaves_bind; [by apply behaves_run|]. intros.
    by apply behaves_or_decode_error. }
  intros [orphans V] st2 Hfind _.
  assert (∃ tr1 tr2 packages T,
            json_packages w
              (stdout (subprocess w tr1
                         ["python3"; "-m"; "pip"; "list"; "--format=json"]))
            = Some packages
            ∧ Main.versions_of_json packages = Some V
            ∧ json_tree w
                (stdout (subprocess w tr2
                           ["python3"; "-m"; "pipdeptree"; "--json"]))
              = Some T
            ∧ orphans = orphans_of T V)
    as (tr1 & tr2 & packages & T & Hpackages & HV & HT & ->).
  { revert Hfind. unfold Main.find_orphans, mbind at 1, io_bind.
    destruct (Main.get_installed_packages w st1) as [[V'|e|] st1'] eqn:Hget;
      [|done..].
    unfold mbind, io_bind.
    destruct (Main.get_dependency_tree w st1') as [[T|e|] st1''] eqn:Htr;
      [|done..].
    intros [= <- <- <-].
    apply main_get_installed_inv in Hget as (packages & ? & ?).
    apply main_tree_inv in Htr.
    by exists (log st1), (log st1'), packages, T. }
  apply behaves_bind; [by apply behaves_print, G_pure|]. intros _ st3 _ _.
  apply behaves_bind.
  { apply behaves_for_each. intros. by apply behaves_print, G_pure. }
  intros _ st4 _ _.
  apply behaves_menu; [done | |].
  - by intros pkg [? _]%elem_of_orphans_of.
  - intros pkg version Hpkg. by eapply Hyes.
Qed.

End behaviour.

(** ** The menus can only fail at the end of the input *)

Lemma runs_only_uninstalls_pure (argv_of : string → list string)
    (allowed : list string) (e : IO.event) :
  (∀ argv, e ≠ IO.Run argv) →
  Forall (runs_only_uninstalls argv_of allowed) [e].
Proof.
  intros He. apply Forall_singleton. intros argv ->. by destruct (He argv).
Qed.

Lemma runs_only_uninstalls_step (argv_of : string → list string)
    (allowed : list string) (pkg version : string) :
  pkg ∈ allowed →
  Forall (runs_only_uninstalls argv_of allowed)
    [IO.Prompt (Menu.confirm_prompt pkg version);
     IO.Print (IO.nl +:+ "Uninstalling " +:+ pkg +:+ "...");
     IO.Run (argv_of pkg)].
Proof.
  intros Hpkg.
  apply Forall_cons_2; [done|]. apply Forall_cons_2; [done|].
  apply Forall_singleton. intros argv [= <-]. by exists pkg.
Qed.

(** On any input, the menu of python_package_cleaner.py ends normally or
    with [EOFError], and the menu of main.py ends normally, with [EOFError]
    or with [SystemExit]; neither takes a line back, and the only child
    processes they start are uninstalls of orphans. *)
Theorem menu_fails_only_at_end_of_input (w : IO.world)
    (classified : Py.dict pkg_info) (T : list tree_entry)
    (V : Py.dict string) (st : IO.state) :
  behaves (λ e, e = IO.EOFError)
          (Forall (runs_only_uninstalls (Cleaner.uninstall_argv w)
                                        (orphaned classified)))
          (Cleaner.interactive_uninstall w classified) st
  ∧ behaves (λ e, e = IO.EOFError ∨ e = IO.SystemExit)
            (Forall (runs_only_uninstalls Main.uninstall_argv
                                          (orphans_of T V)))
            (Main.menu w (orphans_of T V) V) st.
Proof.
  split.
  - apply behaves_interactive_uninstall.
    + apply Forall_nil_2.
    + intros evs1 evs2. apply Forall_app_2.
    + apply runs_only_uninstalls_pure.
    + done.
    + intros pkg version. apply runs_only_uninstalls_step.
  - apply behaves_menu.
    + apply Forall_nil_2.
    + intros evs1 evs2. apply Forall_app_2.
    + apply runs_only_uninstalls_pure.
    + by left.
    + by right.
    + by intros pkg [? _]%elem_of_orphans_of.
    + intros pkg version. apply runs_only_uninstalls_step.
Qed.

(** ** Every uninstall is asked for first *)

Section asked.
Import IO.
Variable argv_of : string → list string.
Hypothesis argv_of_inj : ∀ x y, argv_of x = argv_of y → x = y.

Lemma asked_first_nil : asked_first argv_of [].
Proof. intros pre post name H. by destruct pre. Qed.

Lemma asked_first_app (evs1 evs2 : list event) :
  asked_first argv_of evs1 → asked_first argv_of evs2 →
  asked_first argv_of (evs1 ++ evs2).
Proof.
  intros H1 H2 pre post name Heq.
  apply app_eq_inv in Heq as [(k & -> & Hk)|(k & -> & ->)].
  - destruct k as [|e k]; simpl in Hk.
    + destruct (H2 [] post name) as (pre' & v & Hpre); [done|].
      by destruct pre' as [|? [|? ?]].
    + injection Hk as <- ->. by apply (H1 pre k name).
  - destruct (H2 k post name eq_refl) as (pre' & v & ->).
    exists (evs1 ++ pre'), v. by rewrite app_assoc.
Qed.

Lemma asked_first_other (e : event) :
  (∀ name, e ≠ Run (argv_of name)) → asked_first argv_of [e].
Proof.
  intros He pre post name Heq.
  destruct pre as [|e' pre]; simpl in Heq.
  - injection Heq as ->. by destruct (He name).
  - injection Heq as _ Heq. by destruct pre.
Qed.

Lemma asked_first_step (pkg version : string) :
  asked_first argv_of
    [Prompt (Menu.confirm_prompt pkg version);
     Print (nl +:+ "Uninstalling " +:+ pkg +:+ "...");
     Run (argv_of pkg)].
Proof.
  intros pre post name Heq.
  destruct pre as [|e1 [|e2 [|e3 pre]]]; simplify_eq/=.
  - apply argv_of_inj in H. subst. by exists [], version.
  - by destruct pre.
Qed.

End asked.

(** In every run of either script, whatever the tools answer and whatever
    is typed, an uninstall command for a package stands in the log right
    after the question "Do you want to uninstall ...?" about that package
    and the notice "Uninstalling ...": nothing is uninstalled unasked. *)
Theorem uninstall_is_asked_first (w : IO.world) (st : IO.state) :
  behaves (λ _, True) (asked_first (Cleaner.uninstall_argv w))
          (Cleaner.main w) st
  ∧ behaves (λ _, True) (asked_first Main.uninstall_argv) (Main.main w) st.
Proof.
  split.
  - apply behaves_cleaner_main;
      try (apply asked_first_other; by intros name [=]).
    + apply asked_first_nil.
    + apply asked_first_app.
    + intros e He. apply asked_first_other. intros name ->.
      by destruct (He (Cleaner.uninstall_argv w name)).
    + done.
    + done.
    + intros _ _ _ _ _ pkg version _ _ _ _.
      apply asked_first_step. apply cleaner_argv_inj.
  - apply behaves_main_main;
      try (apply asked_first_other; by intros name [=]).
    + apply asked_first_nil.
    + apply asked_first_app.
    + intros e He. apply asked_first_other. intros name ->.
      by destruct (He (Main.uninstall_argv name)).
    + done.
    + done.
    + intros _ _ _ _ _ pkg version _ _ _ _.
      apply asked_first_step. apply main_argv_inj.
Qed.

(** ** What the orphans of a listing are *)

Lemma orphaned_classify_not_skip (T : list tree_entry)
    (I : Py.dict pkg_data) (name : string) :
  name ∈ orphaned (classify T I) → name ∉ skip_packages.
Proof.
  pose proof (fill_invariant
    (info_of (required_packages T))
    (λ k info, ∃ data, info = info_of (required_packages T) k data)
    I []) as Hinv.
  simpl in Hinv. destruct Hinv as (Hwf & _ & Hval).
  { apply NoDup_nil_2. }
  { done. }
  { intros k x _. by exists x. }
  fold (classify T I) in Hwf, Hval.
  intros (info & Hin & Hu)%elem_of_orphaned.
  pose proof (elem_of_get _ _ _ Hwf Hin) as Hget.
  destruct (Hval _ _ Hget) as [data ->]. simpl in Hu.
  unfold used_by_of in Hu.
  destruct (is_system name data) eqn:Hsys; [done|].
  unfold is_system in Hsys. apply orb_false_iff in Hsys as [_ Hsys].
  by apply bool_decide_eq_false in Hsys.
Qed.

Lemma installed_keys_listed (packages : list pkg_obj)
    (I : Py.dict pkg_data) (name : string) :
  Cleaner.installed_of_json packages = Some I → name ∈ Py.keys I →
  ∃ pkg : pkg_obj, pkg ∈ packages ∧ pkg !! "name" = Some name.
Proof.
  unfold Cleaner.installed_of_json. intros HI Hname.
  apply (comprehension_keys _ _ _ _ _ HI) in Hname
    as [?%elem_of_nil|(pkg & v & Hpkg & Hitem)]; [done|].
  exists pkg. split; [done|].
  destruct (pkg !! "name"), (pkg !! "version"); by simplify_eq/=.
Qed.

Lemma versions_keys_listed (packages : list pkg_obj)
    (V : Py.dict string) (name : string) :
  Main.versions_of_json packages = Some V → name ∈ Py.keys V →
  ∃ pkg : pkg_obj, pkg ∈ packages ∧ pkg !! "name" = Some name.
Proof.
  unfold Main.versions_of_json. intros HV Hname.
  apply (comprehension_keys _ _ _ _ _ HV) in Hname
    as [?%elem_of_nil|(pkg & v & Hpkg & Hitem)]; [done|].
  exists pkg. split; [done|].
  destruct (pkg !! "name"), (pkg !! "version"); by simplify_eq/=.
Qed.

(** ** The bulk mode for any number of orphans *)

Section bulk_general.
Import IO.
Variables (argv_of : string → list string) (version_of : string → string)
          (confirm : string → io ()) (orphans : list string).

Hypothesis confirm_run : ∀ pkg answer rest tr, pkg ∈ orphans →
  confirm pkg (State (answer :: rest) tr)
  = (Ok (),
     State rest (tr ++ confirm_events argv_of pkg (version_of pkg) answer)).

Hypothesis confirm_eof : ∀ pkg tr, pkg ∈ orphans →
  confirm pkg (State [] tr)
  = (Raise EOFError,
     State [] (tr ++ [Prompt (Menu.confirm_prompt pkg (version_of pkg))])).

Lemma runs_confirm_events (pkg version answer : string) :
  runs (confirm_events argv_of pkg version answer)
  = if is_yes answer then [argv_of pkg] else [].
Proof. unfold confirm_events, runs. by destruct (is_yes answer). Qed.

Lemma runs_app (evs1 evs2 : list event) :
  runs (evs1 ++ evs2) = runs evs1 ++ runs evs2.
Proof. apply omap_app. Qed.

Lemma bulk_events_cons (pkg a : string) (pkgs answers : list string) :
  bulk_events argv_of version_of (pkg :: pkgs) (a :: answers)
  = confirm_events argv_of pkg (version_of pkg) a
    ++ bulk_events argv_of version_of pkgs answers.
Proof. done. Qed.

Lemma confirmed_cons (pkg a : string) (pkgs answers : list string) :
  confirmed (pkg :: pkgs) (a :: answers)
  = if is_yes a then pkg :: confirmed pkgs answers
    else confirmed pkgs answers.
Proof.
  unfold confirmed. simpl.
  rewrite (filter_cons (λ pa : string * string, is_yes pa.2 = true)). simpl.
  destruct (is_yes a).
  - by rewrite decide_True.
  - by rewrite decide_False.
Qed.

Lemma runs_bulk_events (pkgs answers : list string) :
  runs (bulk_events argv_of version_of pkgs answers)
  = argv_of <$> confirmed pkgs answers.
Proof.
  revert answers. induction pkgs as [|pkg pkgs IH]; intros [|a answers];
    try done.
  rewrite bulk_events_cons, confirmed_cons, runs_app, runs_confirm_events, IH.
  by destruct (is_yes a).
Qed.

Lemma bulk_loop_run (pkgs answers rest : list string) (tr : list event) :
  (∀ pkg, pkg ∈ pkgs → pkg ∈ orphans) →
  length answers = length pkgs →
  for_each pkgs confirm (State (answers ++ rest) tr)
  = (Ok (),
     State rest (tr ++ bulk_events argv_of version_of pkgs answers)).
Proof.
  revert answers tr.
  induction pkgs as [|pkg pkgs IH]; intros [|a answers] tr Hsub Hlen;
    simplify_eq/=.
  - by rewrite app_nil_r.
  - erewrite bind_Ok by (apply confirm_run, Hsub; left).
    rewrite IH; [|intros; apply Hsub; by right | done].
    rewrite bulk_events_cons. by rewrite app_assoc.
Qed.

Lemma bulk_loop_eof (pkgs answers : list string) (tr : list event) :
  (∀ pkg, pkg ∈ pkgs → pkg ∈ orphans) →
  length answers < length pkgs →
  ∃ evs,
    for_each pkgs confirm (State answers tr)
    = (Raise EOFError, State [] (tr ++ evs))
    ∧ runs evs = argv_of <$> confirmed pkgs answers.
Proof.
  revert answers tr.
  induction pkgs as [|pkg pkgs IH]; intros [|a answers] tr Hsub Hlen;
    simpl in *; try lia.
  - eexists. erewrite bind_Raise by (apply confirm_eof, Hsub; left).
    split; [done|]. by destruct pkgs.
  - erewrite bind_Ok by (apply confirm_run, Hsub; left).
    destruct (IH answers
                (tr ++ confirm_events argv_of pkg (version_of pkg) a))
      as (evs & -> & Hruns); [intros; apply Hsub; by right | lia |].
    exists (confirm_events argv_of pkg (version_of pkg) a ++ evs).
    split; [by rewrite app_assoc|].
    rewrite runs_app, runs_confirm_events, Hruns, confirmed_cons.
    by destruct (is_yes a).
Qed.

End bulk_general.

Section menu_runs.
Import IO.
Variable w : world.

Lemma cleaner_confirm_answered (classified : Py.dict pkg_info)
    (pkg answer : string) (rest : list string) (tr : list event) :
  pkg ∈ Py.keys classified →
  Cleaner.confirm_uninstall w classified pkg (State (answer :: rest) tr)
  = (Ok (),
     State rest
       (tr ++ confirm_events (Cleaner.uninstall_argv w) pkg
                             (cleaner_version classified pkg) answer)).
Proof.
  intros [info Hinfo]%get_is_Some.
  rewrite (cleaner_confirm_run w _ _ _ info) by done.
  unfold cleaner_version. by rewrite Hinfo.
Qed.

Lemma cleaner_confirm_eof (classified : Py.dict pkg_info) (pkg : string)
    (tr : list event) :
  pkg ∈ Py.keys classified →
  Cleaner.confirm_uninstall w classified pkg (State [] tr)
  = (Raise EOFError,
     State [] (tr ++ [Prompt (Menu.confirm_prompt pkg
                                (cleaner_version classified pkg))])).
Proof.
  intros [info Hinfo]%get_is_Some.
  unfold Cleaner.confirm_uninstall, getitem, cleaner_version. rewrite Hinfo.
  erewrite bind_Ok by done. by erewrite bind_Raise by apply input_eof.
Qed.

Lemma main_confirm_answered (installed_packages : Py.dict string)
    (pkg answer : string) (rest : list string) (tr : list event) :
  pkg ∈ Py.keys installed_packages →
  Main.confirm_uninstall w installed_packages pkg (State (answer :: rest) tr)
  = (Ok (),
     State rest
       (tr ++ confirm_events Main.uninstall_argv pkg
                             (main_version installed_packages pkg) answer)).
Proof.
  intros [version Hversion]%get_is_Some.
  rewrite (main_confirm_run w _ _ _ version) by done.
  unfold main_version. by rewrite Hversion.
Qed.

Lemma main_confirm_eof (installed_packages : Py.dict string) (pkg : string)
    (tr : list event) :
  pkg ∈ Py.keys installed_packages →
  Main.confirm_uninstall w installed_packages pkg (State [] tr)
  = (Raise EOFError,
     State [] (tr ++ [Prompt (Menu.confirm_prompt pkg
                                (main_version installed_packages pkg))])).
Proof.
  intros [version Hversion]%get_is_Some.
  unfold Main.confirm_uninstall, getitem, main_version. rewrite Hversion.
  erewrite bind_Ok by done. by erewrite bind_Raise by apply input_eof.
Qed.

Lemma cleaner_listing_run (classified : Py.dict pkg_info)
    (pkgs : list string) (st : state) :
  (∀ pkg, pkg ∈ pkgs → pkg ∈ Py.keys classified) →
  for_each pkgs (λ pkg,
    info ← getitem classified pkg;
    print (Menu.bullet pkg (info_version info))) st
  = (Ok (),
     State (stdin st)
       (log st ++ ((λ pkg, Print (Menu.bullet pkg
                                    (cleaner_version classified pkg)))
                   <$> pkgs))).
Proof.
  revert st. induction pkgs as [|pkg pkgs IH]; intros st Hkeys; simpl.
  - rewrite app_nil_r. by destruct st.
  - destruct (proj2 (get_is_Some pkg classified)) as [info Hinfo];
      [apply Hkeys; left|].
    erewrite bind_Ok.
    2:{ unfold getitem. rewrite Hinfo. erewrite bind_Ok by done.
        apply print_run. }
    rewrite IH by (intros; apply Hkeys; by right). simpl.
    unfold cleaner_version at 2. rewrite Hinfo. simpl.
    by rewrite <-app_assoc.
Qed.

Lemma main_listing_run (installed_packages : Py.dict string)
    (pkgs : list string) (st : state) :
  (∀ pkg, pkg ∈ pkgs → pkg ∈ Py.keys installed_packages) →
  for_each pkgs (λ pkg,
    version ← getitem installed_packages pkg;
    print (Menu.bullet pkg version)) st
  = (Ok (),
     State (stdin st)
       (log st ++ ((λ pkg, Print (Menu.bullet pkg
                                    (main_version installed_packages pkg)))
                   <$> pkgs))).
Proof.
  revert st. induction pkgs as [|pkg pkgs IH]; intros st Hkeys; simpl.
  - rewrite app_nil_r. by destruct st.
  - destruct (proj2 (get_is_Some pkg installed_packages)) as [v Hv];
      [apply Hkeys; left|].
    erewrite bind_Ok.
    2:{ unfold getitem. rewrite Hv. erewrite bind_Ok by done.
        apply print_run. }
    rewrite IH by (intros; apply Hkeys; by right). simpl.
    unfold main_version at 2. rewrite Hv. simpl.
    by rewrite <-app_assoc.
Qed.

Lemma print_options_run (st : state) :
  Menu.print_options st
  = (Ok (),
     State (stdin st)
       (log st ++ [Print (nl +:+ "Choose an option:");
                   Print "1. Uninstall all orphaned packages";
                   Print "2. Uninstall specific package(s)"])).
Proof.
  unfold Menu.print_options.
  erewrite bind_Ok by apply print_run.
  erewrite bind_Ok by apply print_run.
  rewrite print_run. simpl. by rewrite <-!app_assoc.
Qed.

(** The menu of python_package_cleaner.py up to the first answer. *)
Lemma cleaner_menu_asks (classified : Py.dict pkg_info) (c : string)
    (ins : list string) (tr : list event) :
  orphaned classified ≠ [] →
  Cleaner.interactive_uninstall w classified (State (c :: ins) tr)
  = if is_yes c
    then (Menu.print_options;;
          option ← input "Enter 1 or 2: ";
          Menu.dispatch (Py.strip option) (orphaned classified)
                        (Cleaner.confirm_uninstall w classified))
           (State ins (tr ++ cleaner_intro classified))
    else (Ok (), State ins (tr ++ cleaner_intro classified)).
Proof.
  intros Horph. unfold Cleaner.interactive_uninstall, cleaner_intro.
  pose proof (orphaned_keys classified) as Hkeys.
  destruct (orphaned classified) as [|x xs] eqn:Heq; [done|].
  erewrite bind_Ok by apply print_run.
  erewrite bind_Ok by (by apply cleaner_listing_run).
  erewrite bind_Ok by apply input_line. simpl.
  rewrite <-!app_assoc. simpl. by destruct (is_yes c).
Qed.

(** The menu of main.py up to the first answer. *)
Lemma main_menu_asks (orphans : list string)
    (installed_packages : Py.dict string) (c : string) (ins : list string)
    (tr : list event) :
  orphans ≠ [] →
  (∀ pkg, pkg ∈ orphans → pkg ∈ Py.keys installed_packages) →
  Main.menu w orphans installed_packages (State (c :: ins) tr)
  = if is_yes c
    then (Menu.print_options;;
          option ← input "Enter 1 or 2: ";
          Menu.dispatch (Py.strip option) orphans
                        (Main.confirm_uninstall w installed_packages))
           (State ins (tr ++ main_intro orphans installed_packages))
    else (Raise SystemExit,
          State ins (tr ++ main_intro orphans installed_packages
                        ++ [Print "No packages were uninstalled."])).
Proof.
  intros Horph Hkeys. unfold Main.menu, main_intro.
  destruct orphans as [|x xs] eqn:Heq; [done|].
  erewrite bind_Ok by apply print_run.
  erewrite bind_Ok by (by apply main_listing_run).
  erewrite bind_Ok by apply input_line. simpl.
  rewrite <-!app_assoc. simpl. destruct (is_yes c); simpl; [done|].
  erewrite bind_Ok by apply print_run. simpl.
  unfold raise. do 2 f_equal. rewrite <-!app_assoc. simpl.
  by rewrite <-!app_assoc.
Qed.

(** From the first yes to the mode. *)
Lemma options_run (orphans : list string) (confirm : string → io ())
    (o : string) (ins : list string) (tr : list event) :
  (Menu.print_options;;
   option ← input "Enter 1 or 2: ";
   Menu.dispatch (Py.strip option) orphans confirm) (State (o :: ins) tr)
  = Menu.dispatch (Py.strip o) orphans confirm
      (State ins (tr ++ options_events)).
Proof.
  erewrite bind_Ok by apply print_options_run.
  erewrite bind_Ok by apply input_line. simpl.
  by rewrite <-!app_assoc.
Qed.

End menu_runs.

Lemma runs_prints {A} (f : A → string) (xs : list A) :
  runs ((λ x, IO.Print (f x)) <$> xs) = [].
Proof. induction xs as [|x xs IH]; [done | apply IH]. Qed.

Lemma runs_cleaner_intro (classified : Py.dict pkg_info) :
  runs (cleaner_intro classified) = [].
Proof.
  unfold cleaner_intro. rewrite app_comm_cons, runs_app.
  change (runs (IO.Print ?l :: ?evs)) with (runs evs).
  by rewrite runs_prints.
Qed.

Lemma runs_main_intro (orphans : list string) (V : Py.dict string) :
  runs (main_intro orphans V) = [].
Proof.
  unfold main_intro. rewrite app_comm_cons, runs_app.
  change (runs (IO.Print ?l :: ?evs)) with (runs evs).
  by rewrite runs_prints.
Qed.

(** The bulk mode for any number of orphans, in both scripts: after a yes
    and the mode "1", with one answer per orphan the run ends normally
    having read exactly those lines, and the child processes it started are
    the uninstalls of the orphans answered with a yes, in the order of the
    list.  With fewer answers than orphans the run ends with [EOFError]
    at the first question left unanswered, and the orphans confirmed until
    then have been uninstalled all the same. *)
Theorem bulk_mode_uninstalls_confirmed (w : IO.world)
    (classified : Py.dict pkg_info) (orphans : list string)
    (V : Py.dict string) (c o : string) (answers rest : list string)
    (tr : list IO.event) :
  IO.is_yes c = true → Py.strip o = "1" →
  (orphaned classified ≠ [] →
     (length answers = length (orphaned classified) →
        ∃ evs,
          Cleaner.interactive_uninstall w classified
            (IO.State (c :: o :: answers ++ rest) tr)
          = (IO.Ok (), IO.State rest (tr ++ evs))
          ∧ runs evs = Cleaner.uninstall_argv w
                       <$> confirmed (orphaned classified) answers)
     ∧ (length answers < length (orphaned classified) →
        ∃ evs,
          Cleaner.interactive_uninstall w classified
            (IO.State (c :: o :: answers) tr)
          = (IO.Raise IO.EOFError, IO.State [] (tr ++ evs))
          ∧ runs evs = Cleaner.uninstall_argv w
                       <$> confirmed (orphaned classified) answers))
  ∧ (orphans ≠ [] → (∀ pkg, pkg ∈ orphans → pkg ∈ Py.keys V) →
       (length answers = length orphans →
          ∃ evs,
            Main.menu w orphans V (IO.State (c :: o :: answers ++ rest) tr)
            = (IO.Ok (), IO.State rest (tr ++ evs))
            ∧ runs evs = Main.uninstall_argv <$> confirmed orphans answers)
       ∧ (length answers < length orphans →
          ∃ evs,
            Main.menu w orphans V (IO.State (c :: o :: answers) tr)
            = (IO.Raise IO.EOFError, IO.State [] (tr ++ evs))
            ∧ runs evs = Main.uninstall_argv <$> confirmed orphans answers)).
Proof.
  intros Hc Ho. split.
  - intros Horph.
    pose proof (orphaned_keys classified) as Hkeys.
    split; intros Hlen.
    + rewrite cleaner_menu_asks, Hc, options_run, Ho by done.
      unfold Menu.dispatch. rewrite bool_decide_eq_true_2 by done.
      erewrite bind_Ok.
      2:{ apply (bulk_loop_run (Cleaner.uninstall_argv w)
                   (cleaner_version classified) _ (orphaned classified));
          [|done..].
          intros. by apply cleaner_confirm_answered, Hkeys. }
      rewrite print_run. simpl. rewrite <-!app_assoc.
      eexists. split; [done|].
      rewrite !runs_app, runs_cleaner_intro, runs_bulk_events. simpl.
      by rewrite app_nil_r.
    + rewrite cleaner_menu_asks, Hc, options_run, Ho by done.
      unfold Menu.dispatch. rewrite bool_decide_eq_true_2 by done.
      destruct (bulk_loop_eof (Cleaner.uninstall_argv w)
                  (cleaner_version classified)
                  (Cleaner.confirm_uninstall w classified)
                  (orphaned classified)
                  (λ pkg answer rest tr Hpkg,
                     cleaner_confirm_answered w classified pkg answer rest tr
                       (Hkeys pkg Hpkg))
                  (λ pkg tr Hpkg,
                     cleaner_confirm_eof w classified pkg tr (Hkeys pkg Hpkg))
                  (orphaned classified) answers
                  ((tr ++ cleaner_intro classified) ++ options_events))
        as (evs & Hrun & Hruns); [done | done |].
      exists (cleaner_intro classified ++ options_events ++ evs). split.
      * erewrite bind_Raise by apply Hrun. by rewrite <-!app_assoc.
      * by rewrite !runs_app, runs_cleaner_intro, Hruns.
  - intros Horph Hkeys. split; intros Hlen.
    + rewrite main_menu_asks, Hc, options_run, Ho by done.
      unfold Menu.dispatch. rewrite bool_decide_eq_true_2 by done.
      erewrite bind_Ok.
      2:{ apply (bulk_loop_run Main.uninstall_argv (main_version V)
                   _ orphans); [|done..].
          intros. by apply main_confirm_answered, Hkeys. }
      rewrite print_run. simpl. rewrite <-!app_assoc.
      eexists. split; [done|].
      rewrite !runs_app, runs_main_intro, runs_bulk_events. simpl.
      by rewrite app_nil_r.
    + rewrite main_menu_asks, Hc, options_run, Ho by done.
      unfold Menu.dispatch. rewrite bool_decide_eq_true_2 by done.
      destruct (bulk_loop_eof Main.uninstall_argv (main_version V)
                  (Main.confirm_uninstall w V) orphans
                  (λ pkg answer rest tr Hpkg,
                     main_confirm_answered w V pkg answer rest tr
                       (Hkeys pkg Hpkg))
                  (λ pkg tr Hpkg,
                     main_confirm_eof w V pkg tr (Hkeys pkg Hpkg))
                  orphans answers
                  ((tr ++ main_intro orphans V) ++ options_events))
        as (evs & Hrun & Hruns); [done | done |].
      exists (main_intro orphans V ++ options_events ++ evs). split.
      * erewrite bind_Raise by apply Hrun. by rewrite <-!app_assoc.
      * by rewrite !runs_app, runs_main_intro, Hruns.
Qed.

(** An instance: three orphans, the first and the last confirmed. *)
Lemma bulk_mode_uninstalls_confirmed_witness :
  let w := IO.World "python3" (λ _ _, IO.Completed 0 EmptyString)
                    (λ _, None) (λ _, None) in
  let classified :=
    [("flask", PkgInfo "3.0" "application" false);
     ("click", PkgInfo "8.1" "application" false);
     ("rich", PkgInfo "13.0" "application" false)] in
  ∃ evs,
    Cleaner.interactive_uninstall w classified
      (IO.State ["y"; "1"; "Y"; "n"; " y "] [])
    = (IO.Ok (), IO.State [] evs)
    ∧ runs evs = [["python3"; "-m"; "pip"; "uninstall"; "flask"; "-y"];
                  ["python3"; "-m"; "pip"; "uninstall"; "rich"; "-y"]].
Proof.
  intros w classified.
  destruct (bulk_mode_uninstalls_confirmed w classified [] [] "y" "1"
              ["Y"; "n"; " y "] [] [])
    as [Hcleaner _]; [by vm_compute | by vm_compute |].
  destruct Hcleaner as [Hall _]; [by vm_compute|].
  destruct Hall as (evs & Hrun & Hruns); [by vm_compute|].
  by exists evs.
Defined.

(** ** Leaving the menu without uninstalling *)

(** In both scripts the menu starts no child process unless the first
    answer is a yes and the mode is "1" or "2".  Without orphans it prints
    one line and reads nothing.  After any other first answer
    python_package_cleaner.py returns, while main.py prints "No packages were
    uninstalled." and leaves through [SystemExit].  After a yes and any
    mode other than "1" and "2", both print "Invalid option. Exiting." and
    return. *)
Theorem menu_without_consent_starts_nothing (w : IO.world)
    (classified : Py.dict pkg_info) (orphans : list string)
    (V : Py.dict string) (c o : string) (ins : list string)
    (tr : list IO.event) :
  runs (cleaner_intro classified) = []
  ∧ runs (main_intro orphans V) = []
  ∧ (orphaned classified = [] →
       Cleaner.interactive_uninstall w classified (IO.State ins tr)
       = (IO.Ok (),
          IO.State ins
            (tr ++ [IO.Print (IO.nl
                              +:+ "No orphaned packages safe to uninstall.")])))
  ∧ (Main.menu w [] V (IO.State ins tr)
     = (IO.Ok (),
        IO.State ins
          (tr ++ [IO.Print (IO.nl +:+ "No orphaned packages found.")])))
  ∧ (orphaned classified ≠ [] →
       (IO.is_yes c = false →
          Cleaner.interactive_uninstall w classified (IO.State (c :: ins) tr)
          = (IO.Ok (), IO.State ins (tr ++ cleaner_intro classified)))
       ∧ (IO.is_yes c = true → Py.strip o ≠ "1" → Py.strip o ≠ "2" →
          Cleaner.interactive_uninstall w classified
            (IO.State (c :: o :: ins) tr)
          = (IO.Ok (),
             IO.State ins
               (tr ++ cleaner_intro classified ++ options_events
                   ++ [IO.Print "Invalid option. Exiting."]))))
  ∧ (orphans ≠ [] → (∀ pkg, pkg ∈ orphans → pkg ∈ Py.keys V) →
       (IO.is_yes c = false →
          Main.menu w orphans V (IO.State (c :: ins) tr)
          = (IO.Raise IO.SystemExit,
             IO.State ins
               (tr ++ main_intro orphans V
                   ++ [IO.Print "No packages were uninstalled."])))
       ∧ (IO.is_yes c = true → Py.strip o ≠ "1" → Py.strip o ≠ "2" →
          Main.menu w orphans V (IO.State (c :: o :: ins) tr)
          = (IO.Ok (),
             IO.State ins
               (tr ++ main_intro orphans V ++ options_events
                   ++ [IO.Print "Invalid option. Exiting."])))).
Proof.
  split_and!.
  - apply runs_cleaner_intro.
  - apply runs_main_intro.
  - intros Horph. unfold Cleaner.interactive_uninstall. by rewrite Horph.
  - done.
  - intros Horph. split.
    + intros Hc. by rewrite cleaner_menu_asks, Hc.
    + intros Hc Ho1 Ho2. rewrite cleaner_menu_asks, Hc, options_run by done.
      unfold Menu.dispatch. rewrite !bool_decide_eq_false_2 by done.
      rewrite print_run. cbn [IO.stdin IO.log]. by rewrite <-!app_assoc.
  - intros Horph Hkeys. split.
    + intros Hc. by rewrite main_menu_asks, Hc.
    + intros Hc Ho1 Ho2. rewrite main_menu_asks, Hc, options_run by done.
      unfold Menu.dispatch. rewrite !bool_decide_eq_false_2 by done.
      rewrite print_run. cbn [IO.stdin IO.log]. by rewrite <-!app_assoc.
Qed.

(** An instance: the answer "no" in main.py. *)
Lemma menu_without_consent_starts_nothing_witness :
  let w := IO.World "python3" (λ _ _, IO.Completed 0 EmptyString)
                    (λ _, None) (λ _, None) in
  let V := [("flask", "3.0")] in
  Main.menu w ["flask"] V (IO.State ["no"; "1"] [])
  = (IO.Raise IO.SystemExit,
     IO.State ["1"]
       (main_intro ["flask"] V ++ [IO.Print "No packages were uninstalled."])).
Proof.
  intros w V.
  destruct (menu_without_consent_starts_nothing w [] ["flask"] V
              "no" "1" ["1"] [])
    as (_ & _ & _ & _ & _ & Hmain).
  destruct Hmain as [Hno _]; [done | |].
  - intros pkg ->%list_elem_of_singleton. simpl. left.
  - apply Hno. by vm_compute.
Defined.

(** ** One round of the selective mode *)

Section selective_round.
Import IO.
Variables (argv_of : string → list string) (version_of : string → string)
          (confirm : string → io ()) (orphans : list string).

Hypothesis confirm_run : ∀ pkg answer rest tr, pkg ∈ orphans →
  confirm pkg (State (answer :: rest) tr)
  = (Ok (),
     State rest (tr ++ confirm_events argv_of pkg (version_of pkg) answer)).

Hypothesis confirm_eof : ∀ pkg tr, pkg ∈ orphans →
  confirm pkg (State [] tr)
  = (Raise EOFError,
     State [] (tr ++ [Prompt (Menu.confirm_prompt pkg (version_of pkg))])).







End selective_round.



(** ** The table of [display_packages] *)

Lemma string_length_app (s1 s2 : string) :
  String.length (s1 +:+ s2) = String.length s1 + String.length s2.
Proof. induction s1 as [|c s1 IH]; simpl; [done | by rewrite IH]. Qed.

Lemma string_app_assoc (s1 s2 s3 : string) :
  (s1 +:+ s2) +:+ s3 = s1 +:+ s2 +:+ s3.
Proof.
  induction s1 as [|c s1 IH]; [done|].
  change (String c ((s1 +:+ s2) +:+ s3) = String c (s1 +:+ s2 +:+ s3)).
  by rewrite IH.
Qed.

Lemma length_repeat_char (c : ascii) (n : nat) :
  String.length (Py.repeat_char c n) = n.
Proof. induction n as [|n IH]; simpl; [done | by rewrite IH]. Qed.

Lemma length_ljust (w : nat) (s : string) :
  String.length (Py.ljust w s) = w `max` String.length s.
Proof.
  unfold Py.ljust. rewrite string_length_app, length_repeat_char. lia.
Qed.

Lemma for_each_print_run {A} (f : A → string) (xs : list A) (st : IO.state) :
  IO.for_each xs (λ x, IO.print (f x)) st
  = (IO.Ok (),
     IO.State (IO.stdin st)
       (IO.log st ++ ((λ x, IO.Print (f x)) <$> xs))).
Proof.
  revert st. induction xs as [|x xs IH]; intros st; simpl.
  - rewrite app_nil_r. by destruct st.
  - erewrite bind_Ok by apply print_run. rewrite IH. simpl.
    by rewrite <-app_assoc.
Qed.

(** [display_packages] prints a heading, a rule of fifty dashes and one row
    per package, in the order of the mapping; it reads nothing, starts no
    process and cannot fail.  A row is the name, the version and the label
    in that order: the name is never cut, 32 characters precede the label
    when the name has at most 20 characters and the version at most 10, and
    a longer name or version pushes it to the right by the excess. *)
Theorem display_packages_table (classified : Py.dict pkg_info)
    (st : IO.state) :
  Cleaner.display_packages classified st
  = (IO.Ok (),
     IO.State (IO.stdin st)
       (IO.log st
        ++ IO.Print "Package              Version    Used By"
        :: IO.Print (Py.repeat_char "-"%char 50)
        :: ((λ item, IO.Print (table_row item.1 item.2)) <$> classified)))
  ∧ String.length (Py.repeat_char "-"%char 50) = 50
  ∧ ∀ pkg info,
      table_row pkg info = table_left pkg info +:+ used_by info
      ∧ (∃ rest, table_row pkg info = pkg +:+ rest)
      ∧ String.length (table_left pkg info)
        = (20 `max` String.length pkg)
          + (10 `max` String.length (info_version info)) + 2.
Proof.
  split_and!.
  - unfold Cleaner.display_packages.
    erewrite bind_Ok by apply print_run.
    erewrite bind_Ok by apply print_run.
    rewrite (for_each_print_run (λ item, table_row item.1 item.2)).
    cbn [IO.stdin IO.log]. by rewrite <-!app_assoc.
  - apply length_repeat_char.
  - intros pkg info. split_and!.
    + unfold table_row, table_left. by rewrite !string_app_assoc.
    + unfold table_row, Py.ljust. rewrite string_app_assoc. by eexists.
    + unfold table_left.
      rewrite !string_length_app, !length_ljust. simpl. lia.
Qed.

(** ** [find_orphans] of main.py *)



(** ** python_package_cleaner.py when a tool fails *)

(** When the probe succeeds but the listing command fails, or its objects
    lack a name or a version, or the tree command fails, the script ends
    with [CalledProcessError], [KeyError] and [CalledProcessError]
    respectively, right after the command in question: no table is printed,
    no line is read and nothing is uninstalled. *)
Theorem cleaner_main_stops_when_a_tool_fails (w : IO.world) (st : IO.state)
    (packages : list pkg_obj) (I : Py.dict pkg_data) :
  let log1 := IO.log st ++ [IO.Run (Cleaner.probe_argv w)] in
  let log2 := log1 ++ [IO.Print "Scanning installed packages..."] in
  let listing := IO.subprocess w log2 (Cleaner.list_argv w) in
  let log3 := log2 ++ [IO.Run (Cleaner.list_argv w)] in
  let tree := IO.subprocess w log3 (Cleaner.tree_argv w) in
  let log4 := log3 ++ [IO.Run (Cleaner.tree_argv w)] in
  IO.returncode (IO.subprocess w (IO.log st) (Cleaner.probe_argv w)) = 0%Z →
  (IO.returncode listing ≠ 0%Z →
     Cleaner.main w st
     = (IO.Raise IO.CalledProcessError, IO.State (IO.stdin st) log3))
  ∧ (IO.returncode listing = 0%Z →
     IO.json_packages w (IO.stdout listing) = Some packages →
     (∃ pkg : pkg_obj, pkg ∈ packages
        ∧ (pkg !! "name" = None ∨ pkg !! "version" = None)) →
     Cleaner.main w st = (IO.Raise IO.KeyError, IO.State (IO.stdin st) log3))
  ∧ (IO.returncode listing = 0%Z →
     IO.json_packages w (IO.stdout listing) = Some packages →
     Cleaner.installed_of_json packages = Some I →
     IO.returncode tree ≠ 0%Z →
     Cleaner.main w st
     = (IO.Raise IO.CalledProcessError, IO.State (IO.stdin st) log4)).
Proof.
  intros log1 log2 listing log3 tree log4 Hprobe.
  assert (Cleaner.ensure_pipdeptree w st
          = (IO.Ok (), IO.State (IO.stdin st) log1)) as Hensure.
  { unfold Cleaner.ensure_pipdeptree, IO.try_except.
    by erewrite bind_Ok by by apply run_checked_ok. }
  assert (∀ r,
            Cleaner.get_installed_packages w (IO.State (IO.stdin st) log2)
            = (IO.Raise r, IO.State (IO.stdin st) log3) →
            Cleaner.main w st = (IO.Raise r, IO.State (IO.stdin st) log3))
    as Hstop.
  { intros r Hget. unfold Cleaner.main.
    erewrite bind_Ok by apply Hensure.
    erewrite bind_Ok by apply print_run.
    by erewrite bind_Raise by apply Hget. }
  split_and!.
  - intros Hrc. apply Hstop. unfold Cleaner.get_installed_packages.
    by erewrite bind_Raise by by apply run_checked_fail.
  - intros Hrc Hpackages Hmissing. apply Hstop.
    unfold Cleaner.get_installed_packages.
    erewrite bind_Ok by by apply run_checked_ok.
    cbn [IO.log]. fold listing. rewrite Hpackages.
    erewrite bind_Ok by done.
    assert (Cleaner.installed_of_json packages = None) as ->; [|done].
    unfold Cleaner.installed_of_json. apply comprehension_None.
    destruct Hmissing as (pkg & Hpkg & Hnone). exists pkg. split; [done|].
    by apply installed_item_None.
  - intros Hrc Hpackages HI Hrc'.
    assert (Cleaner.get_installed_packages w (IO.State (IO.stdin st) log2)
            = (IO.Ok I, IO.State (IO.stdin st) log3)) as Hget.
    { unfold Cleaner.get_installed_packages.
      erewrite bind_Ok by by apply run_checked_ok.
      cbn [IO.log]. fold listing. rewrite Hpackages.
      erewrite bind_Ok by done. by rewrite HI. }
    assert (Cleaner.classify_packages w I (IO.State (IO.stdin st) log3)
            = (IO.Raise IO.CalledProcessError, IO.State (IO.stdin st) log4))
      as Hclassify.
    { unfold Cleaner.classify_packages, Cleaner.get_dependency_tree.
      erewrite bind_Raise; [done|].
      by erewrite bind_Raise by by apply run_checked_fail. }
    unfold Cleaner.main.
    erewrite bind_Ok by apply Hensure.
    erewrite bind_Ok by apply print_run.
    erewrite bind_Ok by apply Hget.
    by erewrite bind_Raise by apply Hclassify.
Qed.

(** An instance: the listing lacks a version for one package. *)
Lemma cleaner_main_stops_when_a_tool_fails_witness :
  let w := IO.World "python3" (λ _ _, IO.Completed 0 EmptyString)
             (λ _, Some [ ({[ "name" := "flask" ]} : pkg_obj) ])
             (λ _, Some []) in
  (Cleaner.main w (IO.State ["y"; "1"; "y"] [])).1 = IO.Raise IO.KeyError
  ∧ IO.stdin (Cleaner.main w (IO.State ["y"; "1"; "y"] [])).2
    = ["y"; "1"; "y"].
Proof.
  intros w.
  destruct (cleaner_main_stops_when_a_tool_fails w
              (IO.State ["y"; "1"; "y"] [])
              [ ({[ "name" := "flask" ]} : pkg_obj) ] [])
    as (_ & Hkey & _); [done|].
  rewrite Hkey; [done | done | done |].
  eexists. split; [left | right; by vm_compute].
Defined.

(** ** Where an uninstalled name comes from *)

Section provenance.
Import IO.
Variable w : world.

(** The three ways [ensure_pipdeptree] can go. *)
Lemma ensure_pipdeptree_run (st : state) :
  let log1 := log st ++ [Run (Cleaner.probe_argv w)] in
  let log2 := log1 ++ [Print "pipdeptree not found. Installing..."] in
  let log3 := log2 ++ [Run (Cleaner.install_argv w)] in
  Cleaner.ensure_pipdeptree w st
  = if (returncode (subprocess w (log st) (Cleaner.probe_argv w)) =? 0)%Z
    then (Ok (), State (stdin st) log1)
    else if (returncode (subprocess w log2 (Cleaner.install_argv w)) =? 0)%Z
         then (Ok (),
               State (stdin st)
                 (log3 ++ [Print "pipdeptree installed successfully."]))
         else (Raise CalledProcessError, State (stdin st) log3).
Proof.
  intros log1 log2 log3.
  unfold Cleaner.ensure_pipdeptree, try_except, mbind, io_bind.
  rewrite run_checked.
  destruct (returncode (subprocess w (log st) _) =? 0)%Z; [done|].
  case_decide; [|done]. rewrite print_run. cbn [stdin log].
  rewrite run_checked. cbn [stdin log]. fold log1 log2.
  destruct (returncode (subprocess w log2 _) =? 0)%Z; [|done].
  by rewrite print_run.
Qed.

(** [get_installed_packages] of python_package_cleaner.py: the command is
    logged, and the call returns the mapping when the command succeeds,
    its output decodes and every object has a name and a version. *)
Lemma cleaner_get_installed_run (st : state) :
  let listing := subprocess w (log st) (Cleaner.list_argv w) in
  let st1 := State (stdin st) (log st ++ [Run (Cleaner.list_argv w)]) in
  Cleaner.get_installed_packages w st
  = if (returncode listing =? 0)%Z
    then match json_packages w (stdout listing) with
         | None => (Raise JSONDecodeError, st1)
         | Some packages =>
             match Cleaner.installed_of_json packages with
             | None => (Raise KeyError, st1)
             | Some installed => (Ok installed, st1)
             end
         end
    else (Raise CalledProcessError, st1).
Proof.
  intros listing st1.
  unfold Cleaner.get_installed_packages, mbind, io_bind.
  rewrite run_checked. fold listing st1.
  destruct (returncode listing =? 0)%Z; [|done].
  destruct (json_packages w _) as [packages|]; [|done]. simpl.
  by destruct (Cleaner.installed_of_json packages).
Qed.

Lemma cleaner_classify_run (I : Py.dict pkg_data) (st : state) :
  let tree := subprocess w (log st) (Cleaner.tree_argv w) in
  let st1 := State (stdin st) (log st ++ [Run (Cleaner.tree_argv w)]) in
  Cleaner.classify_packages w I st
  = if (returncode tree =? 0)%Z
    then match json_tree w (stdout tree) with
         | None => (Raise JSONDecodeError, st1)
         | Some T => (Ok (classify T I), st1)
         end
    else (Raise CalledProcessError, st1).
Proof.
  intros tree st1.
  unfold Cleaner.classify_packages, Cleaner.get_dependency_tree, mbind,
    io_bind.
  rewrite run_checked. fold tree st1.
  destruct (returncode tree =? 0)%Z; [|done].
  by destruct (json_tree w _).
Qed.

(** [find_orphans] of main.py, likewise. *)
Lemma find_orphans_run (st : state) :
  let list_cmd := ["python3"; "-m"; "pip"; "list"; "--format=json"] in
  let tree_cmd := ["python3"; "-m"; "pipdeptree"; "--json"] in
  let listing := subprocess w (log st) list_cmd in
  let st1 := State (stdin st) (log st ++ [Run list_cmd]) in
  let tree := subprocess w (log st1) tree_cmd in
  let st2 := State (stdin st) (log st1 ++ [Run tree_cmd]) in
  Main.find_orphans w st
  = if (returncode listing =? 0)%Z
    then match json_packages w (stdout listing) with
         | None => (Raise JSONDecodeError, st1)
         | Some packages =>
             match Main.versions_of_json packages with
             | None => (Raise KeyError, st1)
             | Some V =>
                 if (returncode tree =? 0)%Z
                 then match json_tree w (stdout tree) with
                      | None => (Raise JSONDecodeError, st2)
                      | Some T => (Ok (orphans_of T V, V), st2)
                      end
                 else (Raise CalledProcessError, st2)
             end
         end
    else (Raise CalledProcessError, st1).
Proof.
  intros list_cmd tree_cmd listing st1 tree st2.
  unfold Main.find_orphans, Main.get_installed_packages,
    Main.get_dependency_tree, mbind, io_bind.
  rewrite run_checked. fold list_cmd listing st1.
  destruct (returncode listing =? 0)%Z; [|done].
  destruct (json_packages w _) as [packages|]; [|done]. simpl.
  destruct (Main.versions_of_json packages) as [V|]; [|done]. simpl.
  rewrite run_checked. fold tree_cmd tree st2.
  destruct (returncode tree =? 0)%Z; [|done].
  by destruct (json_tree w _).
Qed.

(** The table adds printed lines to the log and nothing else. *)
Lemma display_packages_prints (classified : Py.dict pkg_info) (st : state) :
  ∃ lines,
    Cleaner.display_packages classified st
    = (Ok (), State (stdin st) (log st ++ (Print <$> lines))).
Proof.
  unfold Cleaner.display_packages.
  eexists (_ :: _ :: ((λ item : string * pkg_info, _) <$> classified)).
  erewrite bind_Ok by apply print_run.
  erewrite bind_Ok by apply print_run.
  rewrite for_each_print_run. cbn [stdin log].
  do 2 f_equal. rewrite <-!app_assoc. simpl. do 3 f_equal.
  by rewrite <-list_fmap_compose.
Qed.

Lemma prints_no_run (lines : list string) (argv : list string) :
  Run argv ∉ Print <$> lines.
Proof. by intros (line & ? & _)%list_elem_of_fmap. Qed.


Lemma ensure_pipdeptree_cases (st : state) :
  ∃ ens,
    (∀ n, Run (Cleaner.uninstall_argv w n) ∉ ens)
    ∧ (Cleaner.ensure_pipdeptree w st
       = (Ok (), State (stdin st) (log st ++ ens))
       ∨ Cleaner.ensure_pipdeptree w st
         = (Raise CalledProcessError, State (stdin st) (log st ++ ens))).
Proof.
  rewrite ensure_pipdeptree_run.
  destruct (returncode (subprocess w (log st) _) =? 0)%Z.
  { exists [Run (Cleaner.probe_argv w)]. split; [|by left].
    intros n Hn. no_such_event Hn. }
  destruct (returncode (subprocess w _ (Cleaner.install_argv w)) =? 0)%Z.
  - exists [Run (Cleaner.probe_argv w);
            Print "pipdeptree not found. Installing...";
            Run (Cleaner.install_argv w);
            Print "pipdeptree installed successfully."].
    split; [intros n Hn; no_such_event Hn|].
    left. by rewrite <-!app_assoc.
  - exists [Run (Cleaner.probe_argv w);
            Print "pipdeptree not found. Installing...";
            Run (Cleaner.install_argv w)].
    split; [intros n Hn; no_such_event Hn|].
    right. by rewrite <-!app_assoc.
Qed.

Lemma cleaner_get_installed_cases (st : state) :
  let listing := subprocess w (log st) (Cleaner.list_argv w) in
  let st1 := State (stdin st) (log st ++ [Run (Cleaner.list_argv w)]) in
  (∃ packages I,
     returncode listing = 0%Z
     ∧ json_packages w (stdout listing) = Some packages
     ∧ Cleaner.installed_of_json packages = Some I
     ∧ Cleaner.get_installed_packages w st = (Ok I, st1))
  ∨ (∃ e, Cleaner.get_installed_packages w st = (Raise e, st1)).
Proof.
  intros listing st1. rewrite cleaner_get_installed_run. fold listing st1.
  destruct (returncode listing =? 0)%Z eqn:Hrc; [|by right; eexists].
  apply Z.eqb_eq in Hrc.
  destruct (json_packages w _) as [packages|]; [|by right; eexists].
  destruct (Cleaner.installed_of_json packages) as [I|] eqn:HI;
    [|by right; eexists].
  left. by exists packages, I.
Qed.

Lemma cleaner_classify_cases (I : Py.dict pkg_data) (st : state) :
  let tree := subprocess w (log st) (Cleaner.tree_argv w) in
  let st1 := State (stdin st) (log st ++ [Run (Cleaner.tree_argv w)]) in
  (∃ T,
     returncode tree = 0%Z
     ∧ json_tree w (stdout tree) = Some T
     ∧ Cleaner.classify_packages w I st = (Ok (classify T I), st1))
  ∨ (∃ e, Cleaner.classify_packages w I st = (Raise e, st1)).
Proof.
  intros tree st1. rewrite cleaner_classify_run. fold tree st1.
  destruct (returncode tree =? 0)%Z eqn:Hrc; [|by right; eexists].
  apply Z.eqb_eq in Hrc.
  destruct (json_tree w _) as [T|]; [|by right; eexists].
  left. by exists T.
Qed.

Lemma find_orphans_cases (st : state) :
  let list_cmd := ["python3"; "-m"; "pip"; "list"; "--format=json"] in
  let tree_cmd := ["python3"; "-m"; "pipdeptree"; "--json"] in
  let listing := subprocess w (log st) list_cmd in
  let log1 := log st ++ [Run list_cmd] in
  let tree := subprocess w log1 tree_cmd in
  let log2 := log1 ++ [Run tree_cmd] in
  (∃ packages V T,
     returncode listing = 0%Z
     ∧ json_packages w (stdout listing) = Some packages
     ∧ Main.versions_of_json packages = Some V
     ∧ returncode tree = 0%Z
     ∧ json_tree w (stdout tree) = Some T
     ∧ Main.find_orphans w st
       = (Ok (orphans_of T V, V), State (stdin st) log2))
  ∨ (∃ e, Main.find_orphans w st = (Raise e, State (stdin st) log1)
          ∨ Main.find_orphans w st = (Raise e, State (stdin st) log2)).
Proof.
  intros list_cmd tree_cmd listing log1 tree log2.
  rewrite find_orphans_run. cbn [log]. fold list_cmd tree_cmd listing log1.
  fold tree log2.
  destruct (returncode listing =? 0)%Z eqn:Hrc1; [|by right; eexists; left].
  apply Z.eqb_eq in Hrc1.
  destruct (json_packages w _) as [packages|]; [|by right; eexists; left].
  destruct (Main.versions_of_json packages) as [V|] eqn:HV;
    [|by right; eexists; left].
  destruct (returncode tree =? 0)%Z eqn:Hrc2; [|by right; eexists; right].
  apply Z.eqb_eq in Hrc2.
  destruct (json_tree w _) as [T|] eqn:HT; [|by right; eexists; right].
  left. by exists packages, V, T.
Qed.

End provenance.

(** Whatever python_package_cleaner.py uninstalls in a run, the run went
    like this: [ensure_pipdeptree] ended normally; then came the notice,
    pip's listing and pipdeptree's tree, both answered with status 0 and
    decoded; from there the run is the table and the menu for the
    classification of that listing against that tree.  The name uninstalled
    is a name of that listing, an orphan of that classification, none of
    pip, setuptools, wheel and pipdeptree, and no entry of that tree lists
    it as a dependency.  The listing and the tree are the answers the tools
    gave at the point of the run where the script asked. *)
Theorem cleaner_uninstalls_listed_unprotected (w : IO.world)
    (st : IO.state) (evs : list IO.event) (name : string) :
  IO.log (Cleaner.main w st).2 = IO.log st ++ evs →
  IO.Run (Cleaner.uninstall_argv w name) ∈ evs →
  ∃ ens packages I T post,
    let scanning := IO.Print "Scanning installed packages..." in
    let log1 := IO.log st ++ ens in
    let log2 := log1 ++ [scanning] in
    let listing := IO.subprocess w log2 (Cleaner.list_argv w) in
    let log3 := log2 ++ [IO.Run (Cleaner.list_argv w)] in
    let tree := IO.subprocess w log3 (Cleaner.tree_argv w) in
    let log4 := log3 ++ [IO.Run (Cleaner.tree_argv w)] in
    Cleaner.ensure_pipdeptree w st = (IO.Ok (), IO.State (IO.stdin st) log1)
    ∧ evs = ens ++ scanning :: IO.Run (Cleaner.list_argv w)
                :: IO.Run (Cleaner.tree_argv w) :: post
    ∧ IO.returncode listing = 0%Z
    ∧ IO.json_packages w (IO.stdout listing) = Some packages
    ∧ Cleaner.installed_of_json packages = Some I
    ∧ IO.returncode tree = 0%Z
    ∧ IO.json_tree w (IO.stdout tree) = Some T
    ∧ Cleaner.main w st
      = (Cleaner.display_packages (classify T I);;
         Cleaner.interactive_uninstall w (classify T I))
          (IO.State (IO.stdin st) log4)
    ∧ IO.Run (Cleaner.uninstall_argv w name) ∈ post
    ∧ (∃ pkg : pkg_obj, pkg ∈ packages ∧ pkg !! "name" = Some name)
    ∧ name ∈ orphaned (classify T I)
    ∧ name ∉ skip_packages
    ∧ (∀ entry dep, entry ∈ T → dep ∈ default [] (dependencies entry) →
                    package_name dep ≠ name).
Proof.
  intros Hlog Hrun.
  destruct (ensure_pipdeptree_cases w st) as (ens & Hno & [Hens|Hens]).
  2: { exfalso. unfold Cleaner.main in Hlog.
       erewrite bind_Raise in Hlog by apply Hens.
       apply app_inv_head in Hlog as <-. by apply (Hno name). }
  set (scanning := IO.Print "Scanning installed packages...").
  set (st2 := IO.State (IO.stdin st) ((IO.log st ++ ens) ++ [scanning])).
  destruct (cleaner_get_installed_cases w st2)
    as [(packages & I & Hrc1 & Hpackages & HI & Hget)|[e Hget]].
  2: { exfalso. unfold Cleaner.main in Hlog.
       erewrite bind_Ok in Hlog by apply Hens.
       erewrite bind_Ok in Hlog by apply print_run.
       erewrite bind_Raise in Hlog by apply Hget.
       cbn [snd IO.log IO.stdin st2] in Hlog. rewrite <-!app_assoc in Hlog.
       apply app_inv_head in Hlog as <-.
       apply elem_of_app in Hrun as [Hrun|Hrun]; [by apply (Hno name)|].
       no_such_event Hrun. }
  set (st3 := IO.State (IO.stdin st)
                (IO.log st2 ++ [IO.Run (Cleaner.list_argv w)])) in *.
  destruct (cleaner_classify_cases w I st3)
    as [(T & Hrc2 & HT & Hclassify)|[e Hclassify]].
  2: { exfalso. unfold Cleaner.main in Hlog.
       erewrite bind_Ok in Hlog by apply Hens.
       erewrite bind_Ok in Hlog by apply print_run.
       erewrite bind_Ok in Hlog by apply Hget.
       erewrite bind_Raise in Hlog by apply Hclassify.
       cbn [snd IO.log IO.stdin st2 st3] in Hlog.
       rewrite <-!app_assoc in Hlog.
       apply app_inv_head in Hlog as <-.
       apply elem_of_app in Hrun as [Hrun|Hrun]; [by apply (Hno name)|].
       no_such_event Hrun. }
  set (st4 := IO.State (IO.stdin st)
                (IO.log st3 ++ [IO.Run (Cleaner.tree_argv w)])) in *.
  assert (Cleaner.main w st
          = (Cleaner.display_packages (classify T I);;
             Cleaner.interactive_uninstall w (classify T I)) st4) as Hmain.
  { unfold Cleaner.main.
    erewrite bind_Ok by apply Hens.
    erewrite bind_Ok by apply print_run.
    erewrite bind_Ok by apply Hget.
    by erewrite bind_Ok by apply Hclassify. }
  destruct (display_packages_prints (classify T I) st4) as [lines Hdisplay].
  destruct (sound_interactive_uninstall w (classify T I)
              (IO.State (IO.stdin st4) (IO.log st4 ++ (IO.Print <$> lines))))
    as (_ & _ & _ & mevs & Hmlog & Hmevs).
  rewrite Hmain in Hlog. erewrite bind_Ok in Hlog by apply Hdisplay.
  rewrite Hmlog in Hlog. cbn [IO.log IO.stdin st2 st3 st4] in Hlog.
  rewrite <-!app_assoc in Hlog. apply app_inv_head in Hlog as <-.
  assert (IO.Run (Cleaner.uninstall_argv w name) ∈ mevs) as Hin.
  { apply elem_of_app in Hrun as [Hrun|Hrun]; [by destruct (Hno name)|].
    apply elem_of_cons in Hrun as [Hrun|Hrun]; [done|].
    apply elem_of_cons in Hrun as [Hrun|Hrun]; [by inversion Hrun|].
    apply elem_of_cons in Hrun as [Hrun|Hrun]; [by inversion Hrun|].
    apply elem_of_app in Hrun as [Hrun|Hrun]; [|done].
    by destruct (prints_no_run lines _ Hrun). }
  assert (name ∈ orphaned (classify T I)) as Horphan.
  { rewrite Forall_forall in Hmevs. by apply (Hmevs _ Hin). }
  destruct (orphaned_classify T I name Horphan) as (Hkey & _ & _ & _ & _ & Hreq).
  exists ens, packages, I, T, ((IO.Print <$> lines) ++ mevs). cbv zeta.
  split_and!; try done.
  - apply elem_of_app. by right.
  - by eapply installed_keys_listed.
  - by eapply orphaned_classify_not_skip.
  - intros entry dep Hentry Hdep Hname. apply Hreq.
    apply elem_of_required_packages. by exists entry, dep.
Qed.

(** An instance: flask and pip are listed, nothing depends on either, and
    flask, the one orphan, is confirmed in the bulk mode. *)
Lemma cleaner_uninstalls_listed_unprotected_witness :
  let w := IO.World "python3" (λ _ _, IO.Completed 0 EmptyString)
             (λ _, Some [ ({[ "name" := "flask"; "version" := "3.0" ]}
                           : pkg_obj);
                          ({[ "name" := "pip"; "version" := "23.0" ]}
                           : pkg_obj) ])
             (λ _, Some []) in
  let st := IO.State ["y"; "1"; "y"] [] in
  ∃ ens packages I T,
    Cleaner.ensure_pipdeptree w st = (IO.Ok (), IO.State (IO.stdin st) ens)
    ∧ IO.json_packages w
        (IO.stdout
           (IO.subprocess w
              (ens ++ [IO.Print "Scanning installed packages..."])
              (Cleaner.list_argv w))) = Some packages
    ∧ Cleaner.installed_of_json packages = Some I
    ∧ "flask" ∈ orphaned (classify T I)
    ∧ "flask" ∉ skip_packages.
Proof.
  intros w st.
  destruct (cleaner_uninstalls_listed_unprotected w st
              (IO.log (Cleaner.main w st).2) "flask")
    as (ens & packages & I & T & post & Hens & _ & _ & Hpackages & HI
        & _ & _ & _ & _ & _ & Horphan & Hskip & _);
    [reflexivity | compute_done |].
  by exists ens, packages, I, T.
Defined.

(** Whatever main.py uninstalls in a run, the run went like this: after
    the notice came pip's listing and pipdeptree's tree, both answered with
    status 0 and decoded; from there the run is the list of installed
    packages and the menu for the orphans of that listing against that tree.
    The name uninstalled is a name of that listing and one of those orphans,
    and no entry of that tree lists it as a dependency.  The listing and the
    tree are the answers the tools gave at the point of the run where the
    script asked. *)
Theorem main_uninstalls_listed_unrequired (w : IO.world)
    (st : IO.state) (evs : list IO.event) (name : string) :
  IO.log (Main.main w st).2 = IO.log st ++ evs →
  IO.Run (Main.uninstall_argv name) ∈ evs →
  ∃ packages V T post,
    let scanning := IO.Print "Scanning installed packages..." in
    let list_cmd := ["python3"; "-m"; "pip"; "list"; "--format=json"] in
    let tree_cmd := ["python3"; "-m"; "pipdeptree"; "--json"] in
    let log1 := IO.log st ++ [scanning] in
    let listing := IO.subprocess w log1 list_cmd in
    let log2 := log1 ++ [IO.Run list_cmd] in
    let tree := IO.subprocess w log2 tree_cmd in
    let log3 := log2 ++ [IO.Run tree_cmd] in
    evs = scanning :: IO.Run list_cmd :: IO.Run tree_cmd :: post
    ∧ IO.returncode listing = 0%Z
    ∧ IO.json_packages w (IO.stdout listing) = Some packages
    ∧ Main.versions_of_json packages = Some V
    ∧ IO.returncode tree = 0%Z
    ∧ IO.json_tree w (IO.stdout tree) = Some T
    ∧ Main.main w st
      = (IO.print (IO.nl +:+ "Installed packages:");;
         IO.for_each V (λ item, IO.print (Menu.bullet item.1 item.2));;
         Main.menu w (orphans_of T V) V)
          (IO.State (IO.stdin st) log3)
    ∧ IO.Run (Main.uninstall_argv name) ∈ post
    ∧ (∃ pkg : pkg_obj, pkg ∈ packages ∧ pkg !! "name" = Some name)
    ∧ name ∈ orphans_of T V
    ∧ (∀ entry dep, entry ∈ T → dep ∈ default [] (dependencies entry) →
                    package_name dep ≠ name).
Proof.
  intros Hlog Hrun.
  set (scanning := IO.Print "Scanning installed packages...").
  set (st1 := IO.State (IO.stdin st) (IO.log st ++ [scanning])).
  destruct (find_orphans_cases w st1)
    as [(packages & V & T & Hrc1 & Hpackages & HV & Hrc2 & HT & Hfind)
       |[e [Hfind|Hfind]]].
  2, 3: exfalso; unfold Main.main in Hlog;
        erewrite bind_Ok in Hlog by apply print_run;
        erewrite bind_Raise in Hlog by apply Hfind;
        cbn [snd IO.log IO.stdin st1] in Hlog;
        rewrite <-!app_assoc in Hlog;
        apply app_inv_head in Hlog as <-;
        no_such_event Hrun.
  cbn [IO.log IO.stdin st1] in Hrc1, Hpackages, Hrc2, HT, Hfind.
  set (list_cmd := ["python3"; "-m"; "pip"; "list"; "--format=json"]) in *.
  set (tree_cmd := ["python3"; "-m"; "pipdeptree"; "--json"]) in *.
  set (st3 := IO.State (IO.stdin st)
                (((IO.log st ++ [scanning]) ++ [IO.Run list_cmd])
                 ++ [IO.Run tree_cmd])) in *.
  assert (Main.main w st
          = (IO.print (IO.nl +:+ "Installed packages:");;
             IO.for_each V (λ item, IO.print (Menu.bullet item.1 item.2));;
             Main.menu w (orphans_of T V) V) st3) as Hmain.
  { unfold Main.main.
    erewrite bind_Ok by apply print_run.
    by erewrite bind_Ok by apply Hfind. }
  set (rows := (λ item : string * string,
                  IO.Print (Menu.bullet item.1 item.2)) <$> V).
  set (st4 := IO.State (IO.stdin st)
                ((IO.log st3
                  ++ [IO.Print (IO.nl +:+ "Installed packages:")])
                 ++ rows)).
  destruct (sound_menu w T V st4) as (_ & _ & _ & mevs & Hmlog & Hmevs).
  rewrite Hmain in Hlog.
  erewrite bind_Ok in Hlog by apply print_run.
  erewrite bind_Ok in Hlog by apply for_each_print_run.
  change (IO.log (Main.menu w (orphans_of T V) V st4).2 = IO.log st ++ evs)
    in Hlog.
  rewrite Hmlog in Hlog. cbn [IO.log IO.stdin st3 st4] in Hlog.
  rewrite <-!app_assoc in Hlog. apply app_inv_head in Hlog as <-.
  assert (IO.Run (Main.uninstall_argv name) ∈ mevs) as Hin.
  { apply elem_of_cons in Hrun as [Hrun|Hrun]; [done|].
    apply elem_of_cons in Hrun as [Hrun|Hrun]; [by inversion Hrun|].
    apply elem_of_cons in Hrun as [Hrun|Hrun]; [by inversion Hrun|].
    apply elem_of_cons in Hrun as [Hrun|Hrun]; [done|].
    apply elem_of_app in Hrun as [Hrun|Hrun]; [|done].
    by apply list_elem_of_fmap in Hrun as (item & ? & _). }
  assert (name ∈ orphans_of T V) as Horphan.
  { rewrite Forall_forall in Hmevs. by apply (Hmevs _ Hin). }
  pose proof Horphan as [Hkey Hreq]%elem_of_orphans_of.
  exists packages, V, T,
    (IO.Print (IO.nl +:+ "Installed packages:") :: rows ++ mevs).
  cbv zeta. split_and!; try done.
  - do 4 apply elem_of_cons; right. apply elem_of_app. by right.
  - by eapply versions_keys_listed.
  - intros entry dep Hentry Hdep Hname. apply Hreq.
    apply elem_of_required_packages. by exists entry, dep.
Qed.

(** An instance: pip and flask are listed and nothing depends on either;
    main.py offers both, and pip is uninstalled once confirmed. *)
Lemma main_uninstalls_listed_unrequired_witness :
  let w := IO.World "python3" (λ _ _, IO.Completed 0 EmptyString)
             (λ _, Some [ ({[ "name" := "pip"; "version" := "23.0" ]}
                           : pkg_obj);
                          ({[ "name" := "flask"; "version" := "3.0" ]}
                           : pkg_obj) ])
             (λ _, Some []) in
  let st := IO.State ["y"; "1"; "y"; "n"] [] in
  ∃ packages V T,
    IO.json_packages w
      (IO.stdout
         (IO.subprocess w [IO.Print "Scanning installed packages..."]
            ["python3"; "-m"; "pip"; "list"; "--format=json"]))
    = Some packages
    ∧ Main.versions_of_json packages = Some V
    ∧ "pip" ∈ orphans_of T V.
Proof.
  intros w st.
  destruct (main_uninstalls_listed_unrequired w st
              (IO.log (Main.main w st).2) "pip")
    as (packages & V & T & post & _ & _ & Hpackages & HV & _ & _ & _ & _
        & _ & Horphan & _);
    [reflexivity | compute_done |].
  by exists packages, V, T.
Defined.
